(** * distkeras.trainers: a shallow embedding of the trainer hierarchy

    The module [distkeras/trainers.py] defines the class [Trainer], the
    stub [ModelAveragingTrainer], and the family rooted at
    [DistributedTrainer] (with [AsynchronousDistributedTrainer] and the four
    protocol classes [DOWNPOUR], [DOWNPOURSocket], [AEASGD], [EAMSGD]).

    Python objects are records, methods are computations in a state and
    exception monad over the receiver and the world it runs in (the clock,
    the list and parameter-server objects, the threads, and a log of the
    calls made to the collaborators).  [SingleTrainer], which involves
    neither the service nor the partition policy, has an object and a
    worker of its own. *)

From Stdlib Require Import ZArith QArith String List Lia.
From stdpp Require Import base gmap strings list.

Local Open Scope Z_scope.

(** ** Values *)

(** Exceptions that the module raises or lets through. *)
Inductive Exception : Type :=
| NotImplementedError
| TypeError                  (* calling an object that is not callable *)
| AttributeError             (* attribute access on [None] or a missing attribute *)
| IllegalArgumentException   (* the dataset engine refuses a partition count *)
| WorkerFailure (msg : string).

(** How a call ends: it returns, it raises, or it never comes back (a
    [join] on a thread whose loop is never told to stop). *)
Inductive Outcome (A : Type) : Type :=
| Returned (a : A)
| Raised (e : Exception)
| Blocked.
Arguments Returned {A} a.
Arguments Raised {A} e.
Arguments Blocked {A}.

(** The state and exception monad.  An exception leaves the state as it was
    when it was raised: Python does not roll assignments back. *)
Definition M (S A : Type) : Type := S -> Outcome A * S.

#[global] Instance M_ret {S} : MRet (M S) :=
  fun A a s => (Returned a, s).

#[global] Instance M_bind {S} : MBind (M S) :=
  fun A B f m s =>
    match m s with
    | (Returned a, s') => f a s'
    | (Raised e, s') => (Raised e, s')
    | (Blocked, s') => (Blocked, s')
    end.

Definition raise {S A} (e : Exception) : M S A := fun s => (Raised e, s).
Definition get_state {S} : M S S := fun s => (Returned s, s).
Definition gets {S A} (f : S -> A) : M S A := fun s => (Returned (f s), s).
Definition modify {S} (f : S -> S) : M S unit := fun s => (Returned tt, f s).

(** [for i in range(0, n): body] *)
Fixpoint for_range {S} (n : nat) (body : M S unit) : M S unit :=
  match n with
  | O => mret tt
  | S k => body ;; for_range k body
  end.

(** A timestamp as [time.time()] returns it, taken as a rational number. *)
Definition Timestamp := Q.

Definition KerasModel := list Q.
Definition SerializedModel := string.
Definition HistoryRecord := string.

(** A record of the dataset with its feature and label columns. *)
Record Row : Type := mkRow { row_features : list Q; row_label : Q }.

(** A dataset handle: the list of its partitions. *)
Definition DataFrame := list (list Row).

(** The argument passed for the parameter [shuffle] of [train].  Inside
    [train] the name [shuffle] is the parameter, not the module-level
    function of [distkeras.utils]: [shuffle(dataframe)] calls whatever the
    caller passed. *)
Inductive PyValue : Type :=
| PyBool (b : bool)
| PyCallable (f : DataFrame -> Exception + DataFrame).

(** Truth value, as [if shuffle:] tests it. *)
Definition truthy (v : PyValue) : bool :=
  match v with
  | PyBool b => b
  | PyCallable _ => true
  end.

(** [v(dataframe)]: a [bool] is not callable. *)
Definition call_value (v : PyValue) (df : DataFrame) : Exception + DataFrame :=
  match v with
  | PyBool _ => inl TypeError
  | PyCallable f => f df
  end.

(** ** The dataset capability

    The dataset is a pyspark [DataFrame]; the engine is not part of the
    repository.  A dataset is taken as the list of its partitions, and the
    engine's calls as functions on it. *)

(** [dataframe.rdd.getNumPartitions()] *)
Definition getNumPartitions (df : DataFrame) : Z := Z.of_nat (length df).

(** The parent partitions [lo], ..., [hi - 1]. *)
Definition slice {A} (lo hi : nat) (l : list A) : list A :=
  take (hi - lo) (drop lo l).

(** Modelled from the spec: the dataset capability's [coalesce], which
    "merges without full shuffle".  Output partition [i] of [n] is the
    concatenation of a contiguous chunk of the parents. *)
Definition coalesce_groups (n : nat) (df : DataFrame) : DataFrame :=
  map (fun i => concat (slice (i * length df / n) ((i + 1) * length df / n) df))
      (seq 0 n).

(** Modelled from the spec: the dataset capability's [coalesce(n)].  As
    in pyspark, a count that is not positive is refused, and the number of
    partitions is never increased. *)
Definition spark_coalesce (n : Z) (df : DataFrame) : Exception + DataFrame :=
  if n <=? 0 then inl IllegalArgumentException
  else if getNumPartitions df <=? n then inr df
  else inr (coalesce_groups (Z.to_nat n) df).

(** The records at positions [j], [j + n], [j + 2n], ... *)
Fixpoint every_nth (n j : nat) (rows : list Row) : list Row :=
  match rows with
  | [] => []
  | r :: rest =>
      match j with
      | O => r :: every_nth n (n - 1) rest
      | S j' => every_nth n j' rest
      end
  end.

(** Modelled from the spec: the dataset capability's [repartition(n)],
    which "may redistribute records": all records are dealt round-robin
    into exactly [n] partitions; as in pyspark, a count that is not
    positive is refused. *)
Definition spark_repartition (n : Z) (df : DataFrame) : Exception + DataFrame :=
  if n <=? 0 then inl IllegalArgumentException
  else inr (map (fun j => every_nth (Z.to_nat n) j (concat df)) (seq 0 (Z.to_nat n))).

(** ** Parameter servers and workers *)

Inductive ServerClass : Type :=
| DOWNPOURParameterServer
| DOWNPOURSocketParameterServer
| AEASGDParameterServer
| EAMSGDParameterServer.

(** Modelled from the spec: a parameter server of
    [distkeras.parameter_servers], holding the master model, the
    hyperparameters its constructor receives, whether its loop is running
    and its update count. *)
Record ParameterServer : Type := mkParameterServer {
  ps_class : ServerClass;
  ps_model : SerializedModel;
  ps_learning_rate : Q;
  ps_rho : option Q;
  ps_momentum : option Q;
  ps_port : Z;
  ps_running : bool;
  ps_updates : Z
}.

Definition set_ps_running (b : bool) (ps : ParameterServer) : ParameterServer :=
  mkParameterServer (ps_class ps) (ps_model ps) (ps_learning_rate ps) (ps_rho ps)
    (ps_momentum ps) (ps_port ps) b (ps_updates ps).

Inductive WorkerClass : Type :=
| DOWNPOURWorker
| DOWNPOURSocketWorker
| AEASGDWorker
| EAMSGDWorker.

(** A worker of [distkeras.workers]: the arguments its constructor
    receives. *)
Record Worker : Type := mkWorker {
  wk_class : WorkerClass;
  wk_model : SerializedModel;
  wk_optimizer : string;
  wk_loss : string;
  wk_features_col : string;
  wk_label_col : string;
  wk_batch_size : Z;
  wk_master_host : string;
  wk_master_port : Z;
  wk_learning_rate : Q;
  wk_rho : option Q;
  wk_momentum : option Q;
  wk_communication_window : Z
}.

(** The functions of [distkeras.utils] and [distkeras.workers] that the
    trainers call, as parameters of the development. *)
Class Collaborators : Type := {
  serialize_keras_model : KerasModel -> SerializedModel;
  deserialize_keras_model : SerializedModel -> KerasModel;
  determine_host_address : string;
  (** [worker.train(index, iterator)] on one partition *)
  worker_train : Worker -> nat -> list Row -> Exception + list SerializedModel
}.

(** ** The world *)

(** Calls made to the collaborators, in the order they returned. *)
Inductive Event : Type :=
| EvCoalesce (n : Z) (out : DataFrame)
| EvRepartition (n : Z) (out : DataFrame)
| EvWorkerTrain (index : nat)
| EvServerStop (ps : nat)
| EvThreadStart (tid : nat)
| EvThreadJoin (tid : nat).

Record World : Type := mkWorld {
  (** Python list objects, by reference *)
  lists : gmap nat (list HistoryRecord);
  (** parameter-server objects, by reference *)
  servers : gmap nat ParameterServer;
  (** threads started and not joined, each with the server whose loop it
      runs ([None]: its target has returned) *)
  threads : gmap nat (option nat);
  (** the successive readings of [time.time()] *)
  time_source : nat -> Timestamp;
  clock_reads : nat;
  events : list Event
}.

Definition set_lists (f : gmap nat (list HistoryRecord) -> gmap nat (list HistoryRecord))
    (w : World) : World :=
  mkWorld (f (lists w)) (servers w) (threads w) (time_source w) (clock_reads w) (events w).
Definition set_servers (f : gmap nat ParameterServer -> gmap nat ParameterServer)
    (w : World) : World :=
  mkWorld (lists w) (f (servers w)) (threads w) (time_source w) (clock_reads w) (events w).
Definition set_threads (f : gmap nat (option nat) -> gmap nat (option nat))
    (w : World) : World :=
  mkWorld (lists w) (servers w) (f (threads w)) (time_source w) (clock_reads w) (events w).
Definition tick (w : World) : World :=
  mkWorld (lists w) (servers w) (threads w) (time_source w) (S (clock_reads w)) (events w).
Definition log_all (es : list Event) (w : World) : World :=
  mkWorld (lists w) (servers w) (threads w) (time_source w) (clock_reads w) (events w ++ es).
Definition log (e : Event) (w : World) : World := log_all [e] w.

(** A method runs on its receiver and the world. *)
Abbreviation Method O := (M (O * World)).

Definition in_world {O A} (m : M World A) : Method O A :=
  fun s => let (r, w') := m (snd s) in (r, (fst s, w')).
Definition self {O} : Method O O := gets fst.
Definition set_self {O} (f : O -> O) : Method O unit :=
  modify (fun s => (f (fst s), snd s)).

(** Lift the result of a call that may raise. *)
Definition of_sum {S A} (r : Exception + A) : M S A :=
  match r with
  | inl e => raise e
  | inr a => mret a
  end.

(** Read an attribute that the object may not have. *)
Definition getattr {S A} (o : option A) : M S A :=
  match o with
  | Some a => mret a
  | None => raise AttributeError
  end.

(** [time.time()] *)
Definition time_time : M World Timestamp :=
  fun w => (Returned (time_source w (clock_reads w)), tick w).

(** [[]]: a new, empty list object. *)
Definition new_list : M World nat :=
  fun w => let l := fresh (dom (lists w)) in
           (Returned l, set_lists (insert l []) w).

(** The content of the list object [l]. *)
Definition list_content (w : World) (l : nat) : list HistoryRecord :=
  default [] (lists w !! l).

(** [l.append(x)] *)
Definition list_append (l : nat) (x : HistoryRecord) : M World unit :=
  fun w => (Returned tt, set_lists (insert l (list_content w l ++ [x])) w).

(** [dataframe.coalesce(n)] and [dataframe.repartition(n)] *)
Definition coalesce (n : Z) (df : DataFrame) : M World DataFrame :=
  out ← of_sum (spark_coalesce n df);
  modify (log (EvCoalesce n out));;
  mret out.

Definition repartition (n : Z) (df : DataFrame) : M World DataFrame :=
  out ← of_sum (spark_repartition n df);
  modify (log (EvRepartition n out));;
  mret out.

(** Modelled from the spec: the part of [distkeras.parameter_servers] that
    the trainers rely on.  [stop] ends the server's loop, which "runs
    until explicitly stopped". *)
Definition server_stop (ps : nat) : M World unit :=
  modify (fun w => log (EvServerStop ps) (set_servers (alter (set_ps_running false) ps) w)).

(** Modelled from the spec: [get_model] "returns the current master
    snapshot". *)
Definition server_get_model `{Collaborators} (ps : nat) : M World KerasModel :=
  fun w => match servers w !! ps with
           | Some s => (Returned (deserialize_keras_model (ps_model s)), w)
           | None => (Raised AttributeError, w)
           end.

(** Modelled from the spec: [num_updates], the server's update count. *)
Definition server_num_updates (ps : nat) : M World Z :=
  fun w => match servers w !! ps with
           | Some s => (Returned (ps_updates s), w)
           | None => (Raised AttributeError, w)
           end.

(** [threading.Thread(target=self.service)] followed by [start()].  The
    new thread runs [service]: [initialize()] and [run()] of the server
    that [self.parameter_server] names at that moment; without one the
    target fails at once and the thread is over. *)
Definition thread_start (served : option nat) : M World nat :=
  fun w =>
    let tid := fresh (dom (threads w)) in
    let w1 := match served with
              | Some ps => set_servers (alter (set_ps_running true) ps) w
              | None => w
              end in
    (Returned tid, log (EvThreadStart tid) (set_threads (insert tid served) w1)).

(** Does the thread [tid] still run the loop of a server that was not
    stopped? *)
Definition thread_running (w : World) (tid : nat) : bool :=
  match threads w !! tid with
  | Some (Some ps) =>
      match servers w !! ps with
      | Some s => ps_running s
      | None => false
      end
  | _ => false
  end.

(** [thread.join()]: returns once the thread's target has returned. *)
Definition thread_join (tid : nat) : M World unit :=
  fun w =>
    if thread_running w tid then (Blocked, w)
    else (Returned tt, log (EvThreadJoin tid) (set_threads (delete tid) w)).

(** [dataframe.rdd.mapPartitionsWithIndex(worker.train).collect()]: the
    worker's [train] is invoked once on each partition with its index, and
    the results are gathered; the first partition that fails fails the
    call. *)
Fixpoint run_partitions `{Collaborators} (wk : Worker) (i : nat) (parts : list (list Row))
    : M World (list SerializedModel) :=
  match parts with
  | [] => mret []
  | p :: rest =>
      modify (log (EvWorkerTrain i));;
      r ← of_sum (worker_train wk i p);
      rs ← run_partitions wk (S i) rest;
      mret (r ++ rs)
  end.

Definition mapPartitionsWithIndex_collect `{Collaborators} (wk : Worker) (df : DataFrame)
    : M World (list SerializedModel) :=
  run_partitions wk 0 df.

(** ** class Trainer *)

Record Trainer : Type := mkTrainer {
  master_model : SerializedModel;
  loss : string;
  worker_optimizer : string;
  history : nat;               (* a reference to a list object *)
  training_time_start : Timestamp;
  training_time_end : Timestamp;
  training_time : Timestamp
}.

Definition set_history_ref (v : nat) (t : Trainer) : Trainer :=
  mkTrainer (master_model t) (loss t) (worker_optimizer t) v
    (training_time_start t) (training_time_end t) (training_time t).
Definition set_training_time_start (v : Timestamp) (t : Trainer) : Trainer :=
  mkTrainer (master_model t) (loss t) (worker_optimizer t) (history t)
    v (training_time_end t) (training_time t).
Definition set_training_time_end (v : Timestamp) (t : Trainer) : Trainer :=
  mkTrainer (master_model t) (loss t) (worker_optimizer t) (history t)
    (training_time_start t) v (training_time t).
Definition set_training_time (v : Timestamp) (t : Trainer) : Trainer :=
  mkTrainer (master_model t) (loss t) (worker_optimizer t) (history t)
    (training_time_start t) (training_time_end t) v.

(** The classes that extend [Trainer] hold its attributes. *)
Class Extends (O : Type) : Type := {
  base : O -> Trainer;
  with_base : (Trainer -> Trainer) -> O -> O;
  base_with_base : forall f o, base (with_base f o) = f (base o)
}.

#[global] Instance Trainer_extends : Extends Trainer :=
  {| base := fun t => t; with_base := fun f t => f t;
     base_with_base := fun _ _ => eq_refl |}.

Module Trainer_.

(** [Trainer.__init__(self, keras_model, loss, worker_optimizer)] *)
Definition __init__ `{Collaborators} (keras_model : KerasModel)
    (loss worker_optimizer : string) : M World Trainer :=
  h ← new_list;
  mret (mkTrainer (serialize_keras_model keras_model) loss worker_optimizer h 0%Q 0%Q 0%Q).

Section Methods.
Context {O : Type} `{Extends O}.

Definition record_training_start : Method O unit :=
  set_self (with_base (set_training_time 0%Q));;
  now ← in_world time_time;
  set_self (with_base (set_training_time_start now)).

Definition record_training_end : Method O unit :=
  now ← in_world time_time;
  set_self (with_base (set_training_time_end now));;
  t ← self;
  set_self (with_base (set_training_time
                         (training_time_end (base t) - training_time_start (base t))%Q)).

Definition get_training_time : Method O Timestamp :=
  t ← self; mret (training_time (base t)).

Definition get_history : Method O nat :=
  t ← self; mret (history (base t)).

Definition set_history (history : nat) : Method O unit :=
  set_self (with_base (set_history_ref history)).

Definition has_history : Method O bool :=
  t ← self;
  s ← get_state;
  mret (0 <? Z.of_nat (length (list_content (snd s) (history (base t))))).

Definition add_history (record : HistoryRecord) : Method O unit :=
  t ← self;
  in_world (list_append (history (base t)) record).

Definition train (dataframe : DataFrame) (shuffle : PyValue) : Method O KerasModel :=
  raise NotImplementedError.

End Methods.

End Trainer_.

(** ** class ModelAveragingTrainer(Trainer) *)

Module ModelAveragingTrainer.

Record obj : Type := mkObj {
  super : Trainer;
  features_column : string;
  label_column : string;
  num_epoch : Z;
  batch_size : Z;
  num_workers : Z
}.

#[global] Instance extends : Extends obj :=
  {| base := super;
     with_base := fun f o =>
       mkObj (f (super o)) (features_column o) (label_column o) (num_epoch o)
         (batch_size o) (num_workers o);
     base_with_base := fun _ _ => eq_refl |}.

Definition __init__ `{Collaborators} (keras_model : KerasModel)
    (loss worker_optimizer : string) (num_workers : Z)
    (features_col label_col : string) (num_epoch batch_size : Z) : M World obj :=
  t ← Trainer_.__init__ keras_model loss worker_optimizer;
  mret (mkObj t features_col label_col num_epoch batch_size num_workers).

Definition train (dataframe : DataFrame) (shuffle : PyValue) : Method obj unit :=
  (* Check if the data needs to be shuffled. *)
  dataframe ← (if truthy shuffle then of_sum (call_value shuffle dataframe)
               else mret dataframe);
  (* Repartition the dataframe. *)
  t ← self;
  dataframe ← in_world (repartition (num_workers t * 10) dataframe);
  (* Start recording training time. *)
  Trainer_.record_training_start;;
  (* Implement training procedure. *)
  (raise NotImplementedError : Method obj unit);;
  (* Stop recording of training time. *)
  Trainer_.record_training_end.

End ModelAveragingTrainer.

(** ** class DistributedTrainer(Trainer) and its subclasses *)

(** The class of an object of the family. *)
Inductive TrainerClass : Type :=
| cDistributedTrainer
| cAsynchronousDistributedTrainer
| cDOWNPOUR
| cDOWNPOURSocket
| cAEASGD
| cEAMSGD.

Module DistributedTrainer.

(** An object of the family.  The attributes that only some subclass
    sets are [None] on the objects that do not have them. *)
Record obj : Type := mkObj {
  class_of : TrainerClass;
  super : Trainer;
  num_workers : Z;
  batch_size : Z;
  features_column : string;
  label_column : string;
  num_epoch : Z;
  parameter_server : option nat;          (* [None] or a server object *)
  parameter_server_thread : option nat;   (* [None] or a thread *)
  parallelism_factor : option Z;
  learning_rate : option Q;
  communication_window : option Z;
  rho : option Q;
  momentum : option Q;
  master_host : option string;
  master_port : option Z
}.

Definition set_super (v : Trainer) (o : obj) : obj :=
  mkObj (class_of o) v (num_workers o) (batch_size o) (features_column o) (label_column o)
    (num_epoch o) (parameter_server o) (parameter_server_thread o) (parallelism_factor o) (learning_rate o)
    (communication_window o) (rho o) (momentum o) (master_host o) (master_port o).
Definition set_parameter_server (v : option nat) (o : obj) : obj :=
  mkObj (class_of o) (super o) (num_workers o) (batch_size o) (features_column o) (label_column o)
    (num_epoch o) v (parameter_server_thread o) (parallelism_factor o) (learning_rate o)
    (communication_window o) (rho o) (momentum o) (master_host o) (master_port o).
Definition set_parameter_server_thread (v : option nat) (o : obj) : obj :=
  mkObj (class_of o) (super o) (num_workers o) (batch_size o) (features_column o) (label_column o)
    (num_epoch o) (parameter_server o) v (parallelism_factor o) (learning_rate o)
    (communication_window o) (rho o) (momentum o) (master_host o) (master_port o).
Definition set_parallelism_factor (v : option Z) (o : obj) : obj :=
  mkObj (class_of o) (super o) (num_workers o) (batch_size o) (features_column o) (label_column o)
    (num_epoch o) (parameter_server o) (parameter_server_thread o) v (learning_rate o)
    (communication_window o) (rho o) (momentum o) (master_host o) (master_port o).
Definition set_learning_rate (v : option Q) (o : obj) : obj :=
  mkObj (class_of o) (super o) (num_workers o) (batch_size o) (features_column o) (label_column o)
    (num_epoch o) (parameter_server o) (parameter_server_thread o) (parallelism_factor o) v
    (communication_window o) (rho o) (momentum o) (master_host o) (master_port o).
Definition set_communication_window (v : option Z) (o : obj) : obj :=
  mkObj (class_of o) (super o) (num_workers o) (batch_size o) (features_column o) (label_column o)
    (num_epoch o) (parameter_server o) (parameter_server_thread o) (parallelism_factor o) (learning_rate o)
    v (rho o) (momentum o) (master_host o) (master_port o).
Definition set_rho (v : option Q) (o : obj) : obj :=
  mkObj (class_of o) (super o) (num_workers o) (batch_size o) (features_column o) (label_column o)
    (num_epoch o) (parameter_server o) (parameter_server_thread o) (parallelism_factor o) (learning_rate o)
    (communication_window o) v (momentum o) (master_host o) (master_port o).
Definition set_momentum (v : option Q) (o : obj) : obj :=
  mkObj (class_of o) (super o) (num_workers o) (batch_size o) (features_column o) (label_column o)
    (num_epoch o) (parameter_server o) (parameter_server_thread o) (parallelism_factor o) (learning_rate o)
    (communication_window o) (rho o) v (master_host o) (master_port o).
Definition set_master_host (v : option string) (o : obj) : obj :=
  mkObj (class_of o) (super o) (num_workers o) (batch_size o) (features_column o) (label_column o)
    (num_epoch o) (parameter_server o) (parameter_server_thread o) (parallelism_factor o) (learning_rate o)
    (communication_window o) (rho o) (momentum o) v (master_port o).
Definition set_master_port (v : option Z) (o : obj) : obj :=
  mkObj (class_of o) (super o) (num_workers o) (batch_size o) (features_column o) (label_column o)
    (num_epoch o) (parameter_server o) (parameter_server_thread o) (parallelism_factor o) (learning_rate o)
    (communication_window o) (rho o) (momentum o) (master_host o) v.

#[global] Instance extends : Extends obj :=
  {| base := super; with_base := fun f o => set_super (f (super o)) o;
     base_with_base := fun _ _ => eq_refl |}.

Definition __init__ `{Collaborators} (cls : TrainerClass) (keras_model : KerasModel)
    (worker_optimizer loss : string) (num_workers batch_size : Z)
    (features_col label_col : string) (num_epoch : Z) : M World obj :=
  t ← Trainer_.__init__ keras_model loss worker_optimizer;
  mret (mkObj cls t num_workers batch_size features_col label_col num_epoch
          None None None None None None None None None).

(** The methods that the subclasses override, resolved on the class of
    the receiver. *)
Class Overridable : Type := {
  virtual_allocate_worker : Method obj Worker;
  virtual_allocate_parameter_server : Method obj nat
}.

Definition allocate_worker : Method obj Worker :=
  raise NotImplementedError.

Definition allocate_parameter_server : Method obj nat :=
  raise NotImplementedError.

Definition num_updates : Method obj Z :=
  t ← self;
  ps ← getattr (parameter_server t);
  in_world (server_num_updates ps).

Definition stop_service : Method obj unit :=
  t ← self;
  ps ← getattr (parameter_server t);
  in_world (server_stop ps);;
  t ← self;
  thread ← getattr (parameter_server_thread t);
  in_world (thread_join thread);;
  set_self (set_parameter_server_thread None).

Definition start_service : Method obj unit :=
  (* Check if a parameter server thread is already allocated. *)
  t ← self;
  (if negb (bool_decide (parameter_server_thread t = None))
   then (* Stop the parameter server service. *)
        stop_service
   else mret tt);;
  (* Allocate a new parameter service thread. *)
  t ← self;
  thread ← in_world (thread_start (parameter_server t));
  set_self (set_parameter_server_thread (Some thread)).

Section Train.
Context `{Collaborators} `{Overridable}.

Definition train (dataframe : DataFrame) (shuffle : PyValue) : Method obj KerasModel :=
  (* Allocate the parameter server. *)
  ps ← virtual_allocate_parameter_server;
  set_self (set_parameter_server (Some ps));;
  (* Start the communication service. *)
  start_service;;
  (* Allocate a worker. *)
  worker ← virtual_allocate_worker;
  (* Repartition in order to fit the number of workers. *)
  let num_partitions := getNumPartitions dataframe in
  (* Check if the dataframe needs to be shuffled before training. *)
  dataframe ← (if truthy shuffle then of_sum (call_value shuffle dataframe)
               else mret dataframe);
  (* Check if we need to repartition the dataframe. *)
  t ← self;
  dataframe ← in_world (if num_partitions >? num_workers t
                        then coalesce (num_workers t) dataframe
                        else repartition (num_workers t) dataframe);
  (* Start the training procedure. *)
  Trainer_.record_training_start;;
  (* Iterate through the epochs. *)
  t ← self;
  for_range (Z.to_nat (num_epoch t))
    (in_world (mapPartitionsWithIndex_collect worker dataframe);; mret tt);;
  (* End the training procedure. *)
  Trainer_.record_training_end;;
  (* Stop the communication service. *)
  stop_service;;
  t ← self;
  ps ← getattr (parameter_server t);
  in_world (server_get_model ps).

End Train.

End DistributedTrainer.

Module AsynchronousDistributedTrainer.
Import DistributedTrainer.

Definition __init__ `{Collaborators} (cls : TrainerClass) (keras_model : KerasModel)
    (worker_optimizer loss : string) (num_workers batch_size : Z)
    (features_col label_col : string) (num_epoch : Z) : M World obj :=
  o ← DistributedTrainer.__init__ cls keras_model worker_optimizer loss num_workers
        batch_size features_col label_col num_epoch;
  (* Initialize asynchronous methods variables. *)
  mret (set_parallelism_factor (Some 2) o).

Definition set_parallelism_factor (factor : Z) : Method obj unit :=
  set_self (DistributedTrainer.set_parallelism_factor (Some factor)).

Definition get_parallelism_factor : Method obj Z :=
  t ← self; getattr (parallelism_factor t).

Section Train.
Context `{Collaborators} `{Overridable}.

Definition train (dataframe : DataFrame) (shuffle : PyValue) : Method obj KerasModel :=
  (* Allocate the parameter server. *)
  ps ← virtual_allocate_parameter_server;
  set_self (set_parameter_server (Some ps));;
  (* Start the communication service. *)
  start_service;;
  (* Allocate a worker. *)
  worker ← virtual_allocate_worker;
  (* Repartition in order to fit the number of workers. *)
  let num_partitions := getNumPartitions dataframe in
  (* Check if the dataframe needs to be shuffled before training. *)
  dataframe ← (if truthy shuffle then of_sum (call_value shuffle dataframe)
               else mret dataframe);
  (* Indicate the parallelism (number of worker times parallelism factor). *)
  t ← self;
  factor ← getattr (parallelism_factor t);
  let parallelism := factor * num_workers t in
  (* Check if we need to repartition the dataframe. *)
  dataframe ← in_world (if num_partitions >? parallelism
                        then coalesce parallelism dataframe
                        else repartition parallelism dataframe);
  (* Start the training procedure. *)
  Trainer_.record_training_start;;
  (* Iterate through the epochs. *)
  t ← self;
  for_range (Z.to_nat (num_epoch t))
    (in_world (mapPartitionsWithIndex_collect worker dataframe);; mret tt);;
  (* End the training procedure. *)
  Trainer_.record_training_end;;
  (* Stop the communication service. *)
  stop_service;;
  t ← self;
  ps ← getattr (parameter_server t);
  in_world (server_get_model ps).

End Train.

End AsynchronousDistributedTrainer.

(** A new parameter-server object: not running, no update yet. *)
Definition new_server (cls : ServerClass) (model : SerializedModel) (learning_rate : Q)
    (rho momentum : option Q) (port : Z) : M World nat :=
  fun w => let ps := fresh (dom (servers w)) in
           (Returned ps,
            set_servers
              (insert ps (mkParameterServer cls model learning_rate rho momentum port false 0))
              w).

Module DOWNPOUR.
Import DistributedTrainer.

Definition __init__ `{Collaborators} (keras_model : KerasModel)
    (worker_optimizer loss : string) (num_workers batch_size : Z)
    (features_col label_col : string) (num_epoch : Z)
    (learning_rate : Q) (communication_window : Z) : M World obj :=
  o ← AsynchronousDistributedTrainer.__init__ cDOWNPOUR keras_model worker_optimizer loss
        num_workers batch_size features_col label_col num_epoch;
  let o := set_learning_rate (Some learning_rate) o in
  let o := set_communication_window (Some communication_window) o in
  let o := set_master_host (Some determine_host_address) o in
  let o := set_master_port (Some 5000) o in
  mret o.

Definition allocate_parameter_server : Method obj nat :=
  (* Allocate DOWNPOUR parameter server. *)
  t ← self;
  learning_rate ← getattr (learning_rate t);
  master_port ← getattr (master_port t);
  in_world (new_server DOWNPOURParameterServer (master_model (super t)) learning_rate
              None None master_port).

Definition allocate_worker : Method obj Worker :=
  (* Allocate DOWNPOUR worker. *)
  t ← self;
  master_host ← getattr (master_host t);
  master_port ← getattr (master_port t);
  learning_rate ← getattr (learning_rate t);
  communication_window ← getattr (communication_window t);
  mret (mkWorker DOWNPOURWorker (master_model (super t)) (worker_optimizer (super t))
          (loss (super t)) (features_column t) (label_column t) (batch_size t)
          master_host master_port learning_rate None None communication_window).

End DOWNPOUR.

Module DOWNPOURSocket.
Import DistributedTrainer.

Definition __init__ `{Collaborators} (keras_model : KerasModel)
    (worker_optimizer loss : string) (num_workers batch_size : Z)
    (features_col label_col : string) (num_epoch : Z)
    (learning_rate : Q) (communication_window : Z) : M World obj :=
  o ← AsynchronousDistributedTrainer.__init__ cDOWNPOURSocket keras_model worker_optimizer
        loss num_workers batch_size features_col label_col num_epoch;
  let o := set_learning_rate (Some learning_rate) o in
  let o := set_communication_window (Some communication_window) o in
  let o := set_master_host (Some determine_host_address) o in
  let o := set_master_port (Some 5000) o in
  mret o.

Definition allocate_parameter_server : Method obj nat :=
  (* Allocate DOWNPOUR parameter server. *)
  t ← self;
  learning_rate ← getattr (learning_rate t);
  master_port ← getattr (master_port t);
  in_world (new_server DOWNPOURSocketParameterServer (master_model (super t)) learning_rate
              None None master_port).

Definition allocate_worker : Method obj Worker :=
  (* Allocate DOWNPOUR worker. *)
  t ← self;
  master_host ← getattr (master_host t);
  master_port ← getattr (master_port t);
  learning_rate ← getattr (learning_rate t);
  communication_window ← getattr (communication_window t);
  mret (mkWorker DOWNPOURSocketWorker (master_model (super t)) (worker_optimizer (super t))
          (loss (super t)) (features_column t) (label_column t) (batch_size t)
          master_host master_port learning_rate None None communication_window).

End DOWNPOURSocket.

Module AEASGD.
Import DistributedTrainer.

Definition __init__ `{Collaborators} (keras_model : KerasModel)
    (worker_optimizer loss : string) (num_workers batch_size : Z)
    (features_col label_col : string) (num_epoch : Z)
    (communication_window : Z) (rho learning_rate : Q) : M World obj :=
  o ← AsynchronousDistributedTrainer.__init__ cAEASGD keras_model worker_optimizer loss
        num_workers batch_size features_col label_col num_epoch;
  let o := set_communication_window (Some communication_window) o in
  let o := set_rho (Some rho) o in
  let o := set_learning_rate (Some learning_rate) o in
  let o := set_master_host (Some determine_host_address) o in
  let o := set_master_port (Some 5000) o in
  mret o.

Definition allocate_parameter_server : Method obj nat :=
  (* Allocate the asynchronous EASGD parameter server. *)
  t ← self;
  rho ← getattr (rho t);
  learning_rate ← getattr (learning_rate t);
  master_port ← getattr (master_port t);
  in_world (new_server AEASGDParameterServer (master_model (super t)) learning_rate
              (Some rho) None master_port).

Definition allocate_worker : Method obj Worker :=
  (* Allocate a AEASGD worker. *)
  t ← self;
  master_host ← getattr (master_host t);
  master_port ← getattr (master_port t);
  rho ← getattr (rho t);
  learning_rate ← getattr (learning_rate t);
  communication_window ← getattr (communication_window t);
  mret (mkWorker AEASGDWorker (master_model (super t)) (worker_optimizer (super t))
          (loss (super t)) (features_column t) (label_column t) (batch_size t)
          master_host master_port learning_rate (Some rho) None communication_window).

End AEASGD.

Module EAMSGD.
Import DistributedTrainer.

Definition __init__ `{Collaborators} (keras_model : KerasModel)
    (worker_optimizer loss : string) (num_workers batch_size : Z)
    (features_col label_col : string) (num_epoch : Z)
    (communication_window : Z) (rho learning_rate momentum : Q) : M World obj :=
  o ← AsynchronousDistributedTrainer.__init__ cEAMSGD keras_model worker_optimizer loss
        num_workers batch_size features_col label_col num_epoch;
  let o := set_communication_window (Some communication_window) o in
  let o := set_rho (Some rho) o in
  let o := set_learning_rate (Some learning_rate) o in
  let o := set_momentum (Some momentum) o in
  let o := set_master_host (Some determine_host_address) o in
  let o := set_master_port (Some 5000) o in
  mret o.

Definition allocate_parameter_server : Method obj nat :=
  (* Allocate the asynchronous EAMSGD parameter server. *)
  t ← self;
  rho ← getattr (rho t);
  learning_rate ← getattr (learning_rate t);
  momentum ← getattr (momentum t);
  master_port ← getattr (master_port t);
  in_world (new_server EAMSGDParameterServer (master_model (super t)) learning_rate
              (Some rho) (Some momentum) master_port).

Definition allocate_worker : Method obj Worker :=
  (* Allocate a EAMSGD REST worker. *)
  t ← self;
  master_host ← getattr (master_host t);
  master_port ← getattr (master_port t);
  rho ← getattr (rho t);
  learning_rate ← getattr (learning_rate t);
  momentum ← getattr (momentum t);
  communication_window ← getattr (communication_window t);
  mret (mkWorker EAMSGDWorker (master_model (super t)) (worker_optimizer (super t))
          (loss (super t)) (features_column t) (label_column t) (batch_size t)
          master_host master_port learning_rate (Some rho) (Some momentum)
          communication_window).

End EAMSGD.

(** ** Method resolution *)

Import DistributedTrainer.

(** [self.allocate_worker()] and [self.allocate_parameter_server()] run the
    method of the receiver's class; the two abstract classes inherit the
    ones that raise. *)
#[global] Instance method_resolution : Overridable := {|
  virtual_allocate_worker :=
    t ← self;
    match class_of t with
    | cDistributedTrainer | cAsynchronousDistributedTrainer =>
        DistributedTrainer.allocate_worker
    | cDOWNPOUR => DOWNPOUR.allocate_worker
    | cDOWNPOURSocket => DOWNPOURSocket.allocate_worker
    | cAEASGD => AEASGD.allocate_worker
    | cEAMSGD => EAMSGD.allocate_worker
    end;
  virtual_allocate_parameter_server :=
    t ← self;
    match class_of t with
    | cDistributedTrainer | cAsynchronousDistributedTrainer =>
        DistributedTrainer.allocate_parameter_server
    | cDOWNPOUR => DOWNPOUR.allocate_parameter_server
    | cDOWNPOURSocket => DOWNPOURSocket.allocate_parameter_server
    | cAEASGD => AEASGD.allocate_parameter_server
    | cEAMSGD => EAMSGD.allocate_parameter_server
    end
|}.

(** Which [train] an object of class [c] inherits. *)
Inductive TrainPath : Type := UnscaledTrain | ScaledTrain.

Definition train_path (c : TrainerClass) : TrainPath :=
  match c with
  | cDistributedTrainer => UnscaledTrain
  | _ => ScaledTrain
  end.

(** The [train] of [DistributedTrainer] or the one of
    [AsynchronousDistributedTrainer]. *)
Definition train_body `{Collaborators} (path : TrainPath)
    : DataFrame -> PyValue -> Method obj KerasModel :=
  match path with
  | UnscaledTrain => DistributedTrainer.train
  | ScaledTrain => AsynchronousDistributedTrainer.train
  end.

(** [trainer.train(dataframe, shuffle)] on an object of the family. *)
Definition invoke_train `{Collaborators} (dataframe : DataFrame) (shuffle : PyValue)
    : Method obj KerasModel :=
  t ← self;
  train_body (train_path (class_of t)) dataframe shuffle.

(** The number of partitions that a [train] body asks for. *)
Definition partition_target (path : TrainPath) (t : obj) : option Z :=
  match path with
  | UnscaledTrain => Some (num_workers t)
  | ScaledTrain => (fun factor => factor * num_workers t) <$> parallelism_factor t
  end.

(** What both [train] bodies do once the dataset has its partitions: the
    epochs, the end of the timing, the stop of the service and the read of
    the model. *)
Definition epochs_and_shutdown `{Collaborators} (worker : Worker) (dataframe : DataFrame)
    : Method obj KerasModel :=
  Trainer_.record_training_start;;
  t ← self;
  for_range (Z.to_nat (num_epoch t))
    (in_world (mapPartitionsWithIndex_collect worker dataframe);; mret tt);;
  Trainer_.record_training_end;;
  stop_service;;
  t ← self;
  ps ← getattr (parameter_server t);
  in_world (server_get_model ps).

(** The receiver once [train] has allocated the server [ps] and started
    the thread [tid]. *)
Definition serving (t : obj) (ps tid : nat) : obj :=
  set_parameter_server_thread (Some tid) (set_parameter_server (Some ps) t).

(** The call that adjusts the partitions and the dataset it returns. *)
Definition adjustment (target : Z) (df out : DataFrame) : Event :=
  if getNumPartitions df >? target then EvCoalesce target out
  else EvRepartition target out.

(** The exception of the first partition on which the worker raises, if
    any. *)
Fixpoint first_failure `{Collaborators} (wk : Worker) (i : nat) (parts : list (list Row))
    : option Exception :=
  match parts with
  | [] => None
  | p :: rest =>
      match worker_train wk i p with
      | inl e => Some e
      | inr _ => first_failure wk (S i) rest
      end
  end.

(** The worker function returns on every partition. *)
Definition workers_succeed `{Collaborators} : Prop :=
  forall wk i p, exists r, worker_train wk i p = inr r.

(** The dataset that the adjustment of the partitions returns. *)
Definition adjusted_dataframe (target : Z) (df : DataFrame) : Exception + DataFrame :=
  if getNumPartitions df >? target then spark_coalesce target df
  else spark_repartition target df.

(** The factor by which a [train] body multiplies the number of workers. *)
Definition factor_of (path : TrainPath) (t : obj) : option Z :=
  match path with
  | UnscaledTrain => Some 1
  | ScaledTrain => parallelism_factor t
  end.

Definition is_server_stop (e : Event) : bool :=
  match e with EvServerStop _ => true | _ => false end.

Definition is_worker_train (e : Event) : bool :=
  match e with EvWorkerTrain _ => true | _ => false end.

(** The number of invocations of the worker function in a log. *)
Definition worker_invocations (es : list Event) : nat :=
  length (List.filter is_worker_train es).

(** The counts passed to [coalesce] in a log. *)
Definition coalesce_counts (es : list Event) : list Z :=
  flat_map (fun e => match e with EvCoalesce n _ => [n] | _ => [] end) es.

(** The events of the epoch loop and of the shutdown. *)
Definition after_adjustment (e : Event) : Prop :=
  match e with
  | EvWorkerTrain _ | EvServerStop _ | EvThreadJoin _ => True
  | _ => False
  end.

(** A computation that only adds events satisfying [P] to the log. *)
Definition appends {S A} (ev : S -> list Event) (P : Event -> Prop) (m : M S A) : Prop :=
  forall s, exists rest, ev (snd (m s)) = ev s ++ rest /\ Forall P rest.

(** The events of the start and of the stop of the service. *)
Definition service_event (e : Event) : Prop :=
  match e with
  | EvThreadStart _ | EvServerStop _ | EvThreadJoin _ => True
  | _ => False
  end.

(** A log that starts with the adjustment of [df] to [n] partitions, which
    returns a dataset of [n] partitions, and goes on with the epochs and
    the shutdown. *)
Definition adjusted_then_trained (n : Z) (df : DataFrame) (post : list Event) : Prop :=
  exists out rest,
    post = adjustment n df out :: rest /\
    getNumPartitions out = n /\
    Forall after_adjustment rest.

(** What a [train] body may add to the log: events of the service, then
    either nothing more, or the adjustment to [num_workers] times the
    factor of the body followed by the epochs and the shutdown. *)
Definition adjusts_before_training (path : TrainPath) (df : DataFrame) (t : obj)
    (added : list Event) : Prop :=
  exists pre post,
    added = pre ++ post /\
    Forall service_event pre /\
    (post = [] \/
     exists F, factor_of path t = Some F /\
               adjusted_then_trained (num_workers t * F) df post).

(** A computation that leaves [num_workers] and [parallelism_factor] as
    they are. *)
Definition keeps_configuration {A} (m : Method obj A) : Prop :=
  forall s,
    num_workers (fst (snd (m s))) = num_workers (fst s) /\
    parallelism_factor (fst (snd (m s))) = parallelism_factor (fst s).

(** [m], run in [s], adds to the log what a [train] body may add. *)
Definition staged_at {A} (path : TrainPath) (df : DataFrame) (m : Method obj A)
    (s : obj * World) : Prop :=
  exists added,
    events (snd (snd (m s))) = events (snd s) ++ added /\
    adjusts_before_training path df (fst s) added.

(** A computation that raises or blocks, whatever the state. *)
Definition never_returns {S A} (m : M S A) : Prop :=
  forall s a, fst (m s) <> Returned a.

(** ** The public interface of [Trainer] *)

Inductive TrainerOp : Type :=
| OpRecordTrainingStart
| OpRecordTrainingEnd
| OpGetTrainingTime
| OpGetHistory
| OpSetHistory (history : nat)
| OpHasHistory
| OpAddHistory (record : HistoryRecord)
| OpTrain (dataframe : DataFrame) (shuffle : PyValue).

Definition run_op (op : TrainerOp) : Method Trainer unit :=
  match op with
  | OpRecordTrainingStart => Trainer_.record_training_start
  | OpRecordTrainingEnd => Trainer_.record_training_end
  | OpGetTrainingTime => Trainer_.get_training_time;; mret tt
  | OpGetHistory => Trainer_.get_history;; mret tt
  | OpSetHistory h => Trainer_.set_history h
  | OpHasHistory => Trainer_.has_history;; mret tt
  | OpAddHistory r => Trainer_.add_history r
  | OpTrain df shuffle => Trainer_.train df shuffle;; mret tt
  end.

(** The records of a trainer's history, oldest first. *)
Definition history_records (s : Trainer * World) : list HistoryRecord :=
  list_content (snd s) (history (fst s)).

(** What "the history is append-only and [add_history] alone changes it"
    asks of one operation run in one state. *)
Definition keeps_or_appends (op : TrainerOp) (s : Trainer * World) : Prop :=
  let s' := snd (run_op op s) in
  history_records s' = history_records s \/
  exists r, op = OpAddHistory r /\ history_records s' = history_records s ++ [r].

(** ** Constructor calls of the protocol classes *)

Inductive Hyperparameters : Type :=
| DOWNPOUR_args (learning_rate : Q) (communication_window : Z)
| DOWNPOURSocket_args (learning_rate : Q) (communication_window : Z)
| AEASGD_args (communication_window : Z) (rho learning_rate : Q)
| EAMSGD_args (communication_window : Z) (rho learning_rate momentum : Q).

(** [DOWNPOUR(...)], [DOWNPOURSocket(...)], [AEASGD(...)], [EAMSGD(...)] *)
Definition new `{Collaborators} (keras_model : KerasModel) (worker_optimizer loss : string)
    (num_workers batch_size : Z) (features_col label_col : string) (num_epoch : Z)
    (h : Hyperparameters) : M World obj :=
  match h with
  | DOWNPOUR_args learning_rate communication_window =>
      DOWNPOUR.__init__ keras_model worker_optimizer loss num_workers batch_size
        features_col label_col num_epoch learning_rate communication_window
  | DOWNPOURSocket_args learning_rate communication_window =>
      DOWNPOURSocket.__init__ keras_model worker_optimizer loss num_workers batch_size
        features_col label_col num_epoch learning_rate communication_window
  | AEASGD_args communication_window rho learning_rate =>
      AEASGD.__init__ keras_model worker_optimizer loss num_workers batch_size
        features_col label_col num_epoch communication_window rho learning_rate
  | EAMSGD_args communication_window rho learning_rate momentum =>
      EAMSGD.__init__ keras_model worker_optimizer loss num_workers batch_size
        features_col label_col num_epoch communication_window rho learning_rate momentum
  end.

Definition class_for (h : Hyperparameters) : TrainerClass :=
  match h with
  | DOWNPOUR_args _ _ => cDOWNPOUR
  | DOWNPOURSocket_args _ _ => cDOWNPOURSocket
  | AEASGD_args _ _ _ => cAEASGD
  | EAMSGD_args _ _ _ _ => cEAMSGD
  end.

Definition learning_rate_of (h : Hyperparameters) : Q :=
  match h with
  | DOWNPOUR_args lr _ | DOWNPOURSocket_args lr _
  | AEASGD_args _ _ lr | EAMSGD_args _ _ lr _ => lr
  end.

Definition communication_window_of (h : Hyperparameters) : Z :=
  match h with
  | DOWNPOUR_args _ cw | DOWNPOURSocket_args _ cw
  | AEASGD_args cw _ _ | EAMSGD_args cw _ _ _ => cw
  end.

Definition rho_of (h : Hyperparameters) : option Q :=
  match h with
  | DOWNPOUR_args _ _ | DOWNPOURSocket_args _ _ => None
  | AEASGD_args _ rho _ | EAMSGD_args _ rho _ _ => Some rho
  end.

Definition momentum_of (h : Hyperparameters) : option Q :=
  match h with
  | EAMSGD_args _ _ _ momentum => Some momentum
  | _ => None
  end.

(** The hyperparameters that break [learning_rate > 0],
    [communication_window >= 1], [rho >= 0] or [0 <= momentum < 1]. *)
Definition invalid (h : Hyperparameters) : Prop :=
  (learning_rate_of h <= 0)%Q \/
  communication_window_of h < 1 \/
  (exists rho, rho_of h = Some rho /\ (rho < 0)%Q) \/
  (exists m, momentum_of h = Some m /\ ((m < 0)%Q \/ (1 <= m)%Q)).

(** The object that the constructor of a protocol class builds, given
    the list object for its history. *)
Definition protocol_object `{Collaborators} (keras_model : KerasModel)
    (worker_optimizer loss : string) (num_workers batch_size : Z)
    (features_col label_col : string) (num_epoch : Z) (h : Hyperparameters)
    (history : nat) : obj :=
  mkObj (class_for h)
    (mkTrainer (serialize_keras_model keras_model) loss worker_optimizer history
       0%Q 0%Q 0%Q)
    num_workers batch_size features_col label_col num_epoch None None (Some 2)
    (Some (learning_rate_of h)) (Some (communication_window_of h))
    (rho_of h) (momentum_of h) (Some determine_host_address) (Some 5000).

(** The state in which a computation ends. *)
Definition final {S A} (r : Outcome A * S) : S := snd r.
Definition outcome {S A} (r : Outcome A * S) : Outcome A := fst r.

(** ** Sample collaborators and data *)

Definition sample_collaborators : Collaborators :=
  {| serialize_keras_model := fun _ => "weights"%string;
     deserialize_keras_model := fun _ => [];
     determine_host_address := "10.0.0.1"%string;
     worker_train := fun wk _ _ => inr [wk_model wk] |}.

(** Collaborators whose worker function raises on partition 1. *)
Definition failing_collaborators : Collaborators :=
  {| serialize_keras_model := fun _ => "weights"%string;
     deserialize_keras_model := fun _ => [];
     determine_host_address := "10.0.0.1"%string;
     worker_train := fun wk i _ =>
       if Nat.eqb i 1 then inl (WorkerFailure "partition 1"%string)
       else inr [wk_model wk] |}.

(** A world with no object yet, whose clock reads 0, 1, 2, ... *)
Definition initial_world : World :=
  mkWorld ∅ ∅ ∅ (fun n => inject_Z (Z.of_nat n)) 0 [].

(** A dataset of [n] partitions with one record each. *)
Definition sample_dataframe (n : nat) : DataFrame :=
  map (fun i => [mkRow [inject_Z (Z.of_nat i)] 1%Q]) (seq 0 n).

Definition sample_trainer : Trainer :=
  mkTrainer "weights" "mse" "adam" 0 0%Q 0%Q 0%Q.

(** A trainer whose history holds one record, in a world where the caller
    holds another, empty, list (object 1). *)
Definition trainer_with_one_record : Trainer * World :=
  (sample_trainer,
   mkWorld {[ 0%nat := ["epoch 1"%string]; 1%nat := [] ]} ∅ ∅
     (fun n => inject_Z (Z.of_nat n)) 0 []).

(** [DOWNPOUR(keras_model, "adam", "mse", num_workers=4, batch_size=32,
    num_epoch=1, learning_rate=0.01, communication_window=2)] and the world
    after its construction in [initial_world]. *)
Definition sample_downpour : obj :=
  mkObj cDOWNPOUR sample_trainer 4 32 "features" "label" 1 None None
    (Some 2) (Some (1 # 100)%Q) (Some 2) None None (Some "10.0.0.1"%string) (Some 5000).

Definition sample_world : World :=
  mkWorld {[ 0%nat := [] ]} ∅ ∅ (fun n => inject_Z (Z.of_nat n)) 0 [].

(** The worker that [sample_downpour] allocates. *)
Definition sample_worker : Worker :=
  mkWorker DOWNPOURWorker "weights" "adam" "mse" "features" "label" 32
    "10.0.0.1" 5000 (1 # 100)%Q None None 2.

(** Ten partitions coalesced to eight. *)
Definition sample_coalesced : DataFrame := coalesce_groups 8 (sample_dataframe 10).

(** ** class SingleTrainer(Trainer) *)

(** A [SingleTrainerWorker] of [distkeras.workers]: the keyword arguments
    its constructor receives. *)
Record SingleTrainerWorker : Type := mkSingleTrainerWorker {
  stw_model : SerializedModel;
  stw_features_col : string;
  stw_label_col : string;
  stw_batch_size : Z;
  stw_optimizer : string;
  stw_loss : string
}.

(** [worker.train(index, iterator)] of a [SingleTrainerWorker], as a
    parameter of the development. *)
Class SingleCollaborators : Type := {
  single_worker_train :
    SingleTrainerWorker -> nat -> list Row -> Exception + list SerializedModel
}.

(** The outcome of a subscript: the item, or [IndexError].  [IndexError]
    is raised by [SingleTrainer.train] only; a computation that ends with it
    skips every statement that follows. *)
Inductive Indexed (A : Type) : Type :=
| Item (a : A)
| IndexError.
Arguments Item {A} a.
Arguments IndexError {A}.

(** [results[0]] *)
Definition first_item {A} (results : list A) : Indexed A :=
  match results with
  | [] => IndexError
  | x :: _ => Item x
  end.

Definition set_master_model (v : SerializedModel) (t : Trainer) : Trainer :=
  mkTrainer v (loss t) (worker_optimizer t) (history t)
    (training_time_start t) (training_time_end t) (training_time t).

(** [dataframe.rdd.mapPartitionsWithIndex(worker.train).collect()] for a
    [SingleTrainerWorker]. *)
Fixpoint run_single_partitions `{SingleCollaborators} (wk : SingleTrainerWorker) (i : nat)
    (parts : list (list Row)) : M World (list SerializedModel) :=
  match parts with
  | [] => mret []
  | p :: rest =>
      modify (log (EvWorkerTrain i));;
      r ← of_sum (single_worker_train wk i p);
      rs ← run_single_partitions wk (S i) rest;
      mret (r ++ rs)
  end.

Module SingleTrainer.

Record obj : Type := mkObj {
  super : Trainer;
  features_column : string;
  label_column : string;
  num_epoch : Z;
  batch_size : Z
}.

#[global] Instance extends : Extends obj :=
  {| base := super;
     with_base := fun f o =>
       mkObj (f (super o)) (features_column o) (label_column o) (num_epoch o)
         (batch_size o);
     base_with_base := fun _ _ => eq_refl |}.

Definition __init__ `{Collaborators} (keras_model : KerasModel)
    (worker_optimizer loss : string) (features_col label_col : string)
    (num_epoch batch_size : Z) : M World obj :=
  t ← Trainer_.__init__ keras_model loss worker_optimizer;
  mret (mkObj t features_col label_col num_epoch batch_size).

Definition allocate_worker : Method obj SingleTrainerWorker :=
  t ← self;
  mret (mkSingleTrainerWorker (master_model (super t)) (features_column t)
          (label_column t) (batch_size t) (worker_optimizer (super t)) (loss (super t))).

(** The iterations of [for i in range(0, self.num_epoch)] that are left. *)
Fixpoint epochs `{SingleCollaborators} (n : nat) (dataframe : DataFrame)
    : Method obj (Indexed unit) :=
  match n with
  | O => mret (Item tt)
  | S k =>
      (* Allocate a worker. *)
      worker ← allocate_worker;
      (* Fetch the trained model. *)
      results ← in_world (run_single_partitions worker 0 dataframe);
      match first_item results with
      | IndexError => mret IndexError
      | Item model =>
          set_self (with_base (set_master_model model));;
          epochs k dataframe
      end
  end.

Definition train `{Collaborators} `{SingleCollaborators} (dataframe : DataFrame)
    (shuffle : PyValue) : Method obj (Indexed KerasModel) :=
  (* Check if the data needs to be shuffled. *)
  dataframe ← (if truthy shuffle then of_sum (call_value shuffle dataframe)
               else mret dataframe);
  (* Collect all the data on a single worker node. *)
  dataframe ← in_world (coalesce 1 dataframe);
  (* Start recording training time. *)
  Trainer_.record_training_start;;
  (* Iterate through the number of records. *)
  t ← self;
  r ← epochs (Z.to_nat (num_epoch t)) dataframe;
  match r with
  | IndexError => mret IndexError
  | Item _ =>
      (* Stop recording of training time. *)
      Trainer_.record_training_end;;
      t ← self;
      mret (Item (deserialize_keras_model (master_model (super t))))
  end.

End SingleTrainer.

(** The worker that a [SingleTrainer] allocates when its master model is
    [m]. *)
Definition single_worker (t : SingleTrainer.obj) (m : SerializedModel)
    : SingleTrainerWorker :=
  mkSingleTrainerWorker m (SingleTrainer.features_column t) (SingleTrainer.label_column t)
    (SingleTrainer.batch_size t) (worker_optimizer (SingleTrainer.super t))
    (loss (SingleTrainer.super t)).

(** The master model after one epoch on the single partition [rows], when
    the worker returns at least one model. *)
Definition next_model `{SingleCollaborators} (t : SingleTrainer.obj) (rows : list Row)
    (m : SerializedModel) : SerializedModel :=
  match single_worker_train (single_worker t m) 0 rows with
  | inr (m' :: _) => m'
  | _ => m
  end.

(** The worker returns at least one model on every call. *)
Definition single_worker_yields `{SingleCollaborators} : Prop :=
  forall wk i p, exists m rest, single_worker_train wk i p = inr (m :: rest).

(** A single worker that appends a mark to the model it starts from. *)
Definition marking_worker : SingleCollaborators :=
  {| single_worker_train := fun wk _ rows =>
       inr [String.append (stw_model wk) "+"] |}.

(** A single worker that returns no model. *)
Definition silent_worker : SingleCollaborators :=
  {| single_worker_train := fun _ _ _ => inr [] |}.

Definition sample_single_trainer : SingleTrainer.obj :=
  SingleTrainer.mkObj sample_trainer "features" "label" 3 32.

(** ** Further notions *)

(** The dataset after the test of the [shuffle] argument: [if shuffle:
    dataframe = shuffle(dataframe)]. *)
Definition shuffled (shuffle : PyValue) (dataframe : DataFrame) : Exception + DataFrame :=
  if truthy shuffle then call_value shuffle dataframe else inr dataframe.

(** [add_history] called with each record of [rs], in turn. *)
Fixpoint add_histories (rs : list HistoryRecord) : Method Trainer unit :=
  match rs with
  | [] => mret tt
  | r :: rest => Trainer_.add_history r;; add_histories rest
  end.

(** The rounds of [N] epochs over [n] partitions. *)
Definition rounds (N n : nat) : list Event :=
  concat (replicate N (map EvWorkerTrain (seq 0 n))).

(** The trainer and the world after a [train] that failed on partition 1. *)
Definition state_after_failed_train : obj * World :=
  snd (invoke_train (H := failing_collaborators) (sample_dataframe 10) (PyBool false)
         (sample_downpour, sample_world)).

(** A shuffle that puts all the records into two partitions. *)
Definition shuffle_into_two : PyValue :=
  PyCallable (fun df => spark_repartition 2 df).

(** Two objects of the family that differ at most in their server, their
    thread and their timestamps. *)
Definition same_configuration (t t' : obj) : Prop :=
  class_of t' = class_of t /\
  master_model (super t') = master_model (super t) /\
  loss (super t') = loss (super t) /\
  worker_optimizer (super t') = worker_optimizer (super t) /\
  num_workers t' = num_workers t /\
  batch_size t' = batch_size t /\
  features_column t' = features_column t /\
  label_column t' = label_column t /\
  num_epoch t' = num_epoch t /\
  parallelism_factor t' = parallelism_factor t /\
  learning_rate t' = learning_rate t /\
  communication_window t' = communication_window t /\
  rho t' = rho t /\
  momentum t' = momentum t /\
  master_host t' = master_host t /\
  master_port t' = master_port t.

(** A stopped [DOWNPOUR] server, and a world that holds it as object 0. *)
Definition sample_server : ParameterServer :=
  mkParameterServer DOWNPOURParameterServer "weights" (1 # 100)%Q None None 5000 false 0.

Definition world_with_server : World :=
  mkWorld {[ 0%nat := [] ]} {[ 0%nat := sample_server ]} ∅
    (fun n => inject_Z (Z.of_nat n)) 0 [].

(** A world in which thread 0 runs the loop of server 0. *)
Definition world_serving : World :=
  mkWorld {[ 0%nat := [] ]} {[ 0%nat := set_ps_running true sample_server ]}
    {[ 0%nat := Some 0%nat ]} (fun n => inject_Z (Z.of_nat n)) 0 [].

(** The log [rest] of the epoch loop that the worker [wk] runs for [N]
    epochs over the dataset [out], and of the shutdown that follows it.
    When the loop has no iteration, or when the worker returns on every
    partition of [out]: [N] rounds over the partitions of [out], then the
    stop of the server [ps] and the join of the thread [tid].  Otherwise:
    the invocations of the first round, up to the first partition of [out]
    on which the worker raises, and nothing more. *)
Definition trained_on `{Collaborators} (wk : Worker) (N : Z) (out : DataFrame)
    (ps tid : nat) (rest : list Event) : Prop :=
  (N <= 0 \/ first_failure wk 0 out = None ->
   rest = rounds (Z.to_nat N) (length out) ++ [EvServerStop ps; EvThreadJoin tid]) /\
  (forall e,
     0 < N ->
     first_failure wk 0 out = Some e ->
     exists k p,
       out !! k = Some p /\
       worker_train wk k p = inl e /\
       (forall j q, (j < k)%nat -> out !! j = Some q ->
                    exists r, worker_train wk j q = inr r) /\
       rest = map EvWorkerTrain (seq 0 (S k))).

(** * Properties *)

(** ** Running the monad *)

Lemma bind_returned {S A B} (m : M S A) (f : A -> M S B) s a s' :
  m s = (Returned a, s') -> (m ≫= f) s = f a s'.
Proof. intros E. unfold mbind, M_bind. now rewrite E. Qed.

Lemma bind_raised {S A B} (m : M S A) (f : A -> M S B) s e s' :
  m s = (Raised e, s') -> (m ≫= f) s = (Raised e, s').
Proof. intros E. unfold mbind, M_bind. now rewrite E. Qed.

Lemma never_returns_bind_l {S A B} (m : M S A) (f : A -> M S B) :
  never_returns m -> never_returns (m ≫= f).
Proof.
  intros Hm s b. unfold mbind, M_bind. specialize (Hm s).
  destruct (m s) as [[a | e |] s1]; cbn in *; [now destruct (Hm a) | discriminate ..].
Qed.

Lemma never_returns_bind_r {S A B} (m : M S A) (f : A -> M S B) :
  (forall a, never_returns (f a)) -> never_returns (m ≫= f).
Proof.
  intros Hf s b. unfold mbind, M_bind.
  destruct (m s) as [[a | e |] s1]; cbn; [apply Hf | discriminate ..].
Qed.

(** Unfold the plumbing of the monad in the goal. *)
Ltac run :=
  unfold final, outcome, mbind, M_bind, mret, M_ret, self, set_self, gets, modify,
    get_state, in_world, raise, getattr, of_sum in *;
  cbn [fst snd] in *.

(** Run the first computation of a sequence, which returns. *)
Tactic Notation "step" "by" tactic3(tac) :=
  erewrite bind_returned by tac; cbv beta; cbn [fst snd].

(** ** Timing *)

Section Timing.
Context {O : Type} `{Extends O}.

Lemma record_training_start_eq (o : O) (w : World) :
  Trainer_.record_training_start (o, w) =
  (Returned tt,
   (with_base (set_training_time_start (time_source w (clock_reads w)))
      (with_base (set_training_time 0%Q) o),
    tick w)).
Proof. reflexivity. Qed.

Lemma record_training_end_eq (o : O) (w : World) :
  Trainer_.record_training_end (o, w) =
  (Returned tt,
   (with_base (set_training_time
                 (time_source w (clock_reads w) - training_time_start (base o))%Q)
      (with_base (set_training_time_end (time_source w (clock_reads w))) o),
    tick w)).
Proof.
  unfold Trainer_.record_training_end. run. unfold time_time. cbn [fst snd].
  now rewrite base_with_base.
Qed.

Lemma get_training_time_eq (o : O) (w : World) :
  Trainer_.get_training_time (o, w) = (Returned (training_time (base o)), (o, w)).
Proof. reflexivity. Qed.

End Timing.

(** C8: [record_training_start] followed by [record_training_end] makes
    [get_training_time] return the end timestamp minus the start timestamp,
    which is not negative when the clock did not go back; the start resets
    the stored time to zero, so that a second session reports its own
    times only, and reports 0 between its start and its end. *)
Theorem training_time_of_a_session {O : Type} `{Extends O} (o : O) (w : World) :
  let clock := fun k => time_source w (k + clock_reads w)%nat in
  let s1 := final (Trainer_.record_training_start (o, w)) in
  let s2 := final (Trainer_.record_training_end s1) in
  let s3 := final (Trainer_.record_training_start s2) in
  let s4 := final (Trainer_.record_training_end s3) in
  outcome (Trainer_.get_training_time s2) = Returned (clock 1%nat - clock 0%nat)%Q /\
  ((clock 0%nat <= clock 1%nat)%Q -> (0 <= clock 1%nat - clock 0%nat)%Q) /\
  outcome (Trainer_.get_training_time s1) = Returned 0%Q /\
  outcome (Trainer_.get_training_time s3) = Returned 0%Q /\
  outcome (Trainer_.get_training_time s4) = Returned (clock 3%nat - clock 2%nat)%Q.
Proof.
  intros clock s1 s2 s3 s4. subst s1 s2 s3 s4 clock.
  repeat (progress (rewrite ?record_training_start_eq, ?record_training_end_eq,
                      ?get_training_time_eq;
                    unfold final, outcome; cbn [fst snd])).
  rewrite !base_with_base. cbn.
  repeat split.
  intros Hle. apply Qle_minus_iff in Hle. exact Hle.
Qed.

(** C8 at a trainer in the initial world, whose clock reads 0 then 1. *)
Lemma training_time_of_a_session_witness :
  (time_source initial_world 0 <= time_source initial_world 1)%Q /\
  (0 <= time_source initial_world 1 - time_source initial_world 0)%Q.
Proof.
  assert (Hle : (time_source initial_world 0 <= time_source initial_world 1)%Q)
    by (unfold Qle; simpl; lia).
  split; [exact Hle |].
  exact (proj1 (proj2 (training_time_of_a_session sample_trainer initial_world)) Hle).
Defined.

(** ** History *)

Lemma list_content_insert (w : World) (l : nat) (v : list HistoryRecord) :
  list_content (set_lists (insert l v) w) l = v.
Proof. unfold list_content, set_lists. cbn. now rewrite lookup_insert_eq. Qed.

(** C5, as stated, fails: [set_history] is an operation of the interface,
    it is not [add_history], and it drops the record that the history
    held. *)
Lemma set_history_replaces_the_history :
  ~ keeps_or_appends (OpSetHistory 1) trainer_with_one_record.
Proof.
  unfold keeps_or_appends. intros [Hsame | [r [Hop _]]].
  - vm_compute in Hsame. discriminate Hsame.
  - discriminate Hop.
Qed.

(** C5, amended: a new trainer has an empty history; [add_history] appends
    one record at the end of the list the trainer holds; [set_history]
    makes the trainer hold the list it is given, whatever it contains; no
    other operation of the interface changes the list held or its
    content. *)
Theorem history_changes_by_append_or_set `{Collaborators} :
  (forall keras_model loss worker_optimizer w,
     exists t w',
       Trainer_.__init__ keras_model loss worker_optimizer w = (Returned t, w') /\
       history_records (t, w') = []) /\
  (forall op s,
     let s' := final (run_op op s) in
     match op with
     | OpAddHistory r =>
         history (fst s') = history (fst s) /\
         history_records s' = history_records s ++ [r]
     | OpSetHistory h =>
         history (fst s') = h /\ lists (snd s') = lists (snd s)
     | _ =>
         history (fst s') = history (fst s) /\ lists (snd s') = lists (snd s) /\
         history_records s' = history_records s
     end).
Proof.
  split.
  - intros km l o w. eexists _, _. split; [reflexivity |].
    unfold history_records. cbn [fst snd history]. apply list_content_insert.
  - intros op [t w]. destruct op; cbn -[list_content]; try (repeat split; reflexivity).
    split; [reflexivity |]. unfold history_records. cbn [fst snd].
    unfold list_append. cbn [snd]. apply list_content_insert.
Qed.

(** The list passed to [set_history] is shared, not copied: a record added
    afterwards shows in the caller's list. *)
Example set_history_shares_the_list :
  let s1 := final (Trainer_.set_history 1 trainer_with_one_record) in
  let s2 := final (Trainer_.add_history "epoch 2" s1) in
  list_content (snd s2) 1 = ["epoch 2"%string] /\
  list_content (snd s2) 0 = ["epoch 1"%string] /\
  history_records s2 = ["epoch 2"%string].
Proof. vm_compute. repeat split. Qed.

(** ** Constructors *)

(** C7, as stated, fails: [DOWNPOUR(..., learning_rate=0,
    communication_window=0)] is constructed without complaint. *)
Lemma downpour_accepts_zero_learning_rate_and_window :
  invalid (DOWNPOUR_args 0 0) /\
  ~ exists e,
      outcome (new (H := sample_collaborators) [] "adam" "mse" 2 32 "features" "label" 1
                 (DOWNPOUR_args 0 0) initial_world) = Raised e.
Proof.
  split.
  - left. cbn. unfold Qle. cbn. lia.
  - intros [e He]. vm_compute in He. discriminate He.
Qed.

(** C7, amended: the constructors of the four protocol classes check
    nothing: whatever the hyperparameters, the call returns an object of
    the class that stores them as given, with port 5000 and parallelism
    factor 2. *)
Theorem constructors_store_hyperparameters_unchecked `{Collaborators}
    (keras_model : KerasModel) (worker_optimizer loss : string)
    (num_workers batch_size : Z) (features_col label_col : string) (num_epoch : Z)
    (h : Hyperparameters) (w : World) :
  exists t w',
    new keras_model worker_optimizer loss num_workers batch_size features_col label_col
      num_epoch h w = (Returned t, w') /\
    class_of t = class_for h /\
    learning_rate t = Some (learning_rate_of h) /\
    communication_window t = Some (communication_window_of h) /\
    rho t = rho_of h /\
    momentum t = momentum_of h /\
    master_port t = Some 5000 /\
    parallelism_factor t = Some 2 /\
    DistributedTrainer.num_workers t = num_workers /\
    DistributedTrainer.num_epoch t = num_epoch /\
    parameter_server t = None /\
    parameter_server_thread t = None.
Proof.
  destruct h; eexists _, _; (split; [reflexivity |]); cbn; repeat split; reflexivity.
Qed.

(** ** The dataset capability *)

Lemma spark_repartition_positive (n : Z) (df : DataFrame) :
  0 < n ->
  exists out, spark_repartition n df = inr out /\ getNumPartitions out = n.
Proof.
  intros Hn. unfold spark_repartition.
  destruct (Z.leb_spec n 0) as [Hle | _]; [lia |].
  eexists. split; [reflexivity |].
  unfold getNumPartitions. rewrite length_map, length_seq. lia.
Qed.

Lemma spark_coalesce_down (n : Z) (df : DataFrame) :
  0 < n -> n < getNumPartitions df ->
  exists out, spark_coalesce n df = inr out /\ getNumPartitions out = n.
Proof.
  intros Hn Hlt. unfold spark_coalesce.
  destruct (Z.leb_spec n 0) as [Hle | _]; [lia |].
  destruct (Z.leb_spec (getNumPartitions df) n) as [Hle | _]; [lia |].
  eexists. split; [reflexivity |].
  unfold getNumPartitions, coalesce_groups. rewrite length_map, length_seq. lia.
Qed.

(** Coalescing ten partitions to eight merges neighbours and keeps the
    records in order; repartitioning them to four deals the records. *)
Example coalesce_ten_to_eight :
  exists out,
    spark_coalesce 8 (sample_dataframe 10) = inr out /\
    map length out = [1; 1; 1; 2; 1; 1; 1; 2]%nat /\
    concat out = concat (sample_dataframe 10).
Proof. eexists. split; [reflexivity |]. split; reflexivity. Qed.

Example repartition_ten_to_four :
  exists out,
    spark_repartition 4 (sample_dataframe 10) = inr out /\
    map (map row_features) out
      = [[[0]; [4]; [8]]; [[1]; [5]; [9]]; [[2]; [6]]; [[3]; [7]]]%Q.
Proof. eexists. split; reflexivity. Qed.

Example coalesce_never_adds_partitions :
  spark_coalesce 8 (sample_dataframe 3) = inr (sample_dataframe 3).
Proof. reflexivity. Qed.

Lemma repartition_eq (n : Z) (df out : DataFrame) (w : World) :
  spark_repartition n df = inr out ->
  repartition n df w = (Returned out, log (EvRepartition n out) w).
Proof. intros E. unfold repartition. run. now rewrite E. Qed.

Lemma coalesce_eq (n : Z) (df out : DataFrame) (w : World) :
  spark_coalesce n df = inr out ->
  coalesce n df w = (Returned out, log (EvCoalesce n out) w).
Proof. intros E. unfold coalesce. run. now rewrite E. Qed.

(** ** The stub of [ModelAveragingTrainer] *)



(** ** The hooks of the protocol classes *)

Lemma allocate_parameter_server_returns (t : obj) (w : World) (ps : nat) :
  outcome (virtual_allocate_parameter_server (t, w)) = Returned ps ->
  exists srv,
    ps_running srv = false /\
    ps = fresh (dom (servers w)) /\
    virtual_allocate_parameter_server (t, w)
      = (Returned ps, (t, set_servers (insert ps srv) w)).
Proof.
  destruct t as [c b nw bs fc lc ne srv th pf lr cw r mo mh mp].
  unfold virtual_allocate_parameter_server, method_resolution,
    DistributedTrainer.allocate_parameter_server,
    DOWNPOUR.allocate_parameter_server, DOWNPOURSocket.allocate_parameter_server,
    AEASGD.allocate_parameter_server, EAMSGD.allocate_parameter_server, new_server.
  destruct c, lr, mp, r, mo; run; cbn; try discriminate;
    intros E; injection E as <-; eexists; repeat split; reflexivity.
Qed.

Lemma allocate_worker_returns (t : obj) (w : World) (wk : Worker) :
  outcome (virtual_allocate_worker (t, w)) = Returned wk ->
  forall a b w',
    virtual_allocate_worker (set_parameter_server_thread a (set_parameter_server b t), w')
      = (Returned wk, (set_parameter_server_thread a (set_parameter_server b t), w')).
Proof.
  destruct t as [c b0 nw bs fc lc ne srv th pf lr cw r mo mh mp].
  unfold virtual_allocate_worker, method_resolution,
    DistributedTrainer.allocate_worker,
    DOWNPOUR.allocate_worker, DOWNPOURSocket.allocate_worker,
    AEASGD.allocate_worker, EAMSGD.allocate_worker.
  destruct c, lr, mp, r, mo, mh, cw; run; cbn; try discriminate;
    intros E; injection E as <-; reflexivity.
Qed.

(** ** The service *)

Lemma start_service_without_thread (t : obj) (w : World) :
  parameter_server_thread t = None ->
  start_service (t, w)
    = (Returned tt,
       (set_parameter_server_thread (Some (fresh (dom (threads w)))) t,
        snd (thread_start (parameter_server t) w))).
Proof.
  intros Hth. unfold start_service.
  step by reflexivity. rewrite Hth. cbn [bool_decide negb].
  rewrite bool_decide_eq_true_2 by reflexivity. cbn [negb].
  step by reflexivity. step by reflexivity.
  step by reflexivity. reflexivity.
Qed.

Lemma stop_service_of_running_thread (t : obj) (w : World) (ps tid : nat)
    (srv : ParameterServer) :
  parameter_server t = Some ps ->
  parameter_server_thread t = Some tid ->
  threads w !! tid = Some (Some ps) ->
  servers w !! ps = Some srv ->
  stop_service (t, w)
    = (Returned tt,
       (set_parameter_server_thread None t,
        log (EvThreadJoin tid)
          (set_threads (delete tid)
             (log (EvServerStop ps)
                (set_servers (alter (set_ps_running false) ps) w))))).
Proof.
  intros Hps Hth Htid Hsrv. unfold stop_service.
  step by reflexivity. rewrite Hps.
  step by reflexivity. step by reflexivity.
  step by reflexivity. rewrite Hth.
  step by reflexivity.
  step by (unfold in_world, thread_join, thread_running; cbn [fst snd];
           cbn [threads servers log log_all set_servers];
           rewrite Htid, lookup_alter_eq, Hsrv; cbn; reflexivity).
  reflexivity.
Qed.

Lemma sample_downpour_is_constructed :
  new (H := sample_collaborators) [] "adam" "mse" 4 32 "features" "label" 1
    (DOWNPOUR_args (1 # 100) 2) initial_world
  = (Returned sample_downpour, sample_world).
Proof. vm_compute. reflexivity. Qed.

(** C6, as stated, fails: on a trainer that was just constructed,
    [stop_service] raises. *)
Lemma stop_service_raises_on_a_new_trainer :
  parameter_server_thread sample_downpour = None /\
  outcome (stop_service (sample_downpour, sample_world)) = Raised AttributeError /\
  outcome (stop_service (sample_downpour, sample_world)) <> Returned tt.
Proof. vm_compute. repeat split. discriminate. Qed.

(** C6, amended: when [parameter_server_thread] is [None], [stop_service]
    raises [AttributeError] and leaves the trainer's attributes as they
    were: at once and with the world unchanged when no parameter server was
    allocated, otherwise after the parameter server was told to stop. *)
Theorem stop_service_without_thread_raises (t : obj) (w : World) :
  parameter_server_thread t = None ->
  outcome (stop_service (t, w)) = Raised AttributeError /\
  fst (final (stop_service (t, w))) = t /\
  (parameter_server t = None -> final (stop_service (t, w)) = (t, w)) /\
  (forall ps, parameter_server t = Some ps ->
     snd (final (stop_service (t, w)))
       = log (EvServerStop ps) (set_servers (alter (set_ps_running false) ps) w)).
Proof.
  intros Hth.
  assert (Hrun : stop_service (t, w) =
                 (Raised AttributeError,
                  (t, match parameter_server t with
                      | Some ps => log (EvServerStop ps)
                                     (set_servers (alter (set_ps_running false) ps) w)
                      | None => w
                      end))).
  { unfold stop_service. step by reflexivity.
    destruct (parameter_server t) as [ps |].
    - step by reflexivity. step by reflexivity. step by reflexivity.
      rewrite Hth. now apply bind_raised.
    - now apply bind_raised. }
  rewrite Hrun. unfold outcome, final. cbn [fst snd].
  repeat split.
  - now intros ->.
  - now intros ps ->.
Qed.

(** C6 at a new trainer. *)
Lemma stop_service_without_thread_raises_witness :
  outcome (stop_service (sample_downpour, sample_world)) = Raised AttributeError /\
  final (stop_service (sample_downpour, sample_world)) = (sample_downpour, sample_world).
Proof.
  destruct (stop_service_without_thread_raises sample_downpour sample_world)
    as (Hraise & _ & Hsame & _); [reflexivity |].
  split; [exact Hraise | apply Hsame; reflexivity].
Defined.

(** ** Entering [train] *)

Lemma adjust_partitions (n : Z) (df : DataFrame) :
  0 < n ->
  exists out,
    adjusted_dataframe n df = inr out /\
    getNumPartitions out = n /\
    forall w,
      (if getNumPartitions df >? n then coalesce n df else repartition n df) w
        = (Returned out, log (adjustment n df out) w).
Proof.
  intros Hn. unfold adjustment, adjusted_dataframe.
  destruct (Z.gtb_spec (getNumPartitions df) n) as [Hgt | Hle].
  - destruct (spark_coalesce_down n df) as (out & Hout & Hlen); [lia | lia |].
    exists out. split; [exact Hout |]. split; [exact Hlen |].
    intros w. now apply coalesce_eq.
  - destruct (spark_repartition_positive n df Hn) as (out & Hout & Hlen).
    exists out. split; [exact Hout |]. split; [exact Hlen |].
    intros w. now apply repartition_eq.
Qed.

Section Entering.
Context `{Collaborators}.
Variables (path : TrainPath) (t : obj) (w : World) (df : DataFrame).
Variables (ps : nat) (wk : Worker).
Hypothesis Hserver : outcome (virtual_allocate_parameter_server (t, w)) = Returned ps.
Hypothesis Hworker : outcome (virtual_allocate_worker (t, w)) = Returned wk.
Hypothesis Hthread : parameter_server_thread t = None.

(** The first four statements of [train]: the server is allocated, the
    service is started, the worker is allocated. *)
Ltac enter Hsrv :=
  step by exact Hsrv;
  step by reflexivity;
  step by (apply start_service_without_thread; exact Hthread);
  step by (apply (allocate_worker_returns _ _ _ Hworker)).

Lemma train_raises_on_shuffle_flag :
  exists srv,
    ps_running srv = false /\
    train_body path df (PyBool true) (t, w)
      = (Raised TypeError,
         (serving t ps (fresh (dom (threads w))),
          snd (thread_start (Some ps) (set_servers (insert ps srv) w)))).
Proof.
  destruct (allocate_parameter_server_returns _ _ _ Hserver) as (srv & Hoff & Hfresh & Hsrv).
  exists srv. split; [exact Hoff |].
  destruct path; cbn [train_body];
    unfold DistributedTrainer.train, AsynchronousDistributedTrainer.train;
    enter Hsrv; reflexivity.
Qed.

Lemma train_reaches_the_epochs (n : Z) :
  partition_target path t = Some n ->
  0 < n ->
  exists srv out,
    ps_running srv = false /\
    adjusted_dataframe n df = inr out /\
    getNumPartitions out = n /\
    train_body path df (PyBool false) (t, w)
      = epochs_and_shutdown wk out
          (serving t ps (fresh (dom (threads w))),
           log (adjustment n df out)
             (snd (thread_start (Some ps) (set_servers (insert ps srv) w)))).
Proof.
  intros Htarget Hn.
  destruct (allocate_parameter_server_returns _ _ _ Hserver) as (srv & Hoff & Hfresh & Hsrv).
  destruct (adjust_partitions n df Hn) as (out & Hout & Hlen & Hadjust).
  exists srv, out. split; [exact Hoff |]. split; [exact Hout |]. split; [exact Hlen |].
  destruct path; cbn [train_body partition_target] in *;
    unfold DistributedTrainer.train, AsynchronousDistributedTrainer.train;
    enter Hsrv; cbn [truthy].
  - injection Htarget as <-.
    step by reflexivity. step by reflexivity.
    step by (unfold in_world; cbn [fst snd]; rewrite Hadjust; reflexivity).
    reflexivity.
  - destruct (parallelism_factor t) as [factor |] eqn:Hfactor; [| discriminate].
    injection Htarget as <-.
    step by reflexivity. step by reflexivity.
    step by (cbn [parallelism_factor serving set_parameter_server
                    set_parameter_server_thread]; rewrite Hfactor; reflexivity).
    step by (unfold in_world; cbn [fst snd]; rewrite Hadjust; reflexivity).
    reflexivity.
Qed.

End Entering.

(** ** Logs *)

Lemma log_all_nil (w : World) : log_all [] w = w.
Proof. destruct w. unfold log_all. cbn. now rewrite app_nil_r. Qed.

Lemma log_all_app (es1 es2 : list Event) (w : World) :
  log_all es2 (log_all es1 w) = log_all (es1 ++ es2) w.
Proof. unfold log_all. cbn. now rewrite app_assoc. Qed.

Section Appends.
Context {S : Type} (ev : S -> list Event) (P : Event -> Prop).

Lemma appends_silent {A} (m : M S A) :
  (forall s, ev (snd (m s)) = ev s) -> appends ev P m.
Proof.
  intros Hm s. exists []. rewrite Hm, app_nil_r. split; [reflexivity | constructor].
Qed.

Lemma appends_bind {A B} (m : M S A) (f : A -> M S B) :
  appends ev P m -> (forall a, appends ev P (f a)) -> appends ev P (m ≫= f).
Proof.
  intros Hm Hf s. unfold mbind, M_bind.
  destruct (Hm s) as (rest1 & E1 & P1).
  destruct (m s) as [[a | e |] s1]; cbn [snd] in *; try (exists rest1; now split).
  destruct (Hf a s1) as (rest2 & E2 & P2).
  exists (rest1 ++ rest2). rewrite E2, E1, app_assoc. split; [reflexivity |].
  apply Forall_app. now split.
Qed.

Lemma appends_for_range (n : nat) (body : M S unit) :
  appends ev P body -> appends ev P (for_range n body).
Proof.
  intros Hbody. induction n as [| n IH]; cbn [for_range].
  - now apply appends_silent.
  - apply appends_bind; [exact Hbody | intros _; exact IH].
Qed.

End Appends.

Lemma appends_in_world {O A} (P : Event -> Prop) (m : M World A) :
  appends events P m -> appends (fun s : O * World => events (snd s)) P (in_world m).
Proof.
  intros Hm [o w]. unfold in_world. cbn [fst snd].
  destruct (Hm w) as (rest & E & HP). destruct (m w) as [r w']. cbn [snd] in *.
  now exists rest.
Qed.

Lemma appends_log (P : Event -> Prop) (e : Event) :
  P e -> appends events P (modify (log e)).
Proof.
  intros HP w. exists [e]. split; [reflexivity | now constructor].
Qed.

Lemma appends_run_partitions `{Collaborators} (P : Event -> Prop) (wk : Worker)
    (parts : list (list Row)) :
  (forall i, P (EvWorkerTrain i)) ->
  forall i, appends events P (run_partitions wk i parts).
Proof.
  intros HP. induction parts as [| p rest IH]; intros i; cbn [run_partitions].
  - now apply appends_silent.
  - apply appends_bind; [now apply appends_log | intros _].
    apply appends_bind; [apply appends_silent; intros w; now destruct (worker_train wk i p) |].
    intros r. apply appends_bind; [apply IH | intros rs; now apply appends_silent].
Qed.

Lemma appends_stop_service (P : Event -> Prop) :
  (forall ps, P (EvServerStop ps)) -> (forall tid, P (EvThreadJoin tid)) ->
  appends (fun s : obj * World => events (snd s)) P stop_service.
Proof.
  intros Hstop Hjoin. unfold stop_service.
  apply appends_bind; [now apply appends_silent | intros t].
  apply appends_bind; [apply appends_silent; intros s; now destruct (parameter_server t) |].
  intros ps. apply appends_bind.
  { apply appends_in_world. unfold server_stop. intros w. exists [EvServerStop ps].
    split; [reflexivity | constructor; [apply Hstop | constructor]]. }
  intros _. apply appends_bind; [now apply appends_silent | intros t'].
  apply appends_bind;
    [apply appends_silent; intros s; now destruct (parameter_server_thread t') |].
  intros tid. apply appends_bind; [| intros _; now apply appends_silent].
  apply appends_in_world. intros w. unfold thread_join.
  destruct (thread_running w tid); cbn [snd].
  - exists []. rewrite app_nil_r. split; [reflexivity | constructor].
  - exists [EvThreadJoin tid]. split; [reflexivity | constructor; [apply Hjoin | constructor]].
Qed.

Lemma appends_epochs_and_shutdown `{Collaborators} (wk : Worker) (out : DataFrame) :
  appends (fun s : obj * World => events (snd s)) after_adjustment
    (epochs_and_shutdown wk out).
Proof.
  unfold epochs_and_shutdown.
  apply appends_bind; [now apply appends_silent | intros _].
  apply appends_bind; [now apply appends_silent | intros t].
  apply appends_bind.
  { apply appends_for_range. apply appends_bind; [| intros rs; now apply appends_silent].
    apply appends_in_world. unfold mapPartitionsWithIndex_collect.
    now apply appends_run_partitions. }
  intros _. apply appends_bind; [apply appends_silent; intros [o w]; reflexivity | intros _].
  apply appends_bind; [now apply appends_stop_service | intros _].
  apply appends_bind; [now apply appends_silent | intros t'].
  apply appends_bind; [apply appends_silent; intros s; now destruct (parameter_server t') |].
  intros ps. apply appends_in_world. apply appends_silent. intros w.
  unfold server_get_model. now destruct (servers w !! ps).
Qed.

(** ** What every run of [train] logs *)

Lemma keeps_silent {A} (m : Method obj A) :
  (forall s, fst (snd (m s)) = fst s) -> keeps_configuration m.
Proof. intros Hm s. now rewrite Hm. Qed.

Lemma keeps_bind {A B} (m : Method obj A) (f : A -> Method obj B) :
  keeps_configuration m -> (forall a, keeps_configuration (f a)) ->
  keeps_configuration (m ≫= f).
Proof.
  intros Hm Hf s. unfold mbind, M_bind.
  destruct (Hm s) as (E1 & E2).
  destruct (m s) as [[a | e |] s1]; cbn [snd] in *; try (now split).
  destruct (Hf a s1) as (E3 & E4). split; congruence.
Qed.

Lemma keeps_in_world {A} (m : M World A) : keeps_configuration (in_world m).
Proof.
  apply keeps_silent. intros [o w]. unfold in_world. cbn [fst snd].
  now destruct (m w).
Qed.

Lemma keeps_getattr {A} (o : option A) : keeps_configuration (getattr o).
Proof. apply keeps_silent. intros s. now destruct o. Qed.

Lemma keeps_stop_service : keeps_configuration stop_service.
Proof.
  unfold stop_service.
  apply keeps_bind; [now apply keeps_silent | intros t].
  apply keeps_bind; [apply keeps_getattr | intros ps].
  apply keeps_bind; [apply keeps_in_world | intros _].
  apply keeps_bind; [now apply keeps_silent | intros t'].
  apply keeps_bind; [apply keeps_getattr | intros tid].
  apply keeps_bind; [apply keeps_in_world | intros _].
  intros [o w]. now split.
Qed.

Lemma keeps_start_service : keeps_configuration start_service.
Proof.
  unfold start_service.
  apply keeps_bind; [now apply keeps_silent | intros t].
  apply keeps_bind.
  { destruct (negb _); [apply keeps_stop_service | now apply keeps_silent]. }
  intros _. apply keeps_bind; [now apply keeps_silent | intros t'].
  apply keeps_bind; [apply keeps_in_world | intros tid].
  intros [o w]. now split.
Qed.

Lemma appends_start_service :
  appends (fun s : obj * World => events (snd s)) service_event start_service.
Proof.
  unfold start_service.
  apply appends_bind; [now apply appends_silent | intros t].
  apply appends_bind.
  { destruct (negb _); [now apply appends_stop_service | now apply appends_silent]. }
  intros _. apply appends_bind; [now apply appends_silent | intros t'].
  apply appends_bind; [| intros tid; now apply appends_silent].
  apply appends_in_world. intros w. exists [EvThreadStart (fresh (dom (threads w)))].
  split; [now destruct (parameter_server t') | now repeat constructor].
Qed.

(** The hooks leave the receiver as it is and log nothing. *)
Lemma allocate_parameter_server_silent (s : obj * World) :
  fst (snd (virtual_allocate_parameter_server s)) = fst s /\
  events (snd (snd (virtual_allocate_parameter_server s))) = events (snd s).
Proof.
  destruct s as [[c b nw bs fc lc ne srv th pf lr cw r mo mh mp] w].
  unfold virtual_allocate_parameter_server, method_resolution,
    DistributedTrainer.allocate_parameter_server,
    DOWNPOUR.allocate_parameter_server, DOWNPOURSocket.allocate_parameter_server,
    AEASGD.allocate_parameter_server, EAMSGD.allocate_parameter_server, new_server.
  destruct c, lr, mp, r, mo; run; cbn; now split.
Qed.

Lemma allocate_worker_silent (s : obj * World) :
  snd (virtual_allocate_worker s) = s.
Proof.
  destruct s as [[c b nw bs fc lc ne srv th pf lr cw r mo mh mp] w].
  unfold virtual_allocate_worker, method_resolution,
    DistributedTrainer.allocate_worker,
    DOWNPOUR.allocate_worker, DOWNPOURSocket.allocate_worker,
    AEASGD.allocate_worker, EAMSGD.allocate_worker.
  destruct c, lr, mp, r, mo, mh, cw; run; cbn; reflexivity.
Qed.

Section Staging.
Context `{Collaborators}.
Variables (path : TrainPath) (df : DataFrame).

Lemma staged_bind {A B} (m : Method obj A) (f : A -> Method obj B) (s : obj * World) :
  appends (fun s : obj * World => events (snd s)) service_event m ->
  keeps_configuration m ->
  (forall a s', staged_at path df (f a) s') ->
  staged_at path df (m ≫= f) s.
Proof.
  intros Hm Hkeep Hf. unfold staged_at, mbind, M_bind.
  destruct (Hm s) as (pre & Hpre & Hservice).
  destruct (Hkeep s) as (Hw & Hpf).
  destruct (m s) as [[a | e |] s1]; cbn [snd] in *.
  - destruct (Hf a s1) as (added & Hadded & pre' & post & -> & Hpre' & Hpost).
    exists (pre ++ pre' ++ post). split; [rewrite Hadded, Hpre; now rewrite <- app_assoc |].
    exists (pre ++ pre'), post. split; [now rewrite app_assoc |].
    split; [apply Forall_app; now split |].
    destruct Hpost as [-> | (F & HF & Hgood)]; [now left | right].
    exists F. unfold factor_of in *. rewrite <- Hw, <- Hpf. now split.
  - exists pre. split; [exact Hpre |]. exists pre, []. rewrite app_nil_r. now repeat split; try left.
  - exists pre. split; [exact Hpre |]. exists pre, []. rewrite app_nil_r. now repeat split; try left.
Qed.

Lemma staged_raise {A B} (e : Exception) (f : A -> Method obj B) (s : obj * World) :
  staged_at path df (raise e ≫= f) s.
Proof.
  exists []. split; [cbn; now rewrite app_nil_r |].
  exists [], []. repeat split; [constructor | now left].
Qed.

(** The adjustment and what follows it. *)
Lemma staged_adjustment (n : Z) (wk : Worker) (s : obj * World) :
  (exists F, factor_of path (fst s) = Some F /\ n = num_workers (fst s) * F) ->
  staged_at path df
    (dataframe ← in_world (if getNumPartitions df >? n then coalesce n df
                           else repartition n df);
     epochs_and_shutdown wk dataframe) s.
Proof.
  intros (F & HF & Hn). destruct s as [t w]. unfold staged_at. cbn [fst snd] in *.
  destruct (Z.ltb_spec 0 n) as [Hpos | Hneg].
  - destruct (adjust_partitions n df Hpos) as (out & _ & Hlen & Hadjust).
    step by (unfold in_world; cbn [fst snd]; rewrite Hadjust; reflexivity).
    destruct (appends_epochs_and_shutdown wk out (t, log (adjustment n df out) w))
      as (rest & Hev & Hrest).
    exists (adjustment n df out :: rest). split; [rewrite Hev; cbn; now rewrite <- app_assoc |].
    exists [], (adjustment n df out :: rest). repeat split; [constructor |].
    right. exists F. split; [exact HF |]. subst n. now exists out, rest.
  - exists []. split.
    + rewrite (bind_raised _ _ (t, w) IllegalArgumentException (t, w));
        [cbn; now rewrite app_nil_r |].
      unfold in_world, coalesce, repartition, spark_coalesce, spark_repartition.
      cbn [fst snd].
      destruct (Z.leb_spec n 0) as [_ | Hgt]; [| lia].
      destruct (getNumPartitions df >? n); reflexivity.
    + exists [], []. repeat split; [constructor | now left].
Qed.

End Staging.

(** Whatever the receiver, the world, the dataset and the flag, a [train]
    body logs events of the service and then, if it gets that far, the
    adjustment to [num_workers] times its factor, followed by the epochs
    and the shutdown. *)
Lemma train_is_staged `{Collaborators} (path : TrainPath) (df : DataFrame) (b : bool)
    (s : obj * World) :
  staged_at path df (train_body path df (PyBool b)) s.
Proof.
  destruct path; cbn [train_body];
    unfold DistributedTrainer.train, AsynchronousDistributedTrainer.train.
  all: apply staged_bind;
    [ apply appends_silent; intros s0; apply allocate_parameter_server_silent
    | apply keeps_silent; intros s0; apply allocate_parameter_server_silent
    | intros ps s1 ].
  all: apply staged_bind;
    [ now apply appends_silent | intros [o w]; now split | intros _ s2 ].
  all: apply staged_bind;
    [ apply appends_start_service | apply keeps_start_service | intros _ s3 ].
  all: apply staged_bind;
    [ apply appends_silent; intros s0; now rewrite allocate_worker_silent
    | apply keeps_silent; intros s0; now rewrite allocate_worker_silent
    | intros wk s4 ].
  all: destruct b; cbn [truthy call_value of_sum]; [apply staged_raise |].
  - apply (staged_adjustment UnscaledTrain df (num_workers (fst s4)) wk s4).
    exists 1. split; [reflexivity | lia].
  - destruct s4 as [t w]. unfold staged_at.
    step by reflexivity. step by reflexivity.
    destruct (parallelism_factor t) as [factor |] eqn:Hfactor.
    + step by reflexivity.
      apply (staged_adjustment ScaledTrain df (factor * num_workers t) wk (t, w)).
      exists factor. split; [exact Hfactor | cbn; lia].
    + exists []. split; [cbn; now rewrite app_nil_r |].
      exists [], []. repeat split; [constructor | now left].
Qed.

(** With the flag set, a [train] body never gets past the shuffle. *)
Lemma train_stops_at_shuffle_flag `{Collaborators} (path : TrainPath) (df : DataFrame) :
  never_returns (train_body path df (PyBool true)) /\
  appends (fun s : obj * World => events (snd s)) service_event
    (train_body path df (PyBool true)).
Proof.
  split.
  - destruct path; cbn [train_body];
      unfold DistributedTrainer.train, AsynchronousDistributedTrainer.train;
      do 4 (apply never_returns_bind_r; intros ?);
      apply never_returns_bind_l; intros ? ?; discriminate.
  - destruct path; cbn [train_body];
      unfold DistributedTrainer.train, AsynchronousDistributedTrainer.train.
    all: apply appends_bind;
      [apply appends_silent; intros s0; apply allocate_parameter_server_silent | intros ps].
    all: apply appends_bind; [now apply appends_silent | intros _].
    all: apply appends_bind; [apply appends_start_service | intros _].
    all: apply appends_bind;
      [apply appends_silent; intros s0; now rewrite allocate_worker_silent | intros wk].
    all: intros s; exists []; cbn; rewrite app_nil_r; split; [reflexivity | constructor].
Qed.

(** ** Partitions *)

Lemma partition_target_is_workers_times_factor (path : TrainPath) (t : obj) (F : Z) :
  factor_of path t = Some F -> partition_target path t = Some (num_workers t * F).
Proof.
  destruct path; cbn.
  - intros [= <-]. f_equal. lia.
  - intros ->. cbn. f_equal. lia.
Qed.

(** The log of a [train] call on a trainer whose hooks return and that has
    no thread yet, with [shuffle = False] and a positive target. *)
Lemma train_log `{Collaborators} (path : TrainPath) (t : obj) (w : World) (df : DataFrame)
    (ps : nat) (wk : Worker) (F : Z) :
  outcome (virtual_allocate_parameter_server (t, w)) = Returned ps ->
  outcome (virtual_allocate_worker (t, w)) = Returned wk ->
  parameter_server_thread t = None ->
  factor_of path t = Some F ->
  0 < num_workers t * F ->
  exists out rest,
    events (snd (final (train_body path df (PyBool false) (t, w))))
      = events w
        ++ [EvThreadStart (fresh (dom (threads w)));
            adjustment (num_workers t * F) df out]
        ++ rest /\
    getNumPartitions out = num_workers t * F /\
    Forall after_adjustment rest.
Proof.
  intros Hps Hwk Hth HF Hpos.
  apply partition_target_is_workers_times_factor in HF.
  destruct (train_reaches_the_epochs path t w df ps wk Hps Hwk Hth _ HF Hpos)
    as (srv & out & _ & _ & Hlen & Hrun).
  rewrite Hrun.
  destruct (appends_epochs_and_shutdown wk out
              (serving t ps (fresh (dom (threads w))),
               log (adjustment (num_workers t * F) df out)
                 (snd (thread_start (Some ps) (set_servers (insert ps srv) w)))))
    as (rest & Hev & Hrest).
  exists out, rest. unfold final. rewrite Hev. cbn. rewrite <- !app_assoc.
  repeat split; assumption.
Qed.

(** The body of [DistributedTrainer], run on the same object, asks for
    four partitions: three partitions are repartitioned. *)
Example unscaled_train_repartitions_up :
  exists out rest,
    events (snd (final (train_body (H := sample_collaborators) UnscaledTrain
                          (sample_dataframe 3) (PyBool false)
                          (sample_downpour, sample_world))))
      = [EvThreadStart 0; EvRepartition 4 out] ++ rest /\
    getNumPartitions out = 4.
Proof.
  destruct (train_log (H := sample_collaborators)
              UnscaledTrain sample_downpour sample_world (sample_dataframe 3) 0%nat
              sample_worker 1)
    as (out & rest & Hev & Hlen & Hrest);
    [reflexivity | reflexivity | reflexivity | reflexivity | reflexivity |].
  exists out, rest. split; assumption.
Qed.

(** ** The shuffle flag *)

(** C3 does not hold of the code: with [shuffle = True], the statement
    [dataframe = shuffle(dataframe)] calls the flag itself.  Whatever the
    trainer and the dataset, [train] then never returns and logs nothing but
    events of the service: nothing is shuffled, the partitions are not
    adjusted, no epoch runs.  On a trainer whose class implements the hooks
    and that holds no thread, it raises [TypeError] right after the start
    of the service, whose thread is left running. *)
Theorem train_with_shuffle_flag_raises_type_error `{Collaborators}
    (path : TrainPath) (t : obj) (w : World) (df : DataFrame) :
  (forall model, outcome (train_body path df (PyBool true) (t, w)) <> Returned model) /\
  (exists added,
     events (snd (final (train_body path df (PyBool true) (t, w)))) = events w ++ added /\
     Forall service_event added) /\
  (forall (ps : nat) (wk : Worker),
     outcome (virtual_allocate_parameter_server (t, w)) = Returned ps ->
     outcome (virtual_allocate_worker (t, w)) = Returned wk ->
     parameter_server_thread t = None ->
     let tid := fresh (dom (threads w)) in
     exists t' w',
       train_body path df (PyBool true) (t, w) = (Raised TypeError, (t', w')) /\
       events w' = events w ++ [EvThreadStart tid] /\
       parameter_server_thread t' = Some tid /\
       thread_running w' tid = true).
Proof.
  destruct (train_stops_at_shuffle_flag path df) as (Hnever & Hlog).
  split; [intros model; apply Hnever |].
  split; [exact (Hlog (t, w)) |].
  intros ps wk Hps Hwk Hth tid.
  destruct (train_raises_on_shuffle_flag path t w df ps wk Hps Hwk Hth)
    as (srv & Hoff & Hrun).
  eexists _, _. split; [exact Hrun |].
  split; [reflexivity |]. split; [reflexivity |].
  unfold thread_running, thread_start. cbn.
  now rewrite lookup_insert_eq, lookup_alter_eq, lookup_insert_eq.
Qed.

(** C3 at the [DOWNPOUR] trainer with four workers. *)
Lemma train_with_shuffle_flag_raises_type_error_witness :
  exists t' w',
    invoke_train (H := sample_collaborators) (sample_dataframe 10) (PyBool true)
      (sample_downpour, sample_world) = (Raised TypeError, (t', w')) /\
    events w' = [EvThreadStart 0] /\
    parameter_server_thread t' = Some 0%nat /\
    thread_running w' 0 = true.
Proof.
  exact (proj2 (proj2 (train_with_shuffle_flag_raises_type_error
                         (H := sample_collaborators)
                         ScaledTrain sample_downpour sample_world (sample_dataframe 10)))
           0%nat sample_worker eq_refl eq_refl eq_refl).
Defined.

(** ** Epochs *)

Section Epochs.
Context `{Collaborators}.

Lemma workers_succeed_no_failure (wk : Worker) (parts : list (list Row)) :
  workers_succeed -> forall i, first_failure wk i parts = None.
Proof.
  intros Hok. induction parts as [| p rest IH]; intros i; cbn [first_failure].
  - reflexivity.
  - destruct (Hok wk i p) as [r ->]. apply IH.
Qed.

Lemma run_partitions_returns (wk : Worker) (parts : list (list Row)) :
  forall i w,
    first_failure wk i parts = None ->
    exists rs,
      run_partitions wk i parts w
        = (Returned rs, log_all (map EvWorkerTrain (seq i (length parts))) w).
Proof.
  induction parts as [| p rest IH]; intros i w Hnone; cbn [run_partitions first_failure] in *.
  - exists []. cbn. now rewrite log_all_nil.
  - destruct (worker_train wk i p) as [e | r] eqn:Hr; [discriminate |].
    destruct (IH (S i) (log (EvWorkerTrain i) w) Hnone) as (rs & Hrs).
    exists (r ++ rs).
    step by reflexivity.
    step by reflexivity. step by exact Hrs.
    unfold log. rewrite log_all_app. reflexivity.
Qed.

Lemma run_partitions_raises (wk : Worker) (parts : list (list Row)) (e : Exception) :
  forall i w,
    first_failure wk i parts = Some e ->
    exists k,
      run_partitions wk i parts w
        = (Raised e, log_all (map EvWorkerTrain (seq i (S k))) w).
Proof.
  induction parts as [| p rest IH]; intros i w Hsome; cbn [run_partitions first_failure] in *.
  - discriminate.
  - destruct (worker_train wk i p) as [e' | r] eqn:Hr.
    + injection Hsome as <-. exists 0%nat.
      step by reflexivity. now apply bind_raised.
    + destruct (IH (S i) (log (EvWorkerTrain i) w) Hsome) as (k & Hk).
      exists (S k).
      step by reflexivity.
      step by reflexivity. erewrite bind_raised by exact Hk.
      unfold log. rewrite log_all_app. reflexivity.
Qed.

(** The epoch loop when no partition fails: each epoch invokes the
    worker on every partition, in turn. *)
Lemma epochs_return (wk : Worker) (out : DataFrame) (n : nat) (o : obj) (w : World) :
  first_failure wk 0 out = None ->
  for_range n (in_world (mapPartitionsWithIndex_collect wk out);; mret tt) (o, w)
    = (Returned tt,
       (o, log_all (concat (replicate n (map EvWorkerTrain (seq 0 (length out))))) w)).
Proof.
  intros Hnone. revert w. induction n as [| n IH]; intros w; cbn [for_range replicate concat].
  - now rewrite log_all_nil.
  - destruct (run_partitions_returns wk out 0 w Hnone) as (rs & Hrs).
    step by (step by (unfold in_world, mapPartitionsWithIndex_collect; cbn [fst snd];
                      rewrite Hrs; reflexivity);
             reflexivity).
    rewrite IH, log_all_app. reflexivity.
Qed.

(** The epoch loop when a partition fails: the first epoch raises. *)
Lemma epochs_raise (wk : Worker) (out : DataFrame) (n : nat) (o : obj) (w : World)
    (e : Exception) :
  first_failure wk 0 out = Some e ->
  exists k,
    for_range (S n) (in_world (mapPartitionsWithIndex_collect wk out);; mret tt) (o, w)
      = (Raised e, (o, log_all (map EvWorkerTrain (seq 0 (S k))) w)).
Proof.
  intros Hsome. destruct (run_partitions_raises wk out e 0 w Hsome) as (k & Hk).
  exists k. cbn [for_range].
  apply bind_raised. apply bind_raised.
  unfold in_world, mapPartitionsWithIndex_collect. cbn [fst snd]. now rewrite Hk.
Qed.

(** The second half of [train] when no partition fails. *)
Lemma epochs_and_shutdown_return (wk : Worker) (out : DataFrame) (t : obj) (w : World)
    (ps tid : nat) (srv : ParameterServer) :
  first_failure wk 0 out = None ->
  parameter_server t = Some ps ->
  parameter_server_thread t = Some tid ->
  threads w !! tid = Some (Some ps) ->
  servers w !! ps = Some srv ->
  exists t' w',
    epochs_and_shutdown wk out (t, w)
      = (Returned (deserialize_keras_model (ps_model srv)), (t', w')) /\
    events w'
      = events w
        ++ concat (replicate (Z.to_nat (num_epoch t))
                     (map EvWorkerTrain (seq 0 (length out))))
        ++ [EvServerStop ps; EvThreadJoin tid] /\
    parameter_server_thread t' = None /\
    threads w' !! tid = None /\
    training_time (super t')
      = (time_source w (S (clock_reads w)) - time_source w (clock_reads w))%Q.
Proof.
  intros Hnone Hps Hth Htid Hsrv.
  eexists _, _. split.
  - unfold epochs_and_shutdown.
    step by apply record_training_start_eq.
    step by reflexivity.
    step by apply (epochs_return wk out _ _ _ Hnone).
    step by apply record_training_end_eq.
    step by (eapply stop_service_of_running_thread;
             [exact Hps | exact Hth | exact Htid | exact Hsrv]).
    step by reflexivity.
    cbn [parameter_server set_parameter_server_thread with_base extends set_super].
    rewrite Hps.
    step by reflexivity.
    unfold in_world, server_get_model. cbn [fst snd].
    cbn [servers log log_all set_threads set_servers tick].
    rewrite lookup_alter_eq, Hsrv. cbn. reflexivity.
  - cbn. rewrite lookup_delete_eq, <- !app_assoc. repeat split.
Qed.

(** The second half of [train] when a partition fails: the exception of
    the worker ends the call in the first epoch, before the timing ends
    and before the service is stopped. *)
Lemma epochs_and_shutdown_raise (wk : Worker) (out : DataFrame) (t : obj) (w : World)
    (e : Exception) :
  first_failure wk 0 out = Some e ->
  0 < num_epoch t ->
  exists k,
    epochs_and_shutdown wk out (t, w)
      = (Raised e,
         (with_base (set_training_time_start (time_source w (clock_reads w)))
            (with_base (set_training_time 0%Q) t),
          log_all (map EvWorkerTrain (seq 0 (S k))) (tick w))).
Proof.
  intros Hsome Hepoch.
  destruct (Z.to_nat (num_epoch t)) as [| n] eqn:Hn; [lia |].
  destruct (epochs_raise wk out n
              (with_base (set_training_time_start (time_source w (clock_reads w)))
                 (with_base (set_training_time 0%Q) t))
              (tick w) e Hsome) as (k & Hk).
  exists k. unfold epochs_and_shutdown.
  step by apply record_training_start_eq.
  step by reflexivity.
  cbn [num_epoch with_base extends set_super]. rewrite Hn.
  now apply bind_raised.
Qed.

End Epochs.

(** ** Whole runs of [train] *)

Lemma running_after_start (ps tid : nat) (srv : ParameterServer) (es : list Event) (w : World) :
  let w' := log_all es (snd (thread_start (Some ps) (set_servers (insert ps srv) w))) in
  threads w' !! fresh (dom (threads w)) = Some (Some ps) /\
  servers w' !! ps = Some (set_ps_running true srv).
Proof.
  cbn. now rewrite lookup_insert_eq, lookup_alter_eq, lookup_insert_eq.
Qed.

(** A run in which no partition fails. *)
Lemma train_returns `{Collaborators} (path : TrainPath) (t : obj) (w : World)
    (df : DataFrame) (ps : nat) (wk : Worker) (F : Z) :
  outcome (virtual_allocate_parameter_server (t, w)) = Returned ps ->
  outcome (virtual_allocate_worker (t, w)) = Returned wk ->
  parameter_server_thread t = None ->
  factor_of path t = Some F ->
  0 < num_workers t * F ->
  workers_succeed ->
  let tid := fresh (dom (threads w)) in
  exists out model t' w',
    train_body path df (PyBool false) (t, w) = (Returned model, (t', w')) /\
    getNumPartitions out = num_workers t * F /\
    events w'
      = events w
        ++ [EvThreadStart tid; adjustment (num_workers t * F) df out]
        ++ concat (replicate (Z.to_nat (num_epoch t))
                     (map EvWorkerTrain (seq 0 (Z.to_nat (num_workers t * F)))))
        ++ [EvServerStop ps; EvThreadJoin tid] /\
    parameter_server_thread t' = None /\
    threads w' !! tid = None.
Proof.
  intros Hps Hwk Hth HF Hpos Hok tid.
  apply partition_target_is_workers_times_factor in HF.
  destruct (train_reaches_the_epochs path t w df ps wk Hps Hwk Hth _ HF Hpos)
    as (srv & out & _ & _ & Hlen & Hrun).
  destruct (running_after_start ps tid srv [adjustment (num_workers t * F) df out] w)
    as (Htid & Hsrv).
  destruct (epochs_and_shutdown_return wk out (serving t ps tid) _ ps tid _
              (workers_succeed_no_failure wk out Hok 0%nat) eq_refl eq_refl Htid Hsrv)
    as (t' & w' & Hend & Hev & Hnone & Hgone & _).
  exists out. eexists _, t', w'. split; [rewrite Hrun; exact Hend |].
  split; [exact Hlen |]. split; [| split; assumption].
  rewrite Hev. cbn [events log_all thread_start snd log set_threads set_servers num_epoch
                    serving set_parameter_server_thread set_parameter_server].
  replace (length out) with (Z.to_nat (num_workers t * F))
    by (unfold getNumPartitions in Hlen; lia).
  now rewrite <- !app_assoc.
Qed.

Lemma no_server_stop_among_worker_events (l : list nat) :
  existsb is_server_stop (map EvWorkerTrain l) = false.
Proof. induction l as [| i l IH]; [reflexivity | exact IH]. Qed.

(** A run in which a partition fails. *)
Lemma train_raises `{Collaborators} (path : TrainPath) (t : obj) (w : World)
    (df out : DataFrame) (ps : nat) (wk : Worker) (F : Z) (e : Exception) :
  outcome (virtual_allocate_parameter_server (t, w)) = Returned ps ->
  outcome (virtual_allocate_worker (t, w)) = Returned wk ->
  parameter_server_thread t = None ->
  factor_of path t = Some F ->
  0 < num_workers t * F ->
  0 < num_epoch t ->
  adjusted_dataframe (num_workers t * F) df = inr out ->
  first_failure wk 0 out = Some e ->
  let tid := fresh (dom (threads w)) in
  exists k t' w',
    train_body path df (PyBool false) (t, w) = (Raised e, (t', w')) /\
    events w'
      = events w
        ++ [EvThreadStart tid; adjustment (num_workers t * F) df out]
        ++ map EvWorkerTrain (seq 0 (S k)) /\
    parameter_server t' = Some ps /\
    parameter_server_thread t' = Some tid /\
    thread_running w' tid = true.
Proof.
  intros Hps Hwk Hth HF Hpos Hepoch Hout Hfail tid.
  apply partition_target_is_workers_times_factor in HF.
  destruct (train_reaches_the_epochs path t w df ps wk Hps Hwk Hth _ HF Hpos)
    as (srv & out' & _ & Hout' & _ & Hrun).
  assert (out' = out) as -> by congruence.
  destruct (epochs_and_shutdown_raise wk out (serving t ps tid)
              (log (adjustment (num_workers t * F) df out)
                 (snd (thread_start (Some ps) (set_servers (insert ps srv) w))))
              e Hfail Hepoch) as (k & Hk).
  exists k. eexists _, _. split; [rewrite Hrun; exact Hk |].
  cbn. rewrite <- !app_assoc. repeat split.
  unfold thread_running. cbn.
  now rewrite lookup_insert_eq, lookup_alter_eq, lookup_insert_eq.
Qed.

(** ** The dataset that the epochs run on *)

Section TrainedOn.
Context `{Collaborators}.

(** A pass that fails: the worker was invoked on the partitions up to the
    first one on which it raises. *)
Lemma run_partitions_raises_at (wk : Worker) (parts : list (list Row)) (e : Exception) :
  forall i w,
    first_failure wk i parts = Some e ->
    exists k p,
      parts !! k = Some p /\
      worker_train wk (i + k) p = inl e /\
      (forall j q, (j < k)%nat -> parts !! j = Some q ->
                   exists r, worker_train wk (i + j) q = inr r) /\
      run_partitions wk i parts w
        = (Raised e, log_all (map EvWorkerTrain (seq i (S k))) w).
Proof.
  induction parts as [| p rest IH]; intros i w Hsome; cbn [run_partitions first_failure] in *.
  - discriminate.
  - destruct (worker_train wk i p) as [e' | r] eqn:Hr.
    + injection Hsome as <-. exists 0%nat, p.
      split; [reflexivity |]. split; [now rewrite Nat.add_0_r |].
      split; [intros j q Hj; lia |].
      step by reflexivity. now apply bind_raised.
    + destruct (IH (S i) (log (EvWorkerTrain i) w) Hsome) as (k & q & Hq & Hfail & Hbefore & Hk).
      exists (S k), q.
      split; [exact Hq |].
      split; [now rewrite Nat.add_succ_r |].
      split.
      * intros [| j] q' Hj Hq'.
        -- cbn in Hq'. injection Hq' as <-. rewrite Nat.add_0_r. now exists r.
        -- rewrite Nat.add_succ_r. apply (Hbefore j q'); [lia | exact Hq'].
      * step by reflexivity.
        step by reflexivity. erewrite bind_raised by exact Hk.
        unfold log. rewrite log_all_app. reflexivity.
Qed.

(** The log of the second half of [train], run on the dataset [out]. *)
Lemma epochs_and_shutdown_trains_on (wk : Worker) (out : DataFrame) (t : obj) (w : World)
    (ps tid : nat) (srv : ParameterServer) :
  parameter_server t = Some ps ->
  parameter_server_thread t = Some tid ->
  threads w !! tid = Some (Some ps) ->
  servers w !! ps = Some srv ->
  exists rest,
    events (snd (final (epochs_and_shutdown wk out (t, w)))) = events w ++ rest /\
    Forall after_adjustment rest /\
    trained_on wk (num_epoch t) out ps tid rest.
Proof.
  intros Hps Hth Htid Hsrv.
  destruct (appends_epochs_and_shutdown wk out (t, w)) as (rest & Hev & Hrest).
  exists rest. split; [exact Hev |]. split; [exact Hrest |].
  unfold final. cbn [snd] in Hev. split.
  - intros Hcase. apply (app_inv_head (events w)). rewrite <- Hev.
    assert (Hloop : forall (o : obj) (w0 : World),
              for_range (Z.to_nat (num_epoch t))
                (in_world (mapPartitionsWithIndex_collect wk out);; mret tt) (o, w0)
              = (Returned tt,
                 (o, log_all (rounds (Z.to_nat (num_epoch t)) (length out)) w0))).
    { intros o w0. destruct Hcase as [Hzero | Hnone].
      - replace (Z.to_nat (num_epoch t)) with 0%nat by lia.
        cbn. now rewrite log_all_nil.
      - now apply epochs_return. }
    unfold epochs_and_shutdown.
    step by apply record_training_start_eq.
    step by reflexivity.
    step by apply Hloop.
    step by apply record_training_end_eq.
    step by (eapply stop_service_of_running_thread;
             [exact Hps | exact Hth | exact Htid | exact Hsrv]).
    step by reflexivity.
    cbn [parameter_server set_parameter_server_thread with_base extends set_super].
    rewrite Hps.
    step by reflexivity.
    unfold in_world, server_get_model. cbn [fst snd].
    cbn [servers log log_all set_threads set_servers tick].
    rewrite lookup_alter_eq, Hsrv. cbn. now rewrite <- !app_assoc.
  - intros e Hepoch Hsome.
    destruct (Z.to_nat (num_epoch t)) as [| n] eqn:Hn; [lia |].
    destruct (run_partitions_raises_at wk out e 0
                (tick w) Hsome) as (k & p & Hp & Hfail & Hbefore & Hk).
    exists k, p. split; [exact Hp |]. split; [exact Hfail |]. split; [exact Hbefore |].
    assert (Hrun : exists o,
              epochs_and_shutdown wk out (t, w)
              = (Raised e, (o, log_all (map EvWorkerTrain (seq 0 (S k))) (tick w)))).
    { eexists. unfold epochs_and_shutdown.
      step by apply record_training_start_eq.
      step by reflexivity.
      cbn [num_epoch with_base extends set_super]. rewrite Hn.
      apply bind_raised. cbn [for_range]. apply bind_raised. apply bind_raised.
      unfold in_world, mapPartitionsWithIndex_collect. cbn [fst snd]. now rewrite Hk. }
    destruct Hrun as (o & Hrun). rewrite Hrun in Hev. cbn in Hev.
    apply app_inv_head in Hev. now symmetry.
Qed.

(** The log of a [train] call with [shuffle = False], on a trainer whose
    hooks return and that holds no thread, for a positive target: the
    adjustment returns a dataset of that many partitions, and the epochs
    run on that dataset. *)
Lemma train_trains_on (path : TrainPath) (t : obj) (w : World) (df : DataFrame)
    (ps : nat) (wk : Worker) (F : Z) :
  outcome (virtual_allocate_parameter_server (t, w)) = Returned ps ->
  outcome (virtual_allocate_worker (t, w)) = Returned wk ->
  parameter_server_thread t = None ->
  factor_of path t = Some F ->
  0 < num_workers t * F ->
  exists out rest,
    adjusted_dataframe (num_workers t * F) df = inr out /\
    getNumPartitions out = num_workers t * F /\
    events (snd (final (train_body path df (PyBool false) (t, w))))
      = events w
        ++ [EvThreadStart (fresh (dom (threads w)));
            adjustment (num_workers t * F) df out]
        ++ rest /\
    Forall after_adjustment rest /\
    trained_on wk (num_epoch t) out ps (fresh (dom (threads w))) rest.
Proof.
  intros Hps Hwk Hth HF Hpos.
  apply partition_target_is_workers_times_factor in HF.
  destruct (train_reaches_the_epochs path t w df ps wk Hps Hwk Hth _ HF Hpos)
    as (srv & out & _ & Hout & Hlen & Hrun).
  destruct (running_after_start ps (fresh (dom (threads w))) srv
              [adjustment (num_workers t * F) df out] w) as (Htid & Hsrv).
  destruct (epochs_and_shutdown_trains_on wk out
              (serving t ps (fresh (dom (threads w))))
              (log (adjustment (num_workers t * F) df out)
                 (snd (thread_start (Some ps) (set_servers (insert ps srv) w))))
              ps (fresh (dom (threads w))) _ eq_refl eq_refl Htid Hsrv)
    as (rest & Hev & Hrest & Hon).
  exists out, rest. split; [exact Hout |]. split; [exact Hlen |].
  rewrite Hrun. split; [| split; [exact Hrest | exact Hon]].
  rewrite Hev. cbn. now rewrite <- !app_assoc.
Qed.

End TrainedOn.

(** C1: with W = [num_workers], and F = 1 in the [train] of
    [DistributedTrainer] and F = [parallelism_factor] in the [train] of
    [AsynchronousDistributedTrainer], [train] adjusts the dataset to exactly
    W * F partitions before the epoch loop, and the epoch loop runs on the
    adjusted dataset.  First part: whatever the trainer, the world, the
    dataset and the flag, a run of [train] logs nothing else than events of
    the service, then the adjustment to W * F, then the epochs and the
    shutdown: no other call changes the partitions.  Second part: with
    [shuffle = False], on a trainer whose class implements the two
    allocation hooks and that holds no service thread, and for W * F > 0,
    [train] does make that call, right after the start of the service:
    [coalesce(W * F)] when the dataset has more than W * F partitions,
    [repartition(W * F)] otherwise; the dataset [out] that the call returns
    has exactly W * F partitions, and what follows in the log is the epoch
    loop over [out]: every round invokes the worker on the partitions
    0, ..., W * F - 1 of [out], until the epochs are over or the worker
    raises on a partition of [out]. *)
Theorem train_adjusts_to_workers_times_factor `{Collaborators}
    (path : TrainPath) (t : obj) (w : World) (df : DataFrame) :
  (forall b,
     exists added,
       events (snd (final (train_body path df (PyBool b) (t, w)))) = events w ++ added /\
       adjusts_before_training path df t added) /\
  (forall (ps : nat) (wk : Worker) (F : Z),
     outcome (virtual_allocate_parameter_server (t, w)) = Returned ps ->
     outcome (virtual_allocate_worker (t, w)) = Returned wk ->
     parameter_server_thread t = None ->
     factor_of path t = Some F ->
     0 < num_workers t * F ->
     exists out rest,
       (if getNumPartitions df >? num_workers t * F
        then spark_coalesce (num_workers t * F) df
        else spark_repartition (num_workers t * F) df) = inr out /\
       getNumPartitions out = num_workers t * F /\
       events (snd (final (train_body path df (PyBool false) (t, w))))
         = events w
           ++ [EvThreadStart (fresh (dom (threads w)));
               if getNumPartitions df >? num_workers t * F
               then EvCoalesce (num_workers t * F) out
               else EvRepartition (num_workers t * F) out]
           ++ rest /\
       Forall after_adjustment rest /\
       (num_epoch t <= 0 \/ first_failure wk 0 out = None ->
        rest = concat (replicate (Z.to_nat (num_epoch t))
                         (map EvWorkerTrain (seq 0 (Z.to_nat (num_workers t * F)))))
               ++ [EvServerStop ps; EvThreadJoin (fresh (dom (threads w)))]) /\
       (forall e,
          0 < num_epoch t ->
          first_failure wk 0 out = Some e ->
          exists k p,
            out !! k = Some p /\
            worker_train wk k p = inl e /\
            (forall j q, (j < k)%nat -> out !! j = Some q ->
                         exists r, worker_train wk j q = inr r) /\
            rest = map EvWorkerTrain (seq 0 (S k)))).
Proof.
  split.
  - intros b. exact (train_is_staged path df b (t, w)).
  - intros ps wk F Hps Hwk Hth HF Hpos.
    destruct (train_trains_on path t w df ps wk F Hps Hwk Hth HF Hpos)
      as (out & rest & Hout & Hlen & Hev & Hrest & Hreturn & Hraise).
    exists out, rest. split; [exact Hout |]. split; [exact Hlen |].
    split; [exact Hev |]. split; [exact Hrest |]. split; [| exact Hraise].
    intros Hcase. rewrite (Hreturn Hcase). unfold rounds, getNumPartitions in *.
    replace (length out) with (Z.to_nat (num_workers t * F)) by lia.
    reflexivity.
Qed.

(** C1 at the [DOWNPOUR] trainer with four workers and one epoch: on ten
    partitions the scaled body coalesces to eight, and the round runs on the
    eight partitions that [coalesce] returned. *)
Lemma train_adjusts_to_workers_times_factor_witness :
  exists out,
    spark_coalesce 8 (sample_dataframe 10) = inr out /\
    getNumPartitions out = 8 /\
    events (snd (final (train_body (H := sample_collaborators) ScaledTrain
                          (sample_dataframe 10) (PyBool false)
                          (sample_downpour, sample_world))))
      = [EvThreadStart 0; EvCoalesce 8 out]
        ++ map EvWorkerTrain (seq 0 8)
        ++ [EvServerStop 0; EvThreadJoin 0].
Proof.
  destruct (proj2 (train_adjusts_to_workers_times_factor (H := sample_collaborators)
                     ScaledTrain sample_downpour sample_world (sample_dataframe 10))
              0%nat sample_worker 2)
    as (out & rest & Hout & Hlen & Hev & _ & Hreturn & _);
    [reflexivity | reflexivity | reflexivity | reflexivity | reflexivity |].
  exists out. split; [exact Hout |]. split; [exact Hlen |].
  rewrite Hev, Hreturn.
  - reflexivity.
  - right. apply (workers_succeed_no_failure (H := sample_collaborators)).
    intros wk i p. eexists. reflexivity.
Defined.

(** ** Objects of the protocol classes *)

Section ProtocolObjects.
Context `{Collaborators}.
Variables (keras_model : KerasModel) (worker_optimizer loss : string).
Variables (num_workers batch_size : Z) (features_col label_col : string) (num_epoch : Z).
Variable h : Hyperparameters.

Local Abbreviation built :=
  (protocol_object keras_model worker_optimizer loss num_workers batch_size
     features_col label_col num_epoch h).

Lemma new_returns (w : World) :
  new keras_model worker_optimizer loss num_workers batch_size features_col label_col
    num_epoch h w
  = (Returned (built (fresh (dom (lists w)))),
     set_lists (insert (fresh (dom (lists w))) []) w).
Proof. destruct h; reflexivity. Qed.

Lemma protocol_object_allocates_a_server (l : nat) (w : World) :
  outcome (virtual_allocate_parameter_server (built l, w))
    = Returned (fresh (dom (servers w))).
Proof. destruct h; reflexivity. Qed.

Lemma protocol_object_allocates_a_worker (l : nat) (w : World) :
  exists wk, outcome (virtual_allocate_worker (built l, w)) = Returned wk.
Proof. destruct h; eexists; reflexivity. Qed.

Lemma protocol_object_trains_scaled (l : nat) :
  train_path (class_of (built l)) = ScaledTrain.
Proof. destruct h; reflexivity. Qed.

End ProtocolObjects.

Lemma invoke_train_eq `{Collaborators} (df : DataFrame) (shuffle : PyValue)
    (t : obj) (w : World) :
  invoke_train df shuffle (t, w) = train_body (train_path (class_of t)) df shuffle (t, w).
Proof. reflexivity. Qed.

(** ** The end-to-end scenario *)

(** C2, as stated, fails: the [DOWNPOUR] trainer with four workers, on ten
    partitions, calls [coalesce(8)] and invokes the worker eight times. *)
Lemma downpour_four_workers_coalesces_to_eight_not_four :
  let r := invoke_train (H := sample_collaborators) (sample_dataframe 10) (PyBool false)
             (sample_downpour, sample_world) in
  coalesce_counts (events (snd (final r))) = [8] /\
  worker_invocations (events (snd (final r))) = 8%nat /\
  ~ (coalesce_counts (events (snd (final r))) = [4] /\
     worker_invocations (events (snd (final r))) = 4%nat).
Proof.
  vm_compute. repeat split. intros [Hcount _]. discriminate Hcount.
Qed.

(** C2, amended: a [DOWNPOUR] trainer constructed with [num_workers = 4],
    [communication_window = 2] and [num_epoch = 1] has parallelism factor
    2; when the worker function succeeds, [train] on a dataset of ten
    partitions coalesces it to exactly 8 partitions, invokes the worker
    exactly 8 times, once per partition, then stops the service and
    returns. *)
Theorem downpour_four_workers_trains_on_eight_partitions `{Collaborators}
    (keras_model : KerasModel) (worker_optimizer loss : string) (batch_size : Z)
    (features_col label_col : string) (learning_rate : Q) (w : World) (df : DataFrame) :
  workers_succeed ->
  getNumPartitions df = 10 ->
  exists t w1,
    new keras_model worker_optimizer loss 4 batch_size features_col label_col 1
      (DOWNPOUR_args learning_rate 2) w = (Returned t, w1) /\
    exists out model t' w',
      let added :=
        [EvThreadStart (fresh (dom (threads w))); EvCoalesce 8 out]
        ++ map EvWorkerTrain (seq 0 8)
        ++ [EvServerStop (fresh (dom (servers w)));
            EvThreadJoin (fresh (dom (threads w)))] in
      invoke_train df (PyBool false) (t, w1) = (Returned model, (t', w')) /\
      getNumPartitions out = 8 /\
      events w' = events w ++ added /\
      coalesce_counts added = [8] /\
      worker_invocations added = 8%nat.
Proof.
  intros Hok Hdf. rewrite new_returns. eexists _, _. split; [reflexivity |].
  set (t := protocol_object _ _ _ _ _ _ _ _ _ _).
  set (w1 := set_lists _ w).
  destruct (protocol_object_allocates_a_worker keras_model worker_optimizer loss 4
              batch_size features_col label_col 1 (DOWNPOUR_args learning_rate 2)
              (fresh (dom (lists w))) w1) as (wk & Hwk).
  destruct (train_returns ScaledTrain t w1 df (fresh (dom (servers w))) wk 2
              (protocol_object_allocates_a_server _ _ _ _ _ _ _ _ _ _ w1)
              Hwk eq_refl eq_refl eq_refl Hok)
    as (out & model & t' & w' & Hrun & Hlen & Hev & _).
  exists out, model, t', w'. cbn zeta. rewrite invoke_train_eq.
  split; [exact Hrun |]. split; [exact Hlen |].
  split; [| split; reflexivity].
  rewrite Hev. unfold adjustment. rewrite Hdf. reflexivity.
Qed.

(** C2 at the sample collaborators and a dataset of ten partitions. *)
Lemma downpour_four_workers_trains_on_eight_partitions_witness :
  exists t w1,
    new (H := sample_collaborators) [] "adam" "mse" 4 32 "features" "label" 1
      (DOWNPOUR_args (1 # 100) 2) initial_world = (Returned t, w1) /\
    exists out model t' w',
      let added := [EvThreadStart 0; EvCoalesce 8 out] ++ map EvWorkerTrain (seq 0 8)
                   ++ [EvServerStop 0; EvThreadJoin 0] in
      invoke_train (H := sample_collaborators) (sample_dataframe 10) (PyBool false) (t, w1)
        = (Returned model, (t', w')) /\
      getNumPartitions out = 8 /\
      events w' = added /\
      coalesce_counts added = [8] /\
      worker_invocations added = 8%nat.
Proof.
  apply (downpour_four_workers_trains_on_eight_partitions (H := sample_collaborators)
           [] "adam" "mse" 32 "features" "label" (1 # 100)%Q initial_world
           (sample_dataframe 10)).
  - intros wk i p. eexists. reflexivity.
  - reflexivity.
Defined.

(** ** Failures of the worker *)

(** C4, as stated, fails: when the worker raises on partition 1, [train]
    raises that exception, but no [stop] was sent to the parameter server
    and the service thread is still running. *)
Lemma failed_epoch_leaves_the_service_running :
  let r := invoke_train (H := failing_collaborators) (sample_dataframe 10) (PyBool false)
             (sample_downpour, sample_world) in
  outcome r = Raised (WorkerFailure "partition 1") /\
  existsb is_server_stop (events (snd (final r))) = false /\
  parameter_server_thread (fst (final r)) = Some 0%nat /\
  thread_running (snd (final r)) 0 = true.
Proof. vm_compute. repeat split. Qed.

(** C4, amended: when the worker function raises on a partition of the
    adjusted dataset, the first epoch fails and its exception reaches the
    caller of [train]; [stop_service] is not called on that path: the log
    ends with the invocations of the worker, the trainer still holds its
    thread, and the thread is still running the server's loop. *)
Theorem worker_failure_propagates_without_stopping_the_service `{Collaborators}
    (path : TrainPath) (t : obj) (w : World) (df out : DataFrame)
    (ps : nat) (wk : Worker) (F : Z) (e : Exception) :
  outcome (virtual_allocate_parameter_server (t, w)) = Returned ps ->
  outcome (virtual_allocate_worker (t, w)) = Returned wk ->
  parameter_server_thread t = None ->
  factor_of path t = Some F ->
  0 < num_workers t * F ->
  0 < num_epoch t ->
  adjusted_dataframe (num_workers t * F) df = inr out ->
  first_failure wk 0 out = Some e ->
  let tid := fresh (dom (threads w)) in
  exists k t' w',
    let added := [EvThreadStart tid; adjustment (num_workers t * F) df out]
                 ++ map EvWorkerTrain (seq 0 (S k)) in
    train_body path df (PyBool false) (t, w) = (Raised e, (t', w')) /\
    events w' = events w ++ added /\
    existsb is_server_stop added = false /\
    parameter_server_thread t' = Some tid /\
    thread_running w' tid = true.
Proof.
  intros Hps Hwk Hth HF Hpos Hepoch Hout Hfail tid.
  destruct (train_raises path t w df out ps wk F e Hps Hwk Hth HF Hpos Hepoch Hout Hfail)
    as (k & t' & w' & Hrun & Hev & _ & Hthread & Hrunning).
  exists k, t', w'. cbn zeta.
  split; [exact Hrun |]. split; [exact Hev |]. split; [| split; assumption].
  cbn [existsb app is_server_stop orb]. unfold adjustment.
  destruct (getNumPartitions df >? num_workers t * F); cbn [is_server_stop orb];
    apply (no_server_stop_among_worker_events (seq 1 k)).
Qed.

(** C4 at collaborators whose worker raises on partition 1. *)
Lemma worker_failure_propagates_without_stopping_the_service_witness :
  exists k t' w',
    train_body (H := failing_collaborators) ScaledTrain (sample_dataframe 10) (PyBool false)
      (sample_downpour, sample_world)
      = (Raised (WorkerFailure "partition 1"), (t', w')) /\
    events w' = [EvThreadStart 0; EvCoalesce 8 sample_coalesced]
                ++ map EvWorkerTrain (seq 0 (S k)) /\
    parameter_server_thread t' = Some 0%nat /\
    thread_running w' 0 = true.
Proof.
  destruct (worker_failure_propagates_without_stopping_the_service
              (H := failing_collaborators) ScaledTrain sample_downpour sample_world
              (sample_dataframe 10) sample_coalesced 0%nat sample_worker 2
              (WorkerFailure "partition 1"))
    as (k & t' & w' & Hrun & Hev & _ & Hthread & Hrunning);
    [reflexivity | reflexivity | reflexivity | reflexivity | reflexivity | reflexivity
    | reflexivity | reflexivity |].
  exists k, t', w'. repeat split; assumption.
Defined.

(** ** The default parallelism factor *)

(** C10: an object of [DOWNPOUR], [DOWNPOURSocket], [AEASGD] or [EAMSGD]
    leaves its constructor with [parallelism_factor = 2] and inherits the
    [train] of [AsynchronousDistributedTrainer]; its target is
    [2 * num_workers] partitions, and with a positive number of workers its
    [train] adjusts the dataset to that many partitions. *)
Theorem protocol_trainers_train_on_twice_the_workers `{Collaborators}
    (keras_model : KerasModel) (worker_optimizer loss : string)
    (num_workers batch_size : Z) (features_col label_col : string) (num_epoch : Z)
    (h : Hyperparameters) (w : World) :
  exists t w1,
    new keras_model worker_optimizer loss num_workers batch_size features_col label_col
      num_epoch h w = (Returned t, w1) /\
    parallelism_factor t = Some 2 /\
    train_path (class_of t) = ScaledTrain /\
    partition_target (train_path (class_of t)) t = Some (2 * num_workers) /\
    (forall df shuffle w2,
       invoke_train df shuffle (t, w2)
         = AsynchronousDistributedTrainer.train df shuffle (t, w2)) /\
    (0 < num_workers ->
     forall df,
     exists out rest,
       events (snd (final (invoke_train df (PyBool false) (t, w1))))
         = events w
           ++ [EvThreadStart (fresh (dom (threads w)));
               if getNumPartitions df >? 2 * num_workers
               then EvCoalesce (2 * num_workers) out
               else EvRepartition (2 * num_workers) out]
           ++ rest /\
       getNumPartitions out = 2 * num_workers /\
       Forall after_adjustment rest).
Proof.
  rewrite new_returns. eexists _, _. split; [reflexivity |].
  set (t := protocol_object _ _ _ _ _ _ _ _ _ _).
  set (w1 := set_lists _ w).
  assert (Hpath : train_path (class_of t) = ScaledTrain)
    by apply protocol_object_trains_scaled.
  split; [reflexivity |]. split; [exact Hpath |].
  split; [rewrite Hpath; reflexivity |].
  split; [intros df shuffle w2; rewrite invoke_train_eq, Hpath; reflexivity |].
  intros Hpos df.
  destruct (protocol_object_allocates_a_worker keras_model worker_optimizer loss num_workers
              batch_size features_col label_col num_epoch h
              (fresh (dom (lists w))) w1) as (wk & Hwk).
  destruct (train_log ScaledTrain t w1 df (fresh (dom (servers w1))) wk 2
              (protocol_object_allocates_a_server _ _ _ _ _ _ _ _ _ _ w1)
              Hwk eq_refl eq_refl) as (out & rest & Hev & Hlen & Hrest).
  { change (0 < num_workers * 2). lia. }
  change (DistributedTrainer.num_workers t) with num_workers in *.
  rewrite (Z.mul_comm num_workers 2) in *.
  exists out, rest. rewrite invoke_train_eq, Hpath.
  repeat split; assumption.
Qed.

(** C10 at an [EAMSGD] trainer with three workers. *)
Lemma protocol_trainers_train_on_twice_the_workers_witness :
  exists t w1,
    new (H := sample_collaborators) [] "adam" "mse" 3 32 "features" "label" 1
      (EAMSGD_args 32 5 (1 # 100) (9 # 10)) initial_world = (Returned t, w1) /\
    parallelism_factor t = Some 2 /\
    exists out rest,
      events (snd (final (invoke_train (H := sample_collaborators) (sample_dataframe 10)
                            (PyBool false) (t, w1))))
        = [EvThreadStart 0; EvCoalesce 6 out] ++ rest /\
      getNumPartitions out = 6.
Proof.
  destruct (protocol_trainers_train_on_twice_the_workers (H := sample_collaborators)
              [] "adam" "mse" 3 32 "features" "label" 1
              (EAMSGD_args 32 5 (1 # 100) (9 # 10)) initial_world)
    as (t & w1 & Hnew & Hfactor & _ & _ & _ & Hlog).
  destruct (Hlog eq_refl (sample_dataframe 10)) as (out & rest & Hev & Hlen & _).
  exists t, w1. split; [exact Hnew |]. split; [exact Hfactor |].
  exists out, rest. split; assumption.
Defined.

(** * Further properties *)

(** ** The single-node trainer *)

Lemma coalesce_to_one (df : DataFrame) :
  df <> [] -> spark_coalesce 1 df = inr [concat df].
Proof.
  intros Hne. unfold spark_coalesce, getNumPartitions. cbn [Z.leb Z.compare].
  destruct df as [| p [| q rest]]; [congruence | |].
  - cbn. now rewrite app_nil_r.
  - destruct (Z.leb_spec (Z.of_nat (length (p :: q :: rest))) 1) as [Hle | _];
      [cbn [length] in Hle; lia |].
    unfold coalesce_groups, slice. change (Z.to_nat 1) with 1%nat.
    cbn [seq map Nat.add].
    rewrite Nat.mul_0_l, Nat.mul_1_l, Nat.Div0.div_0_l, Nat.div_1_r, Nat.sub_0_r.
    cbn [drop]. now rewrite firstn_all.
Qed.

Lemma coalesce_to_one_returns (df : DataFrame) :
  exists out,
    spark_coalesce 1 df = inr out /\
    (df = [] -> out = []) /\
    (df <> [] -> out = [concat df]).
Proof.
  destruct df as [| p rest].
  - exists []. repeat split. congruence.
  - exists [concat (p :: rest)]. split; [now apply coalesce_to_one |].
    split; [discriminate | reflexivity].
Qed.

Section SingleTrainerRuns.
Context `{Collaborators} `{SingleCollaborators}.

Lemma single_partition_run (wk : SingleTrainerWorker) (rows : list Row) (w : World) :
  run_single_partitions wk 0 [rows] w
  = match single_worker_train wk 0 rows with
    | inl e => (Raised e, log (EvWorkerTrain 0) w)
    | inr r => (Returned (r ++ []), log (EvWorkerTrain 0) w)
    end.
Proof.
  cbn [run_single_partitions]. step by reflexivity.
  destruct (single_worker_train wk 0 rows) as [e | r].
  - now apply bind_raised.
  - step by reflexivity. step by reflexivity. reflexivity.
Qed.

(** The epoch loop on the single partition, when the worker keeps
    returning a model. *)
Lemma single_epochs_return (rows : list Row) (n : nat) :
  single_worker_yields ->
  forall (o : SingleTrainer.obj) (w : World),
    SingleTrainer.epochs n [rows] (o, w)
    = (Returned (Item tt),
       (with_base
          (set_master_model
             (Nat.iter n (next_model o rows) (master_model (SingleTrainer.super o))))
          o,
        log_all (replicate n (EvWorkerTrain 0)) w)).
Proof.
  intros Hyields. induction n as [| n IH]; intros o w.
  - cbn [SingleTrainer.epochs Nat.iter replicate]. rewrite log_all_nil.
    destruct o as [[m l wo h ts te tt] fc lc ne bs]. reflexivity.
  - cbn [SingleTrainer.epochs].
    step by reflexivity.
    destruct (Hyields (single_worker o (master_model (SingleTrainer.super o))) 0%nat rows)
      as (m' & rest & Hm).
    step by (unfold in_world; cbn [fst snd]; rewrite single_partition_run;
             change (mkSingleTrainerWorker _ _ _ _ _ _)
               with (single_worker o (master_model (SingleTrainer.super o)));
             rewrite Hm; reflexivity).
    cbn [app first_item].
    step by reflexivity.
    rewrite IH. unfold log. rewrite log_all_app.
    rewrite Nat.iter_succ_r.
    assert (Hnext : next_model o rows (master_model (SingleTrainer.super o)) = m')
      by (unfold next_model; now rewrite Hm).
    rewrite Hnext. reflexivity.
Qed.

End SingleTrainerRuns.

(** X1: on a dataset with at least one partition, and with a worker that
    returns a model on every call, [SingleTrainer.train] (with
    [shuffle = False]) coalesces the dataset into one partition that holds
    all the records in their order, runs one worker per epoch on that
    partition, each worker starting from the model that the previous epoch
    returned, and returns the last model, deserialized; the training time is
    the difference of the two clock readings taken around the loop. *)
Theorem single_trainer_threads_the_model `{Collaborators} `{SingleCollaborators}
    (t : SingleTrainer.obj) (w : World) (df : DataFrame) :
  single_worker_yields ->
  df <> [] ->
  let rows := concat df in
  let n := Z.to_nat (SingleTrainer.num_epoch t) in
  let trained := Nat.iter n (next_model t rows) (master_model (SingleTrainer.super t)) in
  exists t' w',
    SingleTrainer.train df (PyBool false) (t, w)
      = (Returned (Item (deserialize_keras_model trained)), (t', w')) /\
    master_model (SingleTrainer.super t') = trained /\
    events w' = events w ++ EvCoalesce 1 [rows] :: replicate n (EvWorkerTrain 0) /\
    training_time (SingleTrainer.super t')
      = (time_source w (S (clock_reads w)) - time_source w (clock_reads w))%Q.
Proof.
  intros Hyields Hne rows n trained.
  eexists _, _. split.
  - unfold SingleTrainer.train. cbn [truthy].
    step by reflexivity.
    step by (unfold in_world; cbn [fst snd];
             rewrite (coalesce_eq 1 df [rows] w (coalesce_to_one df Hne)); reflexivity).
    step by apply record_training_start_eq.
    step by reflexivity.
    step by apply (single_epochs_return rows _ Hyields).
    step by apply record_training_end_eq.
    step by reflexivity.
    reflexivity.
  - cbn. rewrite <- app_assoc. repeat split.
Qed.

(** X1 at a trainer of three epochs and a worker that marks the model it
    starts from. *)
Lemma single_trainer_threads_the_model_witness :
  exists t' w',
    SingleTrainer.train (H := sample_collaborators) (H0 := marking_worker)
      (sample_dataframe 2) (PyBool false) (sample_single_trainer, sample_world)
      = (Returned (Item []), (t', w')) /\
    master_model (SingleTrainer.super t') = "weights+++"%string /\
    events w' = [EvCoalesce 1 [concat (sample_dataframe 2)];
                 EvWorkerTrain 0; EvWorkerTrain 0; EvWorkerTrain 0].
Proof.
  destruct (single_trainer_threads_the_model (H := sample_collaborators)
              (H0 := marking_worker) sample_single_trainer sample_world (sample_dataframe 2))
    as (t' & w' & Hrun & Hmodel & Hev & _).
  - intros wk i p. eexists _, _. reflexivity.
  - discriminate.
  - exists t', w'. repeat split; assumption.
Defined.

(** X2: with [num_epoch <= 0], [SingleTrainer.train] invokes no worker,
    whatever the dataset and the worker: it coalesces the dataset, leaves
    the master model as it was and returns it, deserialized. *)
Theorem single_trainer_without_epoch_returns_the_initial_model
    `{Collaborators} `{SingleCollaborators}
    (t : SingleTrainer.obj) (w : World) (df : DataFrame) :
  SingleTrainer.num_epoch t <= 0 ->
  exists out t' w',
    SingleTrainer.train df (PyBool false) (t, w)
      = (Returned (Item (deserialize_keras_model (master_model (SingleTrainer.super t)))),
         (t', w')) /\
    master_model (SingleTrainer.super t') = master_model (SingleTrainer.super t) /\
    events w' = events w ++ [EvCoalesce 1 out].
Proof.
  intros Hepoch. destruct (coalesce_to_one_returns df) as (out & Hout & _).
  exists out. eexists _, _. split.
  - unfold SingleTrainer.train. cbn [truthy].
    step by reflexivity.
    step by (unfold in_world; cbn [fst snd];
             rewrite (coalesce_eq 1 df out w Hout); reflexivity).
    step by apply record_training_start_eq.
    step by reflexivity.
    cbn [SingleTrainer.num_epoch with_base SingleTrainer.extends].
    replace (Z.to_nat (SingleTrainer.num_epoch t)) with 0%nat by lia.
    cbn [SingleTrainer.epochs].
    step by reflexivity.
    step by apply record_training_end_eq.
    step by reflexivity.
    reflexivity.
  - cbn. repeat split.
Qed.

(** X2 at a trainer with [num_epoch = 0] and a worker that returns no
    model. *)
Lemma single_trainer_without_epoch_returns_the_initial_model_witness :
  exists out t' w',
    SingleTrainer.train (H := sample_collaborators) (H0 := silent_worker)
      (sample_dataframe 2) (PyBool false)
      (SingleTrainer.mkObj sample_trainer "features" "label" 0 32, sample_world)
      = (Returned (Item []), (t', w')) /\
    master_model (SingleTrainer.super t') = "weights"%string /\
    events w' = [EvCoalesce 1 out].
Proof.
  apply (single_trainer_without_epoch_returns_the_initial_model
           (H := sample_collaborators) (H0 := silent_worker)
           (SingleTrainer.mkObj sample_trainer "features" "label" 0 32) sample_world
           (sample_dataframe 2)).
  cbn. lia.
Defined.

(** X3: with at least one epoch, [SingleTrainer.train] ends with
    [IndexError] at [collect()[0]] of the first epoch when the dataset has
    no partition, or when the worker returns no model on the single
    partition: the master model is left as it was, the end of the training
    is never recorded and the stored training time stays 0. *)
Theorem single_trainer_raises_index_error `{Collaborators} `{SingleCollaborators}
    (t : SingleTrainer.obj) (w : World) (df : DataFrame) :
  0 < SingleTrainer.num_epoch t ->
  df = [] \/
  single_worker_train (single_worker t (master_model (SingleTrainer.super t))) 0 (concat df)
    = inr [] ->
  exists t' w',
    SingleTrainer.train df (PyBool false) (t, w) = (Returned IndexError, (t', w')) /\
    master_model (SingleTrainer.super t') = master_model (SingleTrainer.super t) /\
    training_time (SingleTrainer.super t') = 0%Q /\
    training_time_end (SingleTrainer.super t') = training_time_end (SingleTrainer.super t) /\
    events w'
      = events w
        ++ match df with
           | [] => [EvCoalesce 1 []]
           | _ => [EvCoalesce 1 [concat df]; EvWorkerTrain 0]
           end.
Proof.
  intros Hepoch Hcase.
  destruct (Z.to_nat (SingleTrainer.num_epoch t)) as [| k] eqn:Hk; [lia |].
  destruct df as [| p rest].
  - eexists _, _. split.
    + unfold SingleTrainer.train. cbn [truthy].
      step by reflexivity. step by reflexivity.
      step by apply record_training_start_eq.
      step by reflexivity.
      cbn [SingleTrainer.num_epoch with_base SingleTrainer.extends]. rewrite Hk.
      cbn [SingleTrainer.epochs].
      step by (step by reflexivity; step by reflexivity; reflexivity).
      reflexivity.
    + cbn. repeat split.
  - destruct Hcase as [Hnil | Hempty]; [discriminate |].
    eexists _, _. split.
    + unfold SingleTrainer.train. cbn [truthy].
      step by reflexivity.
      step by (unfold in_world; cbn [fst snd];
               rewrite (coalesce_eq 1 (p :: rest) [concat (p :: rest)] w
                          (coalesce_to_one (p :: rest) ltac:(discriminate)));
               reflexivity).
      step by apply record_training_start_eq.
      step by reflexivity.
      cbn [SingleTrainer.num_epoch with_base SingleTrainer.extends]. rewrite Hk.
      cbn [SingleTrainer.epochs].
      step by (step by reflexivity;
               step by (unfold in_world; cbn [fst snd]; rewrite single_partition_run;
                        change (mkSingleTrainerWorker _ _ _ _ _ _)
                          with (single_worker t (master_model (SingleTrainer.super t)));
                        rewrite Hempty; reflexivity);
               reflexivity).
      reflexivity.
    + cbn. rewrite <- app_assoc. repeat split.
Qed.

(** X3 at a dataset without partition. *)
Lemma single_trainer_raises_index_error_witness :
  exists t' w',
    SingleTrainer.train (H := sample_collaborators) (H0 := marking_worker)
      [] (PyBool false) (sample_single_trainer, sample_world)
      = (Returned IndexError, (t', w')) /\
    master_model (SingleTrainer.super t') = "weights"%string /\
    training_time (SingleTrainer.super t') = 0%Q.
Proof.
  destruct (single_trainer_raises_index_error (H := sample_collaborators)
              (H0 := marking_worker) sample_single_trainer sample_world [])
    as (t' & w' & Hrun & Hmodel & Htime & _).
  - cbn. lia.
  - now left.
  - exists t', w'. repeat split; assumption.
Defined.

(** ** The shuffle argument outside the distributed family *)

(** X4: in [SingleTrainer.train] and in [ModelAveragingTrainer.train], a
    truthy [shuffle] argument is called on the dataset before anything else
    is done: when that call raises (as it does with [shuffle = True], a
    [bool] not being callable), [train] raises the same exception and the
    trainer, the clock and the log are as they were. *)
Theorem truthy_shuffle_is_called_first `{Collaborators} `{SingleCollaborators}
    (df : DataFrame) (shuffle : PyValue) (e : Exception)
    (s1 : SingleTrainer.obj * World) (s2 : ModelAveragingTrainer.obj * World) :
  truthy shuffle = true ->
  call_value shuffle df = inl e ->
  SingleTrainer.train df shuffle s1 = (Raised e, s1) /\
  ModelAveragingTrainer.train df shuffle s2 = (Raised e, s2).
Proof.
  intros Htruthy Hcall.
  unfold SingleTrainer.train, ModelAveragingTrainer.train.
  rewrite Htruthy, Hcall. split; now apply bind_raised.
Qed.

(** X4 at [shuffle = True]. *)
Lemma truthy_shuffle_is_called_first_witness :
  SingleTrainer.train (H := sample_collaborators) (H0 := marking_worker)
    (sample_dataframe 2) (PyBool true) (sample_single_trainer, sample_world)
    = (Raised TypeError, (sample_single_trainer, sample_world)) /\
  ModelAveragingTrainer.train (sample_dataframe 2) (PyBool true)
    (ModelAveragingTrainer.mkObj sample_trainer "features" "label" 1 32 2, sample_world)
    = (Raised TypeError,
       (ModelAveragingTrainer.mkObj sample_trainer "features" "label" 1 32 2, sample_world)).
Proof.
  exact (truthy_shuffle_is_called_first (H := sample_collaborators) (H0 := marking_worker)
           (sample_dataframe 2) (PyBool true) TypeError
           (sample_single_trainer, sample_world)
           (ModelAveragingTrainer.mkObj sample_trainer "features" "label" 1 32 2,
            sample_world)
           eq_refl eq_refl).
Defined.

(** ** The stub never returns *)

(** X5: whatever the trainer, the dataset and the [shuffle] argument,
    [ModelAveragingTrainer.train] never returns, never records the end of
    the training, and invokes no worker. *)
Theorem model_averaging_train_never_returns
    (t : ModelAveragingTrainer.obj) (w : World) (df : DataFrame) (shuffle : PyValue) :
  let r := ModelAveragingTrainer.train df shuffle (t, w) in
  (forall a, outcome r <> Returned a) /\
  training_time_end (base (fst (final r))) = training_time_end (base t) /\
  worker_invocations (events (snd (final r))) = worker_invocations (events w).
Proof.
  assert (Hrest : forall dfx,
            let r := (t0 ← self;
                      dataframe ← in_world
                        (repartition (ModelAveragingTrainer.num_workers t0 * 10) dfx);
                      Trainer_.record_training_start;;
                      (raise NotImplementedError : Method ModelAveragingTrainer.obj unit);;
                      Trainer_.record_training_end) (t, w) in
            (forall a, outcome r <> Returned a) /\
            training_time_end (base (fst (final r))) = training_time_end (base t) /\
            worker_invocations (events (snd (final r))) = worker_invocations (events w)).
  { intros dfx. cbv zeta. step by reflexivity.
    destruct (spark_repartition (ModelAveragingTrainer.num_workers t * 10) dfx)
      as [e | out] eqn:Hout.
    - erewrite bind_raised
        by (unfold in_world, repartition; cbn [fst snd]; rewrite Hout; reflexivity).
      repeat split. discriminate.
    - step by (unfold in_world; cbn [fst snd];
               rewrite (repartition_eq _ _ _ _ Hout); reflexivity).
      step by apply record_training_start_eq.
      erewrite bind_raised by reflexivity.
      unfold outcome, final, worker_invocations. cbn. rewrite List.filter_app. cbn.
      rewrite app_nil_r. repeat split. discriminate. }
  cbv zeta. unfold ModelAveragingTrainer.train.
  destruct (truthy shuffle).
  - destruct (call_value shuffle df) as [e | df'].
    + erewrite bind_raised by reflexivity. repeat split. discriminate.
    + step by reflexivity. apply Hrest.
  - step by reflexivity. apply Hrest.
Qed.

(** ** The abstract classes *)

(** X6: on an object of [DistributedTrainer] or of
    [AsynchronousDistributedTrainer] themselves, whose allocation hooks are
    the ones that raise, [train] raises [NotImplementedError] at its first
    statement, whatever its arguments: no service is started and nothing
    is changed. *)
Theorem abstract_trainers_raise_not_implemented `{Collaborators}
    (t : obj) (w : World) (df : DataFrame) (shuffle : PyValue) :
  class_of t = cDistributedTrainer \/ class_of t = cAsynchronousDistributedTrainer ->
  invoke_train df shuffle (t, w) = (Raised NotImplementedError, (t, w)) /\
  forall path, train_body path df shuffle (t, w) = (Raised NotImplementedError, (t, w)).
Proof.
  intros Hclass.
  assert (Hhook : virtual_allocate_parameter_server (t, w)
                  = (Raised NotImplementedError, (t, w))).
  { unfold virtual_allocate_parameter_server, method_resolution.
    step by reflexivity. now destruct Hclass as [-> | ->]. }
  assert (Hbody : forall path,
            train_body path df shuffle (t, w) = (Raised NotImplementedError, (t, w))).
  { intros [|]; cbn [train_body];
      unfold DistributedTrainer.train, AsynchronousDistributedTrainer.train;
      now apply bind_raised. }
  split; [| exact Hbody]. rewrite invoke_train_eq. apply Hbody.
Qed.

(** X6 at the object that [AsynchronousDistributedTrainer(...)] builds. *)
Lemma abstract_trainers_raise_not_implemented_witness :
  exists t w,
    AsynchronousDistributedTrainer.__init__ (H := sample_collaborators)
      cAsynchronousDistributedTrainer [] "adam" "mse" 2 32 "features" "label" 1 initial_world
      = (Returned t, w) /\
    invoke_train (H := sample_collaborators) (sample_dataframe 3) (PyBool false) (t, w)
      = (Raised NotImplementedError, (t, w)).
Proof.
  eexists _, _. split; [reflexivity |].
  apply (abstract_trainers_raise_not_implemented (H := sample_collaborators)).
  now right.
Defined.

(** ** Whole runs, in full *)

Lemma bind_blocked {S A B} (m : M S A) (f : A -> M S B) s s' :
  m s = (Blocked, s') -> (m ≫= f) s = (Blocked, s').
Proof. intros E. unfold mbind, M_bind. now rewrite E. Qed.

(** The server that a protocol class allocates holds the master model and
    is not running yet. *)
Lemma allocate_parameter_server_builds (t : obj) (w : World) (ps : nat) :
  outcome (virtual_allocate_parameter_server (t, w)) = Returned ps ->
  exists srv,
    ps_model srv = master_model (super t) /\
    ps_running srv = false /\
    ps = fresh (dom (servers w)) /\
    virtual_allocate_parameter_server (t, w)
      = (Returned ps, (t, set_servers (insert ps srv) w)).
Proof.
  destruct t as [c b nw bs fc lc ne srv th pf lr cw r mo mh mp].
  unfold virtual_allocate_parameter_server, method_resolution,
    DistributedTrainer.allocate_parameter_server,
    DOWNPOUR.allocate_parameter_server, DOWNPOURSocket.allocate_parameter_server,
    AEASGD.allocate_parameter_server, EAMSGD.allocate_parameter_server, new_server.
  destruct c, lr, mp, r, mo; run; cbn; try discriminate;
    intros E; injection E as <-; eexists; repeat split; reflexivity.
Qed.

Section Runs.
Context `{Collaborators}.
Variables (path : TrainPath) (t : obj) (w : World) (df : DataFrame).
Variables (ps : nat) (srv : ParameterServer) (wk : Worker).
Hypothesis Hserver :
  virtual_allocate_parameter_server (t, w)
    = (Returned ps, (t, set_servers (insert ps srv) w)).
Hypothesis Hworker : outcome (virtual_allocate_worker (t, w)) = Returned wk.
Hypothesis Hthread : parameter_server_thread t = None.

Local Abbreviation tid := (fresh (dom (threads w))).
Local Abbreviation started :=
  (snd (thread_start (Some ps) (set_servers (insert ps srv) w))).

(** [train] up to the epochs, for any [shuffle] argument whose call
    returns: the choice between [coalesce] and [repartition] is made on the
    number of partitions that the dataset had before the shuffle. *)
Lemma train_shuffles_then_adjusts (shuffle : PyValue) (df' out : DataFrame) (n : Z) :
  partition_target path t = Some n ->
  shuffled shuffle df = inr df' ->
  (if getNumPartitions df >? n then spark_coalesce n df' else spark_repartition n df')
    = inr out ->
  train_body path df shuffle (t, w)
    = epochs_and_shutdown wk out
        (serving t ps tid,
         log (if getNumPartitions df >? n then EvCoalesce n out else EvRepartition n out)
           started).
Proof.
  intros Htarget Hshuffle Hout.
  assert (Hadjust : forall w0,
            (if getNumPartitions df >? n then coalesce n df' else repartition n df') w0
            = (Returned out,
               log (if getNumPartitions df >? n then EvCoalesce n out
                    else EvRepartition n out) w0)).
  { intros w0. destruct (getNumPartitions df >? n);
      [now apply coalesce_eq | now apply repartition_eq]. }
  assert (Hshuffled : forall s : obj * World,
            (if truthy shuffle then of_sum (call_value shuffle df) else mret df) s
            = (Returned df', s)).
  { intros s. unfold shuffled in Hshuffle. destruct (truthy shuffle).
    - now rewrite Hshuffle.
    - now injection Hshuffle as ->. }
  destruct path; cbn [train_body partition_target] in *;
    unfold DistributedTrainer.train, AsynchronousDistributedTrainer.train;
    (step by exact Hserver);
    (step by reflexivity);
    (step by (apply start_service_without_thread; exact Hthread));
    (step by (apply (allocate_worker_returns _ _ _ Hworker)));
    (step by apply Hshuffled).
  - injection Htarget as <-.
    step by reflexivity.
    step by (unfold in_world; cbn [fst snd]; rewrite Hadjust; reflexivity).
    reflexivity.
  - destruct (parallelism_factor t) as [factor |] eqn:Hfactor; [| discriminate].
    injection Htarget as <-.
    step by reflexivity.
    step by (cbn [parallelism_factor serving set_parameter_server
                    set_parameter_server_thread]; rewrite Hfactor; reflexivity).
    step by (unfold in_world; cbn [fst snd]; rewrite Hadjust; reflexivity).
    reflexivity.
Qed.

(** The epoch loop when it has no iteration or when no partition fails. *)
Lemma epochs_return_or_skip (out : DataFrame) (N : nat) (o : obj) (w0 : World) :
  N = 0%nat \/ first_failure wk 0 out = None ->
  for_range N (in_world (mapPartitionsWithIndex_collect wk out);; mret tt) (o, w0)
    = (Returned tt, (o, log_all (rounds N (length out)) w0)).
Proof.
  intros [-> | Hnone].
  - cbn. now rewrite log_all_nil.
  - now apply epochs_return.
Qed.

(** A run in which no partition fails, with all that it leaves behind. *)
Lemma train_returns_in_full (out : DataFrame) (n : Z) :
  partition_target path t = Some n ->
  adjusted_dataframe n df = inr out ->
  Z.to_nat (num_epoch t) = 0%nat \/ first_failure wk 0 out = None ->
  exists t' w',
    train_body path df (PyBool false) (t, w)
      = (Returned (deserialize_keras_model (ps_model srv)), (t', w')) /\
    events w'
      = events w
        ++ [EvThreadStart tid; adjustment n df out]
        ++ rounds (Z.to_nat (num_epoch t)) (length out)
        ++ [EvServerStop ps; EvThreadJoin tid] /\
    parameter_server t' = Some ps /\
    parameter_server_thread t' = None /\
    threads w' = delete tid (insert tid (Some ps) (threads w)) /\
    (exists srv', servers w' !! ps = Some srv' /\ ps_running srv' = false) /\
    training_time (super t')
      = (time_source w (S (clock_reads w)) - time_source w (clock_reads w))%Q /\
    clock_reads w' = S (S (clock_reads w)) /\
    same_configuration t t' /\
    (forall p, p <> ps -> servers w' !! p = servers w !! p).
Proof.
  intros Htarget Hout Hnone.
  rewrite (train_shuffles_then_adjusts (PyBool false) df out n Htarget eq_refl Hout).
  destruct (running_after_start ps tid srv [adjustment n df out] w) as (Htid & Hsrv).
  eexists _, _. split.
  - unfold epochs_and_shutdown.
    step by apply record_training_start_eq.
    step by reflexivity.
    step by apply (epochs_return_or_skip out _ _ _ Hnone).
    step by apply record_training_end_eq.
    step by (eapply stop_service_of_running_thread;
             [reflexivity | reflexivity | exact Htid | exact Hsrv]).
    step by reflexivity.
    step by reflexivity.
    unfold in_world, server_get_model. cbn [fst snd].
    cbn [servers log log_all set_threads set_servers tick].
    cbn [servers log log_all set_threads set_servers tick] in Hsrv.
    rewrite lookup_alter_eq, Hsrv. cbn. reflexivity.
  - cbn. rewrite <- !app_assoc.
    rewrite lookup_alter_eq, lookup_alter_eq, lookup_insert_eq. cbn.
    unfold same_configuration. cbn.
    repeat split.
    + eexists. split; reflexivity.
    + intros p Hp. now rewrite !lookup_alter_ne, lookup_insert_ne by congruence.
Qed.

(** A run in which a partition fails, with all that it leaves behind. *)
Lemma train_raises_in_full (out : DataFrame) (n : Z) (e : Exception) :
  partition_target path t = Some n ->
  adjusted_dataframe n df = inr out ->
  0 < num_epoch t ->
  first_failure wk 0 out = Some e ->
  exists k w',
    train_body path df (PyBool false) (t, w)
      = (Raised e,
         (with_base (set_training_time_start (time_source w (clock_reads w)))
            (with_base (set_training_time 0%Q) (serving t ps tid)),
          w')) /\
    events w'
      = events w ++ [EvThreadStart tid; adjustment n df out]
        ++ map EvWorkerTrain (seq 0 (S k)) /\
    threads w' = insert tid (Some ps) (threads w) /\
    servers w' !! ps = Some (set_ps_running true srv) /\
    clock_reads w' = S (clock_reads w).
Proof.
  intros Htarget Hout Hepoch Hfail.
  rewrite (train_shuffles_then_adjusts (PyBool false) df out n Htarget eq_refl Hout).
  destruct (epochs_and_shutdown_raise wk out (serving t ps tid)
              (log (adjustment n df out) started) e Hfail Hepoch) as (k & Hk).
  exists k. eexists. split; [exact Hk |].
  cbn. rewrite <- !app_assoc, lookup_alter_eq, lookup_insert_eq. repeat split.
Qed.

End Runs.

Lemma worker_invocations_app (es1 es2 : list Event) :
  worker_invocations (es1 ++ es2)
  = (worker_invocations es1 + worker_invocations es2)%nat.
Proof. unfold worker_invocations. now rewrite List.filter_app, length_app. Qed.

Lemma worker_invocations_rounds (N n : nat) :
  worker_invocations (rounds N n) = (N * n)%nat.
Proof.
  assert (Hround : forall l, worker_invocations (map EvWorkerTrain l) = length l).
  { induction l as [| i l IH]; [reflexivity |].
    unfold worker_invocations in *. cbn. now rewrite IH. }
  unfold rounds. induction N as [| N IH]; [reflexivity |].
  cbn [replicate concat]. rewrite worker_invocations_app, IH, Hround, length_seq. lia.
Qed.

Lemma worker_invocations_of_a_run (tid ps : nat) (n : Z) (df out : DataFrame) (N k : nat) :
  worker_invocations
    ([EvThreadStart tid; adjustment n df out] ++ rounds N k
     ++ [EvServerStop ps; EvThreadJoin tid])
  = (N * k)%nat.
Proof.
  rewrite !worker_invocations_app, worker_invocations_rounds.
  unfold adjustment. destruct (getNumPartitions df >? n); cbn; lia.
Qed.

(** What the hypotheses on a trainer that is ready to train give. *)
Lemma ready_to_train `{Collaborators} (path : TrainPath) (t : obj) (w : World)
    (df : DataFrame) (ps : nat) (F : Z) :
  outcome (virtual_allocate_parameter_server (t, w)) = Returned ps ->
  factor_of path t = Some F ->
  0 < num_workers t * F ->
  exists srv out,
    ps_model srv = master_model (super t) /\
    virtual_allocate_parameter_server (t, w)
      = (Returned ps, (t, set_servers (insert ps srv) w)) /\
    partition_target path t = Some (num_workers t * F) /\
    adjusted_dataframe (num_workers t * F) df = inr out /\
    getNumPartitions out = num_workers t * F.
Proof.
  intros Hps HF Hpos.
  destruct (allocate_parameter_server_builds t w ps Hps) as (srv & Hmodel & _ & _ & Hsrv).
  destruct (adjust_partitions (num_workers t * F) df Hpos) as (out & Hout & Hlen & _).
  exists srv, out. repeat split; try assumption.
  now apply partition_target_is_workers_times_factor.
Qed.

(** ** Rounds *)

(** X7: when the worker function succeeds, [train] runs exactly
    [num_epoch] rounds, one after the other; each round invokes the worker
    once on every partition of the adjusted dataset, in the order of their
    indices; then the server is told to stop and the thread is joined:
    [num_epoch * W * F] invocations in all, and no thread is left. *)
Theorem train_runs_one_round_per_epoch `{Collaborators}
    (path : TrainPath) (t : obj) (w : World) (df : DataFrame)
    (ps : nat) (wk : Worker) (F : Z) :
  outcome (virtual_allocate_parameter_server (t, w)) = Returned ps ->
  outcome (virtual_allocate_worker (t, w)) = Returned wk ->
  parameter_server_thread t = None ->
  factor_of path t = Some F ->
  0 < num_workers t * F ->
  workers_succeed ->
  let tid := fresh (dom (threads w)) in
  let n := Z.to_nat (num_workers t * F) in
  let N := Z.to_nat (num_epoch t) in
  exists out model t' w',
    train_body path df (PyBool false) (t, w) = (Returned model, (t', w')) /\
    events w'
      = events w
        ++ [EvThreadStart tid; adjustment (num_workers t * F) df out]
        ++ concat (replicate N (map EvWorkerTrain (seq 0 n)))
        ++ [EvServerStop ps; EvThreadJoin tid] /\
    worker_invocations (events w') = (worker_invocations (events w) + N * n)%nat /\
    parameter_server_thread t' = None /\
    thread_running w' tid = false.
Proof.
  intros Hps Hwk Hth HF Hpos Hok tid n N.
  destruct (ready_to_train path t w df ps F Hps HF Hpos)
    as (srv & out & _ & Hsrv & Htarget & Hout & Hlen).
  destruct (train_returns_in_full path t w df ps srv wk Hsrv Hwk Hth out _ Htarget Hout
              (or_intror (workers_succeed_no_failure wk out Hok 0%nat)))
    as (t' & w' & Hrun & Hev & _ & Hnone & Hthreads & _).
  assert (Hn : length out = n) by (unfold getNumPartitions in Hlen; lia).
  rewrite Hn in Hev.
  exists out. eexists _, t', w'. split; [exact Hrun |]. split; [exact Hev |].
  split; [| split; [exact Hnone |]].
  - rewrite Hev, worker_invocations_app. f_equal. apply worker_invocations_of_a_run.
  - unfold thread_running. rewrite Hthreads, lookup_delete_eq. reflexivity.
Qed.

(** X7 at a [DOWNPOUR] trainer with four workers and three epochs, on ten
    partitions. *)
Lemma train_runs_one_round_per_epoch_witness :
  exists out model t' w',
    train_body (H := sample_collaborators) ScaledTrain (sample_dataframe 10) (PyBool false)
      (mkObj cDOWNPOUR sample_trainer 4 32 "features" "label" 3 None None
         (Some 2) (Some (1 # 100)%Q) (Some 2) None None (Some "10.0.0.1"%string)
         (Some 5000),
       sample_world)
      = (Returned model, (t', w')) /\
    events w'
      = [EvThreadStart 0; EvCoalesce 8 out]
        ++ concat (replicate 3 (map EvWorkerTrain (seq 0 8)))
        ++ [EvServerStop 0; EvThreadJoin 0] /\
    worker_invocations (events w') = 24%nat.
Proof.
  destruct (train_runs_one_round_per_epoch (H := sample_collaborators) ScaledTrain
              (mkObj cDOWNPOUR sample_trainer 4 32 "features" "label" 3 None None
                 (Some 2) (Some (1 # 100)%Q) (Some 2) None None (Some "10.0.0.1"%string)
                 (Some 5000))
              sample_world (sample_dataframe 10) 0%nat sample_worker 2)
    as (out & model & t' & w' & Hrun & Hev & Hcount & _);
    [reflexivity | reflexivity | reflexivity | reflexivity | reflexivity
    | intros wk i p; eexists; reflexivity |].
  exists out, model, t', w'. repeat split; assumption.
Defined.

(** ** What the timing measures *)

Section Readings.
Context `{Collaborators}.
Variables (path : TrainPath) (t : obj) (w : World) (df : DataFrame).
Variables (ps : nat) (srv : ParameterServer) (wk : Worker).
Hypothesis Hserver :
  virtual_allocate_parameter_server (t, w)
    = (Returned ps, (t, set_servers (insert ps srv) w)).
Hypothesis Hworker : outcome (virtual_allocate_worker (t, w)) = Returned wk.
Hypothesis Hthread : parameter_server_thread t = None.



End Readings.



(** X9: after a [train] that a failure of the worker ended,
    [get_training_time] returns 0: the start of the training was recorded
    (and the stored time reset), its end never was, and the end timestamp is
    the one of the previous session. *)
Theorem failed_train_reports_no_time `{Collaborators}
    (path : TrainPath) (t : obj) (w : World) (df out : DataFrame)
    (ps : nat) (wk : Worker) (F : Z) (e : Exception) :
  outcome (virtual_allocate_parameter_server (t, w)) = Returned ps ->
  outcome (virtual_allocate_worker (t, w)) = Returned wk ->
  parameter_server_thread t = None ->
  factor_of path t = Some F ->
  0 < num_workers t * F ->
  0 < num_epoch t ->
  adjusted_dataframe (num_workers t * F) df = inr out ->
  first_failure wk 0 out = Some e ->
  exists t' w',
    train_body path df (PyBool false) (t, w) = (Raised e, (t', w')) /\
    outcome (Trainer_.get_training_time (t', w')) = Returned 0%Q /\
    training_time_start (super t') = time_source w (clock_reads w) /\
    training_time_end (super t') = training_time_end (super t) /\
    clock_reads w' = S (clock_reads w).
Proof.
  intros Hps Hwk Hth HF Hpos Hepoch Hout Hfail.
  destruct (allocate_parameter_server_builds t w ps Hps) as (srv & _ & _ & _ & Hsrv).
  apply partition_target_is_workers_times_factor in HF.
  destruct (train_raises_in_full path t w df ps srv wk Hsrv Hwk Hth out _ e HF Hout
              Hepoch Hfail) as (k & w' & Hrun & _ & _ & _ & Hreads).
  eexists _, w'. split; [exact Hrun |].
  rewrite get_training_time_eq. cbn. repeat split. exact Hreads.
Qed.

(** X9 at collaborators whose worker raises on partition 1. *)
Lemma failed_train_reports_no_time_witness :
  exists t' w',
    train_body (H := failing_collaborators) ScaledTrain (sample_dataframe 10) (PyBool false)
      (sample_downpour, sample_world)
      = (Raised (WorkerFailure "partition 1"), (t', w')) /\
    outcome (Trainer_.get_training_time (t', w')) = Returned 0%Q.
Proof.
  destruct (failed_train_reports_no_time (H := failing_collaborators) ScaledTrain
              sample_downpour sample_world (sample_dataframe 10) sample_coalesced
              0%nat sample_worker 2 (WorkerFailure "partition 1"))
    as (t' & w' & Hrun & Htime & _);
    [reflexivity | reflexivity | reflexivity | reflexivity | reflexivity | reflexivity
    | reflexivity | reflexivity |].
  exists t', w'. split; assumption.
Defined.

(** ** No epoch *)

(** X10: with [num_epoch <= 0], [train] invokes no worker, whether the
    worker function would succeed or not; it still allocates the server,
    starts the service, adjusts the partitions and stops the service, and
    it returns the model of that server, which is the trainer's master
    model. *)
Theorem train_without_epoch_invokes_no_worker `{Collaborators}
    (path : TrainPath) (t : obj) (w : World) (df : DataFrame)
    (ps : nat) (wk : Worker) (F : Z) :
  outcome (virtual_allocate_parameter_server (t, w)) = Returned ps ->
  outcome (virtual_allocate_worker (t, w)) = Returned wk ->
  parameter_server_thread t = None ->
  factor_of path t = Some F ->
  0 < num_workers t * F ->
  num_epoch t <= 0 ->
  let tid := fresh (dom (threads w)) in
  exists out t' w',
    train_body path df (PyBool false) (t, w)
      = (Returned (deserialize_keras_model (master_model (super t))), (t', w')) /\
    events w'
      = events w
        ++ [EvThreadStart tid; adjustment (num_workers t * F) df out;
            EvServerStop ps; EvThreadJoin tid] /\
    getNumPartitions out = num_workers t * F /\
    parameter_server_thread t' = None.
Proof.
  intros Hps Hwk Hth HF Hpos Hepoch tid.
  destruct (ready_to_train path t w df ps F Hps HF Hpos)
    as (srv & out & Hmodel & Hsrv & Htarget & Hout & Hlen).
  destruct (train_returns_in_full path t w df ps srv wk Hsrv Hwk Hth out _ Htarget Hout)
    as (t' & w' & Hrun & Hev & _ & Hnone & _); [left; lia |].
  exists out, t', w'. rewrite <- Hmodel. split; [exact Hrun |].
  split; [| split; assumption].
  rewrite Hev. replace (Z.to_nat (num_epoch t)) with 0%nat by lia. reflexivity.
Qed.

(** X10 at a [DOWNPOUR] trainer with [num_epoch = 0] whose worker would
    raise. *)
Lemma train_without_epoch_invokes_no_worker_witness :
  exists out t' w',
    train_body (H := failing_collaborators) ScaledTrain (sample_dataframe 10) (PyBool false)
      (mkObj cDOWNPOUR sample_trainer 4 32 "features" "label" 0 None None
         (Some 2) (Some (1 # 100)%Q) (Some 2) None None (Some "10.0.0.1"%string)
         (Some 5000),
       sample_world)
      = (Returned [], (t', w')) /\
    events w' = [EvThreadStart 0; EvCoalesce 8 out; EvServerStop 0; EvThreadJoin 0] /\
    getNumPartitions out = 8.
Proof.
  destruct (train_without_epoch_invokes_no_worker (H := failing_collaborators) ScaledTrain
              (mkObj cDOWNPOUR sample_trainer 4 32 "features" "label" 0 None None
                 (Some 2) (Some (1 # 100)%Q) (Some 2) None None (Some "10.0.0.1"%string)
                 (Some 5000))
              sample_world (sample_dataframe 10) 0%nat sample_worker 2)
    as (out & t' & w' & Hrun & Hev & Hlen & _);
    [reflexivity | reflexivity | reflexivity | reflexivity | reflexivity | cbn; lia |].
  exists out, t', w'. repeat split; assumption.
Defined.

(** ** The service *)

Lemma fresh_server_is_new (w : World) (ps : nat) (srv : ParameterServer) :
  servers w !! ps = Some srv -> fresh (dom (servers w)) <> ps.
Proof.
  intros Hsrv Heq. apply (is_fresh (dom (servers w))). rewrite Heq.
  apply elem_of_dom. now exists srv.
Qed.

Lemma fresh_thread_is_unknown (w : World) :
  threads w !! fresh (dom (threads w)) = None.
Proof. apply not_elem_of_dom. apply is_fresh. Qed.

(** X11: [train] called on a trainer that still holds a thread running
    the loop of an earlier server (as after a [train] that failed) never
    returns, whatever its arguments: it allocates a new server, and
    [start_service] then sends [stop] to that new server and joins the old
    thread, whose server is never told to stop. *)
Theorem train_blocks_on_a_running_service `{Collaborators}
    (path : TrainPath) (t : obj) (w : World) (df : DataFrame) (shuffle : PyValue)
    (ps tid old : nat) (srv : ParameterServer) :
  outcome (virtual_allocate_parameter_server (t, w)) = Returned ps ->
  parameter_server_thread t = Some tid ->
  threads w !! tid = Some (Some old) ->
  servers w !! old = Some srv ->
  ps_running srv = true ->
  exists w',
    train_body path df shuffle (t, w) = (Blocked, (set_parameter_server (Some ps) t, w')) /\
    events w' = events w ++ [EvServerStop ps] /\
    ps <> old /\
    servers w' !! old = Some srv /\
    thread_running w' tid = true.
Proof.
  intros Hps Hth Htid Hold Hrunning.
  destruct (allocate_parameter_server_builds t w ps Hps) as (new & _ & _ & Hfresh & Hnew).
  assert (Hne : ps <> old) by (rewrite Hfresh; now apply (fresh_server_is_new w old srv)).
  assert (Hservers :
            servers (log (EvServerStop ps)
                       (set_servers (alter (set_ps_running false) ps)
                          (set_servers (insert ps new) w))) !! old = Some srv).
  { cbn. now rewrite lookup_alter_ne, lookup_insert_ne by exact Hne. }
  assert (Hjoin :
            thread_running
              (log (EvServerStop ps)
                 (set_servers (alter (set_ps_running false) ps)
                    (set_servers (insert ps new) w))) tid = true).
  { unfold thread_running.
    change (threads (log (EvServerStop ps)
                       (set_servers (alter (set_ps_running false) ps)
                          (set_servers (insert ps new) w)))) with (threads w).
    now rewrite Htid, Hservers. }
  exists (log (EvServerStop ps)
            (set_servers (alter (set_ps_running false) ps)
               (set_servers (insert ps new) w))).
  split; [| split; [reflexivity | split; [exact Hne | split; [exact Hservers | exact Hjoin]]]].
  assert (Hstop : stop_service (set_parameter_server (Some ps) t,
                                set_servers (insert ps new) w)
                  = (Blocked,
                     (set_parameter_server (Some ps) t,
                      log (EvServerStop ps)
                        (set_servers (alter (set_ps_running false) ps)
                           (set_servers (insert ps new) w))))).
  { unfold stop_service.
    step by reflexivity. step by reflexivity. step by reflexivity. step by reflexivity.
    cbn [parameter_server_thread set_parameter_server]. rewrite Hth.
    step by reflexivity.
    apply bind_blocked. unfold in_world, thread_join. cbn [fst snd]. now rewrite Hjoin. }
  assert (Hstart : start_service (set_parameter_server (Some ps) t,
                                  set_servers (insert ps new) w)
                   = (Blocked,
                      (set_parameter_server (Some ps) t,
                       log (EvServerStop ps)
                         (set_servers (alter (set_ps_running false) ps)
                            (set_servers (insert ps new) w))))).
  { unfold start_service. step by reflexivity.
    cbn [parameter_server_thread set_parameter_server]. rewrite Hth.
    rewrite bool_decide_eq_false_2 by discriminate. cbn [negb].
    apply bind_blocked. exact Hstop. }
  destruct path; cbn [train_body];
    unfold DistributedTrainer.train, AsynchronousDistributedTrainer.train;
    (step by exact Hnew); (step by reflexivity);
    apply bind_blocked; exact Hstart.
Qed.

(** X11 at the trainer left by a [train] that failed on partition 1. *)
Lemma train_blocks_on_a_running_service_witness :
  exists w',
    invoke_train (H := failing_collaborators) (sample_dataframe 10) (PyBool false)
      state_after_failed_train
      = (Blocked, (set_parameter_server (Some 1%nat) (fst state_after_failed_train), w')) /\
    thread_running w' 0 = true.
Proof.
  destruct (train_blocks_on_a_running_service (H := failing_collaborators) ScaledTrain
              (fst state_after_failed_train) (snd state_after_failed_train)
              (sample_dataframe 10) (PyBool false) 1%nat 0%nat 0%nat
              (mkParameterServer DOWNPOURParameterServer "weights" (1 # 100)%Q None None
                 5000 true 0))
    as (w' & Hrun & _ & _ & _ & Hstill);
    [reflexivity | reflexivity | reflexivity | reflexivity | reflexivity |].
  exists w'. split; assumption.
Defined.

(** X12: [start_service] on a trainer whose thread runs the loop of its
    current server stops that server and joins the thread before it starts
    a new thread: the old thread is gone when the new one starts, and the
    trainer holds the new one. *)
Theorem start_service_stops_the_running_service
    (t : obj) (w : World) (ps tid : nat) (srv : ParameterServer) :
  parameter_server t = Some ps ->
  parameter_server_thread t = Some tid ->
  threads w !! tid = Some (Some ps) ->
  servers w !! ps = Some srv ->
  let tid' := fresh (dom (delete tid (threads w))) in
  exists w',
    start_service (t, w) = (Returned tt, (set_parameter_server_thread (Some tid') t, w')) /\
    events w' = events w ++ [EvServerStop ps; EvThreadJoin tid; EvThreadStart tid'] /\
    threads w' = insert tid' (Some ps) (delete tid (threads w)) /\
    thread_running w' tid' = true.
Proof.
  intros Hps Hth Htid Hsrv tid'.
  eexists. split.
  - unfold start_service. step by reflexivity. rewrite Hth.
    rewrite bool_decide_eq_false_2 by discriminate. cbn [negb].
    step by (eapply stop_service_of_running_thread; eassumption).
    step by reflexivity.
    cbn [parameter_server set_parameter_server_thread]. rewrite Hps.
    step by reflexivity.
    reflexivity.
  - cbn. rewrite <- !app_assoc. repeat split.
    unfold thread_running. cbn. rewrite lookup_insert_eq, !lookup_alter_eq, Hsrv.
    reflexivity.
Qed.

(** X12 at a trainer whose thread 0 runs the loop of its server 0. *)
Lemma start_service_stops_the_running_service_witness :
  exists w',
    start_service (serving sample_downpour 0 0, world_serving)
      = (Returned tt, (serving sample_downpour 0 0, w')) /\
    events w' = [EvServerStop 0; EvThreadJoin 0; EvThreadStart 0] /\
    thread_running w' 0 = true.
Proof.
  destruct (start_service_stops_the_running_service (serving sample_downpour 0 0)
              world_serving 0%nat 0%nat (set_ps_running true sample_server))
    as (w' & Hrun & Hev & _ & Hrunning);
    [reflexivity | reflexivity | reflexivity | reflexivity |].
  exists w'. repeat split; assumption.
Defined.

(** X13: on a trainer that holds an allocated server and no thread,
    [start_service] followed by [stop_service] returns, leaves the trainer
    without thread, the server stopped, and the threads of the world as
    they were. *)
Theorem start_then_stop_leaves_no_thread
    (t : obj) (w : World) (ps : nat) (srv : ParameterServer) :
  parameter_server t = Some ps ->
  parameter_server_thread t = None ->
  servers w !! ps = Some srv ->
  let tid := fresh (dom (threads w)) in
  exists w',
    (start_service;; stop_service) (t, w) = (Returned tt, (t, w')) /\
    events w' = events w ++ [EvThreadStart tid; EvServerStop ps; EvThreadJoin tid] /\
    threads w' = threads w /\
    servers w' !! ps = Some (set_ps_running false srv).
Proof.
  intros Hps Hth Hsrv tid. subst tid.
  assert (Hsame : forall x, set_parameter_server_thread None
                              (set_parameter_server_thread (Some x) t) = t).
  { intros x. destruct t. cbn in Hth. subst. reflexivity. }
  eexists. split.
  - step by (apply start_service_without_thread; exact Hth).
    rewrite Hps.
    erewrite stop_service_of_running_thread;
      [ rewrite Hsame; reflexivity
      | exact Hps
      | reflexivity
      | cbn; now rewrite lookup_insert_eq
      | cbn; rewrite lookup_alter_eq, Hsrv; reflexivity ].
  - cbn. rewrite <- !app_assoc.
    rewrite delete_insert_id by apply fresh_thread_is_unknown.
    rewrite !lookup_alter_eq, Hsrv. repeat split.
Qed.

(** X13 at a trainer that holds server 0. *)
Lemma start_then_stop_leaves_no_thread_witness :
  exists w',
    (start_service;; stop_service)
      (set_parameter_server (Some 0%nat) sample_downpour, world_with_server)
      = (Returned tt, (set_parameter_server (Some 0%nat) sample_downpour, w')) /\
    events w' = [EvThreadStart 0; EvServerStop 0; EvThreadJoin 0] /\
    threads w' = threads world_with_server.
Proof.
  destruct (start_then_stop_leaves_no_thread
              (set_parameter_server (Some 0%nat) sample_downpour) world_with_server
              0%nat sample_server)
    as (w' & Hrun & Hev & Hthreads & _); [reflexivity | reflexivity | reflexivity |].
  exists w'. repeat split; assumption.
Defined.

(** ** The parallelism factor *)

Lemma hooks_of_same_configuration (t t' : obj) (w : World) :
  same_configuration t t' ->
  outcome (virtual_allocate_parameter_server (t', w))
    = outcome (virtual_allocate_parameter_server (t, w)) /\
  outcome (virtual_allocate_worker (t', w)) = outcome (virtual_allocate_worker (t, w)).
Proof.
  destruct t as [c [m l o h ts te tt] nw bs fc lc ne srv th pf lr cw r mo mh mp].
  destruct t' as [c' [m' l' o' h' ts' te' tt'] nw' bs' fc' lc' ne' srv' th' pf' lr' cw' r'
                    mo' mh' mp'].
  unfold same_configuration. cbn.
  intros (-> & -> & -> & -> & -> & -> & -> & -> & -> & -> & -> & -> & -> & -> & -> & ->).
  unfold virtual_allocate_parameter_server, virtual_allocate_worker, method_resolution,
    DistributedTrainer.allocate_parameter_server, DistributedTrainer.allocate_worker,
    DOWNPOUR.allocate_parameter_server, DOWNPOURSocket.allocate_parameter_server,
    AEASGD.allocate_parameter_server, EAMSGD.allocate_parameter_server,
    DOWNPOUR.allocate_worker, DOWNPOURSocket.allocate_worker,
    AEASGD.allocate_worker, EAMSGD.allocate_worker, new_server.
  split.
  - destruct c, lr, mp, r, mo; run; reflexivity.
  - destruct c, lr, mp, r, mo, mh, cw; run; reflexivity.
Qed.

Lemma hooks_in_another_world (t : obj) (w w0 : World) (ps : nat) (wk : Worker) :
  outcome (virtual_allocate_parameter_server (t, w)) = Returned ps ->
  outcome (virtual_allocate_worker (t, w)) = Returned wk ->
  outcome (virtual_allocate_parameter_server (t, w0)) = Returned (fresh (dom (servers w0))) /\
  outcome (virtual_allocate_worker (t, w0)) = Returned wk.
Proof.
  intros Hps Hwk. split.
  - destruct t as [c b nw bs fc lc ne srv th pf lr cw r mo mh mp].
    revert Hps.
    unfold virtual_allocate_parameter_server, method_resolution,
      DistributedTrainer.allocate_parameter_server,
      DOWNPOUR.allocate_parameter_server, DOWNPOURSocket.allocate_parameter_server,
      AEASGD.allocate_parameter_server, EAMSGD.allocate_parameter_server, new_server.
    destruct c, lr, mp, r, mo; run; cbn; try discriminate; reflexivity.
  - pose proof (allocate_worker_returns t w wk Hwk (parameter_server_thread t)
                  (parameter_server t) w0) as Hsame.
    replace (set_parameter_server_thread (parameter_server_thread t)
               (set_parameter_server (parameter_server t) t)) with t in Hsame
      by (now destruct t).
    now rewrite Hsame.
Qed.

(** X14: after [set_parallelism_factor(k)], [get_parallelism_factor]
    returns [k], and [train] adjusts the dataset to [num_workers * k]
    partitions and trains on the adjusted dataset, whatever the factor was
    before: the call logged right after the start of the service is
    [coalesce(num_workers * k)] or [repartition(num_workers * k)] of the
    dataset, the dataset [out] that it returns has exactly
    [num_workers * k] partitions, and what follows in the log is the epoch
    loop over [out] and the shutdown. *)
Theorem set_parallelism_factor_sets_the_target `{Collaborators}
    (t : obj) (w : World) (df : DataFrame) (ps : nat) (wk : Worker) (k : Z) :
  outcome (virtual_allocate_parameter_server (t, w)) = Returned ps ->
  outcome (virtual_allocate_worker (t, w)) = Returned wk ->
  parameter_server_thread t = None ->
  0 < num_workers t * k ->
  let s1 := final (AsynchronousDistributedTrainer.set_parallelism_factor k (t, w)) in
  outcome (AsynchronousDistributedTrainer.get_parallelism_factor s1) = Returned k /\
  exists out rest,
    (if getNumPartitions df >? num_workers t * k
     then spark_coalesce (num_workers t * k) df
     else spark_repartition (num_workers t * k) df) = inr out /\
    getNumPartitions out = num_workers t * k /\
    events (snd (final (AsynchronousDistributedTrainer.train df (PyBool false) s1)))
      = events w
        ++ [EvThreadStart (fresh (dom (threads w)));
            if getNumPartitions df >? num_workers t * k
            then EvCoalesce (num_workers t * k) out
            else EvRepartition (num_workers t * k) out]
        ++ rest /\
    Forall after_adjustment rest /\
    trained_on wk (num_epoch t) out ps (fresh (dom (threads w))) rest.
Proof.
  intros Hps Hwk Hth Hpos s1. subst s1.
  change (final (AsynchronousDistributedTrainer.set_parallelism_factor k (t, w)))
    with (set_parallelism_factor (Some k) t, w).
  split; [reflexivity |].
  assert (Hhooks :
            outcome (virtual_allocate_parameter_server
                       (set_parallelism_factor (Some k) t, w)) = Returned ps /\
            outcome (virtual_allocate_worker (set_parallelism_factor (Some k) t, w))
              = Returned wk).
  { revert Hps Hwk.
    destruct t as [c b nw bs fc lc ne srv th pf lr cw r mo mh mp].
    destruct c, lr, mp, r, mo, mh, cw; intros Hps Hwk; (split; [exact Hps | exact Hwk]). }
  destruct Hhooks as (Hps' & Hwk').
  exact (train_trains_on ScaledTrain (set_parallelism_factor (Some k) t) w df ps wk k
           Hps' Hwk' Hth eq_refl Hpos).
Qed.

(** X14 at the [DOWNPOUR] trainer with four workers, set to factor 1: ten
    partitions are coalesced to four, and the round runs on these four. *)
Lemma set_parallelism_factor_sets_the_target_witness :
  let s1 := final (AsynchronousDistributedTrainer.set_parallelism_factor 1
                     (sample_downpour, sample_world)) in
  outcome (AsynchronousDistributedTrainer.get_parallelism_factor s1) = Returned 1 /\
  exists out,
    spark_coalesce 4 (sample_dataframe 10) = inr out /\
    getNumPartitions out = 4 /\
    events (snd (final (AsynchronousDistributedTrainer.train (H := sample_collaborators)
                          (sample_dataframe 10) (PyBool false) s1)))
      = [EvThreadStart 0; EvCoalesce 4 out]
        ++ map EvWorkerTrain (seq 0 4)
        ++ [EvServerStop 0; EvThreadJoin 0].
Proof.
  destruct (set_parallelism_factor_sets_the_target (H := sample_collaborators)
              sample_downpour sample_world (sample_dataframe 10) 0%nat sample_worker 1)
    as (Hget & out & rest & Hout & Hlen & Hev & _ & Hreturn & _);
    [reflexivity | reflexivity | reflexivity | reflexivity |].
  split; [exact Hget |]. exists out. split; [exact Hout |]. split; [exact Hlen |].
  rewrite Hev, Hreturn.
  - replace (length out) with 4%nat by (unfold getNumPartitions in Hlen; cbn in Hlen; lia).
    reflexivity.
  - right. apply (workers_succeed_no_failure (H := sample_collaborators)).
    intros wk i p. eexists. reflexivity.
Defined.

(** ** A callable as [shuffle] *)

Lemma spark_coalesce_positive (n : Z) (df : DataFrame) :
  0 < n ->
  exists out,
    spark_coalesce n df = inr out /\
    (getNumPartitions df <= n -> out = df).
Proof.
  intros Hn. unfold spark_coalesce.
  destruct (Z.leb_spec n 0) as [Hle | _]; [lia |].
  destruct (Z.leb_spec (getNumPartitions df) n) as [Hle | Hgt].
  - exists df. now split.
  - eexists. split; [reflexivity | lia].
Qed.

(** X15: when the caller passes a callable as [shuffle], [train] applies
    it to the dataset, adjusts the partitions of what it returns and trains
    on the result of that adjustment; but the number of partitions that
    decides between [coalesce] and [repartition] is the one read before the
    shuffle.  So a dataset that had at most W * F partitions is
    repartitioned to exactly W * F, whereas a dataset that had more, and
    that the shuffle reduced to W * F or fewer, is passed to [coalesce],
    which leaves it as the shuffle returned it: the epochs then run on the
    partitions of the shuffled dataset, fewer than W * F. *)
Theorem callable_shuffle_is_applied_before_the_adjustment `{Collaborators}
    (path : TrainPath) (t : obj) (w : World) (df df' : DataFrame)
    (f : DataFrame -> Exception + DataFrame) (ps : nat) (wk : Worker) (F : Z) :
  outcome (virtual_allocate_parameter_server (t, w)) = Returned ps ->
  outcome (virtual_allocate_worker (t, w)) = Returned wk ->
  parameter_server_thread t = None ->
  factor_of path t = Some F ->
  0 < num_workers t * F ->
  f df = inr df' ->
  let n := num_workers t * F in
  exists out rest,
    events (snd (final (train_body path df (PyCallable f) (t, w))))
      = events w
        ++ [EvThreadStart (fresh (dom (threads w)));
            if getNumPartitions df >? n then EvCoalesce n out else EvRepartition n out]
        ++ rest /\
    (if getNumPartitions df >? n then spark_coalesce n df' else spark_repartition n df')
      = inr out /\
    Forall after_adjustment rest /\
    trained_on wk (num_epoch t) out ps (fresh (dom (threads w))) rest /\
    (getNumPartitions df <= n -> getNumPartitions out = n) /\
    (n < getNumPartitions df -> getNumPartitions df' <= n -> out = df').
Proof.
  intros Hps Hwk Hth HF Hpos Hf n.
  destruct (allocate_parameter_server_builds t w ps Hps) as (srv & _ & _ & _ & Hsrv).
  apply partition_target_is_workers_times_factor in HF. fold n in HF.
  destruct (spark_coalesce_positive n df' Hpos) as (out1 & Hout1 & Hkept).
  destruct (spark_repartition_positive n df' Hpos) as (out2 & Hout2 & Hlen2).
  assert (Hout : exists out,
            (if getNumPartitions df >? n then spark_coalesce n df'
             else spark_repartition n df') = inr out /\
            (getNumPartitions df <= n -> getNumPartitions out = n) /\
            (n < getNumPartitions df -> getNumPartitions df' <= n -> out = df')).
  { destruct (Z.gtb_spec (getNumPartitions df) n) as [Hgt | Hle].
    - exists out1. split; [exact Hout1 |]. split; [lia | intros _; exact Hkept].
    - exists out2. split; [exact Hout2 |]. split; [intros _; exact Hlen2 | lia]. }
  destruct Hout as (out & Hout & Hup & Hdown).
  rewrite (train_shuffles_then_adjusts path t w df ps srv wk Hsrv Hwk Hth
             (PyCallable f) df' out n HF Hf Hout).
  destruct (running_after_start ps (fresh (dom (threads w))) srv
              [if getNumPartitions df >? n then EvCoalesce n out else EvRepartition n out] w)
    as (Htid & Hserved).
  destruct (epochs_and_shutdown_trains_on wk out
              (serving t ps (fresh (dom (threads w))))
              (log (if getNumPartitions df >? n then EvCoalesce n out
                    else EvRepartition n out)
                 (snd (thread_start (Some ps) (set_servers (insert ps srv) w))))
              ps (fresh (dom (threads w))) _ eq_refl eq_refl Htid Hserved)
    as (rest & Hev & Hrest & Hon).
  exists out, rest. rewrite Hev. cbn. rewrite <- !app_assoc.
  split; [reflexivity |]. split; [exact Hout |]. split; [exact Hrest |].
  split; [exact Hon |]. split; assumption.
Qed.

(** X15 at a shuffle that returns two partitions: ten partitions, because
    they were more than eight, are passed to [coalesce(8)], which returns
    the two shuffled partitions, and the round runs on these two. *)
Lemma callable_shuffle_is_applied_before_the_adjustment_witness :
  exists out,
    getNumPartitions out = 2 /\
    events (snd (final (train_body (H := sample_collaborators) ScaledTrain
                          (sample_dataframe 10) shuffle_into_two
                          (sample_downpour, sample_world))))
      = [EvThreadStart 0; EvCoalesce 8 out]
        ++ map EvWorkerTrain (seq 0 2)
        ++ [EvServerStop 0; EvThreadJoin 0].
Proof.
  destruct (spark_repartition_positive 2 (sample_dataframe 10)) as (df' & Hdf' & Hlen);
    [lia |].
  destruct (callable_shuffle_is_applied_before_the_adjustment (H := sample_collaborators)
              ScaledTrain sample_downpour sample_world (sample_dataframe 10) df'
              (fun df => spark_repartition 2 df) 0%nat sample_worker 2)
    as (out & rest & Hev & _ & _ & (Hreturn & _) & _ & Hkept);
    [reflexivity | reflexivity | reflexivity | reflexivity | reflexivity | exact Hdf' |].
  assert (Hout : out = df')
    by (apply Hkept; [reflexivity | rewrite Hlen; discriminate]).
  exists out. split; [now rewrite Hout |].
  unfold shuffle_into_two. rewrite Hev, Hreturn.
  - replace (length out) with 2%nat
      by (rewrite Hout; unfold getNumPartitions in Hlen; lia).
    reflexivity.
  - right. apply (workers_succeed_no_failure (H := sample_collaborators)).
    intros wk i p. eexists. reflexivity.
Defined.

(** ** Histories *)

Lemma add_history_eq (r : HistoryRecord) (t : Trainer) (w : World) :
  Trainer_.add_history r (t, w)
  = (Returned tt,
     (t, set_lists (insert (history t) (list_content w (history t) ++ [r])) w)).
Proof. reflexivity. Qed.

Lemma add_histories_eq (rs : list HistoryRecord) :
  forall (t : Trainer) (w : World),
    exists w',
      add_histories rs (t, w) = (Returned tt, (t, w')) /\
      list_content w' (history t) = list_content w (history t) ++ rs.
Proof.
  induction rs as [| r rs IH]; intros t w.
  - exists w. split; [reflexivity | now rewrite app_nil_r].
  - destruct (IH t (set_lists (insert (history t) (list_content w (history t) ++ [r])) w))
      as (w' & Hrun & Hcontent).
    exists w'. split.
    + cbn [add_histories]. step by apply add_history_eq. exact Hrun.
    + rewrite Hcontent, list_content_insert, <- app_assoc. reflexivity.
Qed.

(** X16: the records passed to [add_history] after the construction of a
    trainer are its history, in the order of the calls; [has_history] then
    tells whether there was any call, and [get_history] still returns the
    list object that the constructor made. *)
Theorem history_is_the_sequence_of_added_records `{Collaborators}
    (keras_model : KerasModel) (loss worker_optimizer : string) (w : World)
    (rs : list HistoryRecord) :
  exists t w1 w2,
    Trainer_.__init__ keras_model loss worker_optimizer w = (Returned t, w1) /\
    add_histories rs (t, w1) = (Returned tt, (t, w2)) /\
    history_records (t, w2) = rs /\
    outcome (Trainer_.has_history (t, w2)) = Returned (bool_decide (rs <> [])) /\
    outcome (Trainer_.get_history (t, w2)) = Returned (fresh (dom (lists w))).
Proof.
  eexists _, _.
  destruct (add_histories_eq rs
              (mkTrainer (serialize_keras_model keras_model) loss worker_optimizer
                 (fresh (dom (lists w))) 0%Q 0%Q 0%Q)
              (set_lists (insert (fresh (dom (lists w))) []) w)) as (w2 & Hrun & Hcontent).
  exists w2. split; [reflexivity |]. split; [exact Hrun |].
  cbn [history] in Hcontent. rewrite list_content_insert in Hcontent. cbn [app] in Hcontent.
  split; [exact Hcontent |]. split; [| reflexivity].
  change (outcome (Trainer_.has_history
                     (mkTrainer (serialize_keras_model keras_model) loss worker_optimizer
                        (fresh (dom (lists w))) 0%Q 0%Q 0%Q, w2)))
    with (Returned (A := bool)
            (0 <? Z.of_nat (length (list_content w2 (fresh (dom (lists w))))))).
  rewrite Hcontent. now destruct rs.
Qed.

(** ** Training again *)

(** X17: after a [train] that returned, [train] can be called again on
    the same trainer: the second call allocates another server, starts and
    stops its own service and runs its own rounds; the first server stays
    stopped, and no thread is left. *)
Theorem train_can_be_called_again `{Collaborators}
    (path : TrainPath) (t : obj) (w : World) (df1 df2 : DataFrame)
    (ps : nat) (wk : Worker) (F : Z) :
  outcome (virtual_allocate_parameter_server (t, w)) = Returned ps ->
  outcome (virtual_allocate_worker (t, w)) = Returned wk ->
  parameter_server_thread t = None ->
  factor_of path t = Some F ->
  0 < num_workers t * F ->
  workers_succeed ->
  exists model1 model2 s1 s2 ps2,
    train_body path df1 (PyBool false) (t, w) = (Returned model1, s1) /\
    train_body path df2 (PyBool false) s1 = (Returned model2, s2) /\
    ps2 <> ps /\
    parameter_server (fst s2) = Some ps2 /\
    parameter_server_thread (fst s2) = None /\
    threads (snd s2) = threads w /\
    (exists srv1, servers (snd s2) !! ps = Some srv1 /\ ps_running srv1 = false) /\
    worker_invocations (events (snd s2))
      = (worker_invocations (events w)
         + 2 * (Z.to_nat (num_epoch t) * Z.to_nat (num_workers t * F)))%nat.
Proof.
  intros Hps Hwk Hth HF Hpos Hok.
  destruct (ready_to_train path t w df1 ps F Hps HF Hpos)
    as (srv & out1 & _ & Hsrv & Htarget & Hout1 & Hlen1).
  destruct (train_returns_in_full path t w df1 ps srv wk Hsrv Hwk Hth out1 _ Htarget Hout1
              (or_intror (workers_succeed_no_failure wk out1 Hok 0%nat)))
    as (t1 & w1 & Hrun1 & Hev1 & _ & Hnone1 & Hthreads1 & (srv1 & Hsrv1 & Hoff1) & _ & _
        & Hsame & _).
  rewrite delete_insert_id in Hthreads1 by apply fresh_thread_is_unknown.
  destruct (hooks_in_another_world t w w1 ps wk Hps Hwk) as (Hps0 & Hwk0).
  destruct (hooks_of_same_configuration t t1 w1 Hsame) as (Hps1 & Hwk1).
  rewrite Hps0 in Hps1. rewrite Hwk0 in Hwk1.
  pose proof Hsame as (_ & _ & _ & _ & Hnw & _ & _ & _ & Hne & Hpf & _).
  assert (HF1 : factor_of path t1 = Some F)
    by (destruct path; cbn in *; congruence).
  assert (Hpos1 : 0 < num_workers t1 * F) by (rewrite Hnw; exact Hpos).
  destruct (ready_to_train path t1 w1 df2 _ F Hps1 HF1 Hpos1)
    as (srv2 & out2 & _ & Hsrv2 & Htarget2 & Hout2 & Hlen2).
  destruct (train_returns_in_full path t1 w1 df2 _ srv2 wk Hsrv2 Hwk1 Hnone1 out2 _
              Htarget2 Hout2 (or_intror (workers_succeed_no_failure wk out2 Hok 0%nat)))
    as (t2 & w2 & Hrun2 & Hev2 & Hserver2 & Hnone2 & Hthreads2 & _ & _ & _ & _ & Hothers).
  rewrite delete_insert_id in Hthreads2 by apply fresh_thread_is_unknown.
  assert (Hnew : fresh (dom (servers w1)) <> ps)
    by (now apply (fresh_server_is_new w1 ps srv1)).
  eexists _, _, (t1, w1), (t2, w2), (fresh (dom (servers w1))).
  split; [exact Hrun1 |]. split; [exact Hrun2 |]. split; [exact Hnew |].
  cbn [fst snd]. split; [exact Hserver2 |]. split; [exact Hnone2 |].
  split; [congruence |]. split.
  - exists srv1. split; [| exact Hoff1]. rewrite Hothers by congruence. exact Hsrv1.
  - rewrite Hev2, Hev1, Hne, Hnw.
    rewrite worker_invocations_app, worker_invocations_of_a_run.
    rewrite worker_invocations_app, worker_invocations_of_a_run.
    unfold getNumPartitions in Hlen1, Hlen2. rewrite Hnw in Hlen2.
    replace (length out1) with (Z.to_nat (num_workers t * F)) by lia.
    replace (length out2) with (Z.to_nat (num_workers t * F)) by lia.
    lia.
Qed.

(** X17 at the [DOWNPOUR] trainer with four workers, trained on ten and
    then on three partitions. *)
Lemma train_can_be_called_again_witness :
  exists model1 model2 s1 s2,
    train_body (H := sample_collaborators) ScaledTrain (sample_dataframe 10) (PyBool false)
      (sample_downpour, sample_world) = (Returned model1, s1) /\
    train_body (H := sample_collaborators) ScaledTrain (sample_dataframe 3) (PyBool false)
      s1 = (Returned model2, s2) /\
    parameter_server_thread (fst s2) = None /\
    worker_invocations (events (snd s2)) = 16%nat.
Proof.
  destruct (train_can_be_called_again (H := sample_collaborators) ScaledTrain
              sample_downpour sample_world (sample_dataframe 10) (sample_dataframe 3)
              0%nat sample_worker 2)
    as (model1 & model2 & s1 & s2 & ps2 & Hrun1 & Hrun2 & _ & _ & Hnone & _ & _ & Hcount);
    [reflexivity | reflexivity | reflexivity | reflexivity | reflexivity
    | intros wk i p; eexists; reflexivity |].
  exists model1, model2, s1, s2. repeat split; assumption.
Defined.
